(** * Weather-metrics ingestion pipeline (Proj2): a shallow embedding

    The development follows [Proj2/prometheus.go] (gauges, alert thresholds,
    the JSONL metrics file, [isInTSDB]), the request pipeline of the same
    project ([parseLine], [convertToCoordinates], [processRequest], [main])
    and [Proj2/kafka.go] ([WeatherMessage], the payloads, [consumeKafkaTopic]).

    Conventions.
    - A Go [string] is a sequence of bytes: [list ascii].
    - A Go [int] is a 64-bit two's complement integer: a [Z] together with
      the wrap-around [wrap] applied where the source computes.
    - A Go [float64] is a primitive binary64 float.
    - Diagnostics printed with [fmt.Printf] are not part of the model.
    - [os.Exit] and run-time panics are explicit outcomes. *)

From Stdlib Require Import ZArith Ascii String List Bool Lia.
From Stdlib Require Import Floats.
From stdpp Require Import base decidable option list gmap strings.

Import ListNotations.
Set Warnings "-register-all".
Local Open Scope Z_scope.
Local Open Scope list_scope.

Abbreviation gostring := (list ascii).

(** A string literal of the source, as a byte sequence. *)
Definition str (s : string) : gostring := list_ascii_of_string s.

(** The byte value of a character. *)
Definition byte_val (c : ascii) : Z := Z.of_N (N_of_ascii c).

Definition byte_of (z : Z) : ascii := ascii_of_N (Z.to_N z).

(** ** Go [int] *)

Module GoInt.

Definition min_int : Z := - 2 ^ 63.
Definition max_int : Z := 2 ^ 63 - 1.

(** Two's complement wrap-around of a mathematical integer. *)
Definition wrap (z : Z) : Z := (z + 2 ^ 63) mod 2 ^ 64 - 2 ^ 63.

Definition in_range (z : Z) : Prop := min_int <= z <= max_int.

Definition add (a b : Z) : Z := wrap (a + b).
Definition sub (a b : Z) : Z := wrap (a - b).
Definition mul (a b : Z) : Z := wrap (a * b).

End GoInt.

(** ** Package [unicode/utf8] *)

Module utf8.

Definition RuneError : Z := 65533.
Definition RuneSelf : Z := 128.

Definition in_rng (lo hi b : Z) : bool := (lo <=? b) && (b <=? hi).

(** Continuation byte: [0x80 <= b <= 0xBF]. *)
Definition is_cont (b : Z) : bool := in_rng 128 191 b.

(** [DecodeRune p]: the first rune of [p] and its width in bytes.  An empty
    input gives [(RuneError, 0)], an invalid encoding [(RuneError, 1)].
    The masks and shifts of the library are written as the remainders and
    products they compute on byte values. *)
Definition DecodeRune (p : gostring) : Z * nat :=
  match p with
  | [] => (RuneError, 0%nat)
  | c0 :: p1 =>
    let b0 := byte_val c0 in
    if b0 <? RuneSelf then (b0, 1%nat)
    else if in_rng 194 223 b0 then
      match p1 with
      | c1 :: _ =>
        let b1 := byte_val c1 in
        if is_cont b1
        then ((b0 mod 32) * 64 + b1 mod 64, 2%nat)
        else (RuneError, 1%nat)
      | _ => (RuneError, 1%nat)
      end
    else if in_rng 224 239 b0 then
      match p1 with
      | c1 :: c2 :: _ =>
        let b1 := byte_val c1 in
        let b2 := byte_val c2 in
        let lo := if b0 =? 224 then 160 else 128 in
        let hi := if b0 =? 237 then 159 else 191 in
        if in_rng lo hi b1 && is_cont b2
        then ((b0 mod 16) * 4096 + (b1 mod 64) * 64 + b2 mod 64, 3%nat)
        else (RuneError, 1%nat)
      | _ => (RuneError, 1%nat)
      end
    else if in_rng 240 244 b0 then
      match p1 with
      | c1 :: c2 :: c3 :: _ =>
        let b1 := byte_val c1 in
        let b2 := byte_val c2 in
        let b3 := byte_val c3 in
        let lo := if b0 =? 240 then 144 else 128 in
        let hi := if b0 =? 244 then 143 else 191 in
        if in_rng lo hi b1 && is_cont b2 && is_cont b3
        then ((b0 mod 8) * 262144 + (b1 mod 64) * 4096
              + (b2 mod 64) * 64 + b3 mod 64, 4%nat)
        else (RuneError, 1%nat)
      | _ => (RuneError, 1%nat)
      end
    else (RuneError, 1%nat)
  end.

(** [RuneStart b]: [b] is not a continuation byte. *)
Definition RuneStart (b : Z) : bool := negb (is_cont b).

(** [AppendRune r]: the UTF-8 encoding of [r]; surrogates and values
    out of range are encoded as [RuneError]. *)
Definition EncodeRune (r : Z) : gostring :=
  if (0 <=? r) && (r <=? 127) then [byte_of r]
  else if (128 <=? r) && (r <=? 2047) then
    [byte_of (192 + r / 64); byte_of (128 + r mod 64)]
  else if (r <? 0) || (1114111 <? r) || in_rng 55296 57343 r then
    [byte_of 239; byte_of 191; byte_of 189]
  else if r <=? 65535 then
    [byte_of (224 + r / 4096); byte_of (128 + (r / 64) mod 64);
     byte_of (128 + r mod 64)]
  else
    [byte_of (240 + r / 262144); byte_of (128 + (r / 4096) mod 64);
     byte_of (128 + (r / 64) mod 64); byte_of (128 + r mod 64)].

(** [DecodeLastRune]: the last rune of the input, given here on the
    reversed input [r] (last byte first), and its width. *)
Definition DecodeLastRune (r : gostring) : Z * nat :=
  match r with
  | [] => (RuneError, 0%nat)
  | c :: before =>
    if byte_val c <? RuneSelf then (byte_val c, 1%nat)
    else
      (* look back over at most UTFMax = 4 bytes for a rune start *)
      let back :=
        match before with
        | [] => 1%nat
        | d1 :: b1 =>
          if RuneStart (byte_val d1) then 2%nat
          else match b1 with
               | [] => 2%nat
               | d2 :: b2 =>
                 if RuneStart (byte_val d2) then 3%nat
                 else match b2 with
                      | [] => 3%nat
                      | d3 :: _ =>
                        if RuneStart (byte_val d3) then 4%nat else 5%nat
                      end
               end
        end in
      (* [back = 5]: no rune start among the three bytes before the last;
         the decoded slice then starts at a continuation byte or is five
         bytes long, and its first rune cannot end at the last byte *)
      if (back =? 5)%nat then (RuneError, 1%nat)
      else
        let '(rn, size) := DecodeRune (rev (firstn back r)) in
        if (size =? back)%nat then (rn, size) else (RuneError, 1%nat)
  end.

(** [ValidString s]: [s] consists of valid UTF-8 encodings only. *)
Fixpoint valid_fuel (fuel : nat) (s : gostring) : bool :=
  match fuel with
  | O => match s with [] => true | _ => false end
  | S fuel' =>
    match s with
    | [] => true
    | _ =>
      let '(r, size) := DecodeRune s in
      if (r =? RuneError) && (size =? 1)%nat then false
      else valid_fuel fuel' (skipn size s)
    end
  end.

Definition ValidString (s : gostring) : bool := valid_fuel (length s) s.

End utf8.

(** ** Package [unicode] *)

Module unicode.

(** [IsSpace r]: the Unicode White_Space property. *)
Definition IsSpace (r : Z) : bool :=
  utf8.in_rng 9 13 r || (r =? 32) || (r =? 133) || (r =? 160)
  || (r =? 5760) || utf8.in_rng 8192 8202 r || (r =? 8232) || (r =? 8233)
  || (r =? 8239) || (r =? 8287) || (r =? 12288).

End unicode.

(** ** Package [strings] *)

Module strings.

(** [Split s sep] for a one-byte separator: the pieces of [s] between the
    occurrences of [sep]; one more piece than there are separators. *)
Fixpoint Split (s : gostring) (sep : ascii) : list gostring :=
  match s with
  | [] => [[]]
  | c :: s' =>
    if Ascii.eqb c sep then [] :: Split s' sep
    else match Split s' sep with
         | p :: ps => (c :: p) :: ps
         | [] => [[c]]
         end
  end.

(** [SplitN s sep 2] for a one-byte separator: [s] cut at the first
    occurrence of [sep], or [s] alone when [sep] does not occur. *)
Fixpoint SplitN2 (s : gostring) (sep : ascii) : list gostring :=
  match s with
  | [] => [[]]
  | c :: s' =>
    if Ascii.eqb c sep then [[]; s']
    else match SplitN2 s' sep with
         | p :: ps => (c :: p) :: ps
         | [] => [[c]]
         end
  end.

(** Leading white space removed, rune by rune ([TrimLeftFunc]). *)
Fixpoint trim_left_fuel (fuel : nat) (s : gostring) : gostring :=
  match fuel with
  | O => s
  | S fuel' =>
    match s with
    | [] => []
    | _ =>
      let '(r, size) := utf8.DecodeRune s in
      if unicode.IsSpace r then trim_left_fuel fuel' (skipn size s) else s
    end
  end.

Definition TrimLeftSpace (s : gostring) : gostring :=
  trim_left_fuel (length s) s.

(** Trailing white space removed, on the reversed input
    ([TrimRightFunc] walks back with [DecodeLastRune]). *)
Fixpoint trim_right_fuel (fuel : nat) (r : gostring) : gostring :=
  match fuel with
  | O => r
  | S fuel' =>
    match r with
    | [] => []
    | _ =>
      let '(rn, size) := utf8.DecodeLastRune r in
      if unicode.IsSpace rn then trim_right_fuel fuel' (skipn size r) else r
    end
  end.

Definition TrimRightSpace (s : gostring) : gostring :=
  rev (trim_right_fuel (length s) (rev s)).

(** [TrimSpace s]: [s] without leading and trailing white space. *)
Definition TrimSpace (s : gostring) : gostring :=
  TrimRightSpace (TrimLeftSpace s).

(** [Trim s cutset] for a cutset of one-byte characters. *)
Fixpoint trim_left_set (cutset : gostring) (s : gostring) : gostring :=
  match s with
  | c :: s' =>
    if existsb (Ascii.eqb c) cutset then trim_left_set cutset s' else s
  | [] => []
  end.

Definition Trim (s : gostring) (cutset : gostring) : gostring :=
  rev (trim_left_set cutset (rev (trim_left_set cutset s))).

End strings.

(** ** Package [strconv]: integers *)

Module strconv.

Definition is_digit (c : ascii) : bool :=
  utf8.in_rng 48 57 (byte_val c).

Definition digit_val (c : ascii) : Z := byte_val c - 48.

(** The value of a sequence of decimal digits, [None] when a byte is not
    a digit. *)
Fixpoint digits_val (acc : Z) (s : gostring) : option Z :=
  match s with
  | [] => Some acc
  | c :: s' =>
    if is_digit c then digits_val (10 * acc + digit_val c) s' else None
  end.

(** [Atoi s]: [s] is an optional sign followed by at least one decimal
    digit and nothing else, and the value fits an [int]; otherwise the
    call returns an error ([None]). *)
Definition Atoi (s : gostring) : option Z :=
  let '(neg, body) :=
    match s with
    | "-"%char :: s' => (true, s')
    | "+"%char :: s' => (false, s')
    | _ => (false, s)
    end in
  match body with
  | [] => None
  | _ =>
    match digits_val 0 body with
    | None => None
    | Some n =>
      let v := if neg then - n else n in
      if (GoInt.min_int <=? v) && (v <=? GoInt.max_int) then Some v
      else None
    end
  end.

End strconv.

(** ** Package [strconv]: floating point

    The decimal text of a [float64] and its parsing are the library's; the
    model takes them as an interface.  [ParseFloat64 s] and [ParseFloat32 s]
    are [strconv.ParseFloat(s, 64)] and [strconv.ParseFloat(s, 32)], [None]
    standing for a returned error; [FormatFloat f] is the text that
    [encoding/json] writes for a finite [f]. *)
Class Strconv := {
  ParseFloat64 : gostring -> option float;
  ParseFloat32 : gostring -> option float;
  FormatFloat : float -> gostring
}.

(** ** Package [encoding/json] *)

Module json.

(** A parsed JSON text.  A number keeps its literal: its conversion depends
    on the Go type it is stored into. *)
Inductive value : Type :=
| JNull
| JBool (b : bool)
| JNumber (lit : gostring)
| JString (s : gostring)
| JArray (elems : list value)
| JObject (members : list (gostring * value)).

Definition quote : ascii := "034"%char.
Definition backslash : ascii := "092"%char.

Definition is_space (c : ascii) : bool :=
  let b := byte_val c in (b =? 32) || (b =? 9) || (b =? 13) || (b =? 10).

Fixpoint skip_ws (s : gostring) : gostring :=
  match s with
  | c :: s' => if is_space c then skip_ws s' else s
  | [] => []
  end.

(** *** String literals *)

Definition hex_val (c : ascii) : option Z :=
  let b := byte_val c in
  if utf8.in_rng 48 57 b then Some (b - 48)
  else if utf8.in_rng 97 102 b then Some (b - 87)
  else if utf8.in_rng 65 70 b then Some (b - 55)
  else None.

(** [getu4]: four hexadecimal digits, as after a backslash and [u]. *)
Definition getu4 (s : gostring) : option (Z * gostring) :=
  match s with
  | h1 :: h2 :: h3 :: h4 :: rest =>
    match hex_val h1, hex_val h2, hex_val h3, hex_val h4 with
    | Some a, Some b, Some c, Some d =>
      Some (a * 4096 + b * 256 + c * 16 + d, rest)
    | _, _, _, _ => None
    end
  | _ => None
  end.

Definition IsSurrogate (r : Z) : bool := utf8.in_rng 55296 57343 r.

(** [utf16.DecodeRune]: the code point of a surrogate pair, [RuneError]
    when the two halves do not form one. *)
Definition utf16_DecodeRune (r1 r2 : Z) : Z :=
  if utf8.in_rng 55296 56319 r1 && utf8.in_rng 56320 57343 r2
  then (r1 - 55296) * 1024 + (r2 - 56320) + 65536
  else utf8.RuneError.

Definition simple_escape (c : ascii) : option ascii :=
  match c with
  | "034"%char => Some "034"%char
  | "092"%char => Some "092"%char
  | "/"%char => Some "/"%char
  | "b"%char => Some "008"%char
  | "f"%char => Some "012"%char
  | "n"%char => Some "010"%char
  | "r"%char => Some "013"%char
  | "t"%char => Some "009"%char
  | _ => None
  end.

Definition prepend (pre : gostring) (r : option (gostring * gostring))
  : option (gostring * gostring) :=
  match r with
  | Some (body, rest) => Some (pre ++ body, rest)
  | None => None
  end.

(** [parse_string fuel s]: [s] starts after the opening quote; the result
    is the unquoted literal and the input after the closing quote.
    Invalid UTF-8 and unpaired surrogates become U+FFFD, as [unquote]
    does; a raw control character or a bad escape is an error. *)
Fixpoint parse_string (fuel : nat) (s : gostring)
  : option (gostring * gostring) :=
  match fuel with
  | O => None
  | S fuel' =>
    match s with
    | [] => None
    | c :: s' =>
      let b := byte_val c in
      if b =? 34 then Some ([], s')
      else if b =? 92 then
        match s' with
        | [] => None
        | e :: s2 =>
          match simple_escape e with
          | Some ch => prepend [ch] (parse_string fuel' s2)
          | None =>
            if Ascii.eqb e "u"%char then
              match getu4 s2 with
              | None => None
              | Some (rr, s3) =>
                if IsSurrogate rr then
                  match s3 with
                  | "092"%char :: "u"%char :: s4 =>
                    match getu4 s4 with
                    | Some (rr1, s5) =>
                      let dec := utf16_DecodeRune rr rr1 in
                      if dec =? utf8.RuneError
                      then prepend (utf8.EncodeRune utf8.RuneError)
                                   (parse_string fuel' s3)
                      else prepend (utf8.EncodeRune dec)
                                   (parse_string fuel' s5)
                    | None => prepend (utf8.EncodeRune utf8.RuneError)
                                      (parse_string fuel' s3)
                    end
                  | _ => prepend (utf8.EncodeRune utf8.RuneError)
                                 (parse_string fuel' s3)
                  end
                else prepend (utf8.EncodeRune rr) (parse_string fuel' s3)
              end
            else None
          end
        end
      else if b <? 32 then None
      else if b <? utf8.RuneSelf then prepend [c] (parse_string fuel' s')
      else
        let '(rr, size) := utf8.DecodeRune s in
        prepend (utf8.EncodeRune rr) (parse_string fuel' (skipn size s))
    end
  end.

(** *** Number literals *)

Fixpoint take_digits (s : gostring) : gostring * gostring :=
  match s with
  | c :: s' =>
    if strconv.is_digit c
    then let '(d, r) := take_digits s' in (c :: d, r)
    else ([], s)
  | [] => ([], [])
  end.

(** The integer part: [0], or a non-zero digit followed by digits. *)
Definition scan_int (s : gostring) : option (gostring * gostring) :=
  match s with
  | c :: s' =>
    if Ascii.eqb c "0"%char then Some ([c], s')
    else if strconv.is_digit c
         then let '(d, r) := take_digits s' in Some (c :: d, r)
         else None
  | [] => None
  end.

(** The optional fraction: a point followed by at least one digit. *)
Definition scan_frac (s : gostring) : option (gostring * gostring) :=
  match s with
  | c :: s' =>
    if Ascii.eqb c "."%char then
      match take_digits s' with
      | ([], _) => None
      | (d, r) => Some (c :: d, r)
      end
    else Some ([], s)
  | [] => Some ([], s)
  end.

(** The optional exponent: [e] or [E], an optional sign, digits. *)
Definition scan_exp (s : gostring) : option (gostring * gostring) :=
  match s with
  | c :: s' =>
    if Ascii.eqb c "e"%char || Ascii.eqb c "E"%char then
      let '(sign, s2) :=
        match s' with
        | g :: t =>
          if Ascii.eqb g "+"%char || Ascii.eqb g "-"%char
          then ([g], t) else ([], s')
        | [] => ([], s')
        end in
      match take_digits s2 with
      | ([], _) => None
      | (d, r) => Some (c :: sign ++ d, r)
      end
    else Some ([], s)
  | [] => Some ([], s)
  end.

(** [scan_number s]: the number literal at the start of [s] and the rest
    of the input. *)
Definition scan_number (s : gostring) : option (gostring * gostring) :=
  let '(sign, s1) :=
    match s with
    | c :: t => if Ascii.eqb c "-"%char then ([c], t) else ([], s)
    | [] => ([], s)
    end in
  match scan_int s1 with
  | None => None
  | Some (ip, s2) =>
    match scan_frac s2 with
    | None => None
    | Some (fp, s3) =>
      match scan_exp s3 with
      | None => None
      | Some (ep, s4) => Some (sign ++ ip ++ fp ++ ep, s4)
      end
    end
  end.

(** *** Values *)

Definition maxNestingDepth : Z := 10000.

Fixpoint expect (word : gostring) (s : gostring) : option gostring :=
  match word with
  | [] => Some s
  | w :: word' =>
    match s with
    | c :: s' => if Ascii.eqb c w then expect word' s' else None
    | [] => None
    end
  end.

(** [parse_value fuel depth s]: the JSON value at the start of [s] (after
    white space) and the input that follows it.  [depth] counts the
    enclosing arrays and objects.  Every call consumes a byte before it
    recurses, so a fuel above the length of the input is never used up. *)
Fixpoint parse_value (fuel : nat) (depth : Z) (s : gostring)
  {struct fuel} : option (value * gostring) :=
  match fuel with
  | O => None
  | S fuel' =>
    match skip_ws s with
    | [] => None
    | c :: s' =>
      if Ascii.eqb c "{"%char then
        if maxNestingDepth <=? depth then None
        else
          match skip_ws s' with
          | "}"%char :: r => Some (JObject [], r)
          | s1 =>
            match parse_members fuel' (depth + 1) s1 with
            | Some (ms, r) => Some (JObject ms, r)
            | None => None
            end
          end
      else if Ascii.eqb c "["%char then
        if maxNestingDepth <=? depth then None
        else
          match skip_ws s' with
          | "]"%char :: r => Some (JArray [], r)
          | s1 =>
            match parse_elements fuel' (depth + 1) s1 with
            | Some (es, r) => Some (JArray es, r)
            | None => None
            end
          end
      else if Ascii.eqb c quote then
        match parse_string (length s') s' with
        | Some (lit, r) => Some (JString lit, r)
        | None => None
        end
      else if Ascii.eqb c "t"%char then
        option_map (pair (JBool true)) (expect (str "rue") s')
      else if Ascii.eqb c "f"%char then
        option_map (pair (JBool false)) (expect (str "alse") s')
      else if Ascii.eqb c "n"%char then
        option_map (pair JNull) (expect (str "ull") s')
      else
        match scan_number (c :: s') with
        | Some (lit, r) => Some (JNumber lit, r)
        | None => None
        end
    end
  end

with parse_members (fuel : nat) (depth : Z) (s : gostring)
  {struct fuel} : option (list (gostring * value) * gostring) :=
  match fuel with
  | O => None
  | S fuel' =>
    match s with
    | c :: s1 =>
      if Ascii.eqb c quote then
        match parse_string (length s1) s1 with
        | Some (key, s2) =>
          match skip_ws s2 with
          | ":"%char :: s3 =>
            match parse_value fuel' depth s3 with
            | Some (v, s4) =>
              match skip_ws s4 with
              | ","%char :: s5 =>
                match parse_members fuel' depth (skip_ws s5) with
                | Some (ms, r) => Some ((key, v) :: ms, r)
                | None => None
                end
              | "}"%char :: s5 => Some ([(key, v)], s5)
              | _ => None
              end
            | None => None
            end
          | _ => None
          end
        | None => None
        end
      else None
    | [] => None
    end
  end

with parse_elements (fuel : nat) (depth : Z) (s : gostring)
  {struct fuel} : option (list value * gostring) :=
  match fuel with
  | O => None
  | S fuel' =>
    match parse_value fuel' depth s with
    | Some (v, s1) =>
      match skip_ws s1 with
      | ","%char :: s2 =>
        match parse_elements fuel' depth s2 with
        | Some (es, r) => Some (v :: es, r)
        | None => None
        end
      | "]"%char :: s2 => Some ([v], s2)
      | _ => None
      end
    | None => None
    end
  end.

(** The first JSON value of a text. *)
Definition parse_document (s : gostring) : option (value * gostring) :=
  parse_value (S (S (length s))) 0 s.

(** [Unmarshal] accepts a text that is one JSON value between optional
    white space. *)
Definition parse_whole (s : gostring) : option value :=
  match parse_document s with
  | Some (v, rest) =>
    match skip_ws rest with [] => Some v | _ => None end
  | None => None
  end.

(** [Decoder.Decode] reads the first JSON value of its stream and does not
    look at what follows it. *)
Definition parse_first (s : gostring) : option value :=
  option_map fst (parse_document s).

(** *** Go values

    [any] holds the dynamic values that occur in this program: what
    [encoding/json] stores into an interface (nil, bool, float64, string,
    slice, map) and the [int] that an untyped integer constant becomes
    when the source compares it with an interface value. *)
Inductive any : Type :=
| any_nil
| any_bool (b : bool)
| any_float64 (f : float)
| any_string (s : gostring)
| any_slice (elems : list any)
| any_map (entries : list (gostring * any))
| any_int (n : Z).

Fixpoint eqb_str (a b : gostring) : bool :=
  match a, b with
  | [], [] => true
  | x :: a', y :: b' => Ascii.eqb x y && eqb_str a' b'
  | _, _ => false
  end.

(** [x == n] for an interface value [x] and an integer constant [n]:
    the constant has type [int]; the operands are equal when the dynamic
    type of [x] is [int] too and the values agree. *)
Definition any_eq_int (x : any) (n : Z) : bool :=
  match x with
  | any_int m => m =? n
  | _ => false
  end.

(** [x == s] for an interface value [x] and a string constant [s]. *)
Definition any_eq_string (x : any) (s : gostring) : bool :=
  match x with
  | any_string t => eqb_str t s
  | _ => false
  end.

Section Decoding.
Context `{Strconv}.

(** A JSON value stored into an interface.  A map keeps its entries in
    input order (a later entry for a key supersedes an earlier one). *)
Fixpoint to_any (v : value) : option any :=
  match v with
  | JNull => Some any_nil
  | JBool b => Some (any_bool b)
  | JNumber lit => option_map any_float64 (ParseFloat64 lit)
  | JString s => Some (any_string s)
  | JArray es =>
    option_map any_slice
      ((fix go (l : list value) : option (list any) :=
          match l with
          | [] => Some []
          | e :: l' =>
            match to_any e, go l' with
            | Some a, Some r => Some (a :: r)
            | _, _ => None
            end
          end) es)
  | JObject ms =>
    option_map any_map
      ((fix go (l : list (gostring * value))
          : option (list (gostring * any)) :=
          match l with
          | [] => Some []
          | (k, e) :: l' =>
            match to_any e, go l' with
            | Some a, Some r => Some ((k, a) :: r)
            | _, _ => None
            end
          end) ms)
  end.

(** The Go types of the decoded structures, and their values. *)
Inductive gotype : Type :=
| TString | TInt | TFloat32 | TFloat64 | TAny
| TSlice (elem : gotype)
| TStruct (fields : list (gostring * gotype)).

Inductive govalue : Type :=
| VString (s : gostring)
| VInt (n : Z)
| VFloat (f : float)
| VAny (a : any)
| VSlice (elems : list govalue)
| VStruct (fields : list govalue).

Fixpoint zero (t : gotype) : govalue :=
  match t with
  | TString => VString []
  | TInt => VInt 0
  | TFloat32 | TFloat64 => VFloat 0%float
  | TAny => VAny any_nil
  | TSlice _ => VSlice []
  | TStruct fs =>
    VStruct ((fix go (l : list (gostring * gotype)) : list govalue :=
                match l with
                | [] => []
                | (_, ft) :: l' => zero ft :: go l'
                end) fs)
  end.

(** [foldName]: the case-folded form of a key.  ASCII letters go to
    upper case; U+017F and U+212A fold to [S] and [K]; the other
    runes fold among non-ASCII runes and are kept, which decides the
    same matches against the ASCII field names of this program. *)
Fixpoint fold_name (fuel : nat) (s : gostring) : gostring :=
  match fuel with
  | O => []
  | S fuel' =>
    match s with
    | [] => []
    | c :: s' =>
      let b := byte_val c in
      if b <? utf8.RuneSelf then
        (if utf8.in_rng 97 122 b then byte_of (b - 32) else c)
          :: fold_name fuel' s'
      else
        let '(r, size) := utf8.DecodeRune s in
        (if r =? 383 then ["S"%char]
         else if r =? 8490 then ["K"%char]
         else utf8.EncodeRune r) ++ fold_name fuel' (skipn size s)
    end
  end.

Definition foldName (s : gostring) : gostring := fold_name (length s) s.

Fixpoint find_index {A} (p : A -> bool) (l : list A) : option nat :=
  match l with
  | [] => None
  | x :: l' =>
    if p x then Some O else option_map S (find_index p l')
  end.

(** The field a key is stored into: the field with exactly that name,
    otherwise the first one with the same folded name. *)
Definition field_index (fields : list (gostring * gotype))
  (key : gostring) : option nat :=
  match find_index (fun f => eqb_str (fst f) key) fields with
  | Some i => Some i
  | None =>
    find_index (fun f => eqb_str (foldName (fst f)) (foldName key))
               fields
  end.

(** The elements of a JSON array stored into a slice of element type
    [et], each into a zero value, with the decoder [dec]. *)
Fixpoint store_elems (dec : value -> gotype -> govalue -> option govalue)
  (et : gotype) (l : list value) : option (list govalue) :=
  match l with
  | [] => Some []
  | e :: l' =>
    match dec e et (zero et), store_elems dec et l' with
    | Some a, Some r => Some (a :: r)
    | _, _ => None
    end
  end.

(** The members of a JSON object stored, in input order, into the
    fields [acc] of a structure: a member whose key names no field is
    skipped; a member that cannot be stored is an error. *)
Fixpoint store_members (dec : value -> gotype -> govalue -> option govalue)
  (fields : list (gostring * gotype)) (l : list (gostring * value))
  (acc : list govalue) : option (list govalue) :=
  match l with
  | [] => Some acc
  | (k, e) :: l' =>
    match field_index fields k with
    | None => store_members dec fields l' acc
    | Some i =>
      match fields !! i, acc !! i with
      | Some (_, ft), Some fv =>
        match dec e ft fv with
        | Some nv => store_members dec fields l' (<[i := nv]> acc)
        | None => None
        end
      | _, _ => None
      end
    end
  end.

(** [decode v t cur]: the JSON value [v] stored into a Go value of type
    [t] that currently holds [cur]; [None] when [Unmarshal] reports an
    error.  [null] leaves strings, numbers and structures as they are. *)
Fixpoint decode (v : value) (t : gotype) (cur : govalue) {struct v}
  : option govalue :=
  match v with
  | JNull =>
    Some (match t with
          | TAny => VAny any_nil
          | TSlice _ => VSlice []
          | _ => cur
          end)
  | JBool b =>
    match t with
    | TAny => Some (VAny (any_bool b))
    | _ => None
    end
  | JNumber lit =>
    match t with
    | TAny => option_map (fun f => VAny (any_float64 f)) (ParseFloat64 lit)
    | TFloat64 => option_map VFloat (ParseFloat64 lit)
    | TFloat32 => option_map VFloat (ParseFloat32 lit)
    | TInt => option_map VInt (strconv.Atoi lit)
    | _ => None
    end
  | JString s =>
    match t with
    | TString => Some (VString s)
    | TAny => Some (VAny (any_string s))
    | _ => None
    end
  | JArray es =>
    match t with
    | TAny => option_map VAny (to_any v)
    | TSlice et => option_map VSlice (store_elems decode et es)
    | _ => None
    end
  | JObject ms =>
    match t with
    | TAny => option_map VAny (to_any v)
    | TStruct fields =>
      let cur_fields :=
        match cur with
        | VStruct fs => fs
        | _ => []
        end in
      option_map VStruct (store_members decode fields ms cur_fields)
    | _ => None
    end
  end.

(** [json.Unmarshal(data, &x)] for [x] a zero value of type [t]. *)
Definition Unmarshal (t : gotype) (data : gostring) : option govalue :=
  match parse_whole data with
  | Some v => decode v t (zero t)
  | None => None
  end.

(** [json.NewDecoder(body).Decode(&x)] for [x] a zero value of type
    [t]. *)
Definition Decode (t : gotype) (body : gostring) : option govalue :=
  match parse_first body with
  | Some v => decode v t (zero t)
  | None => None
  end.

(** *** Encoding *)

Definition hex_digit (n : Z) : ascii :=
  nth (Z.to_nat n) (str "0123456789abcdef") "0"%char.

(** A byte below 0x80 that is written as it is (the HTML-safe set). *)
Definition htmlSafe (b : Z) : bool :=
  (32 <=? b)
  && negb ((b =? 34) || (b =? 92) || (b =? 60) || (b =? 62) || (b =? 38)).

Definition escape_byte (c : ascii) : gostring :=
  let b := byte_val c in
  if htmlSafe b then [c]
  else if (b =? 92) || (b =? 34) then [backslash; c]
  else if b =? 8 then [backslash; "b"%char]
  else if b =? 12 then [backslash; "f"%char]
  else if b =? 10 then [backslash; "n"%char]
  else if b =? 13 then [backslash; "r"%char]
  else if b =? 9 then [backslash; "t"%char]
  else [backslash; "u"%char; "0"%char; "0"%char;
        hex_digit (b / 16); hex_digit (b mod 16)].

(** The body of a string literal, as [encodeState.string] writes it. *)
Fixpoint escape (fuel : nat) (s : gostring) : gostring :=
  match fuel with
  | O => []
  | S fuel' =>
    match s with
    | [] => []
    | c :: s' =>
      if byte_val c <? utf8.RuneSelf
      then escape_byte c ++ escape fuel' s'
      else
        let '(r, size) := utf8.DecodeRune s in
        if (r =? utf8.RuneError) && (size =? 1)%nat
        then backslash :: str "ufffd" ++ escape fuel' (skipn size s)
        else if r =? 8232
        then backslash :: str "u2028" ++ escape fuel' (skipn size s)
        else if r =? 8233
        then backslash :: str "u2029" ++ escape fuel' (skipn size s)
        else firstn size s ++ escape fuel' (skipn size s)
    end
  end.

Definition encode_string (s : gostring) : gostring :=
  quote :: escape (length s) s ++ [quote].

(** A [float64] field: NaN and the infinities are an error. *)
Definition encode_float (f : float) : option gostring :=
  if is_finite f then Some (FormatFloat f) else None.

Fixpoint members_text (fs : list (gostring * gostring)) : gostring :=
  match fs with
  | [] => []
  | (k, v) :: fs' =>
    encode_string k ++ ":"%char :: v
      ++ match fs' with
         | [] => []
         | _ => ","%char :: members_text fs'
         end
  end.

(** The text of a structure whose fields have the given names and
    encoded values. *)
Definition object_text (fs : list (gostring * gostring)) : gostring :=
  "{"%char :: members_text fs ++ ["}"%char].

Fixpoint sequence {A} (l : list (option A)) : option (list A) :=
  match l with
  | [] => Some []
  | Some x :: l' => option_map (cons x) (sequence l')
  | None :: _ => None
  end.

End Decoding.

End json.

(** ** Package [time]

    An instant is a number of seconds since the Unix epoch.  The local time
    zone ([time.Local]) gives the offset east of UTC at every instant.
    Calendar arithmetic is done on unbounded integers. *)
Class Location := { zone_offset : Z -> Z }.

Module time.

(** The proleptic Gregorian date [(year, month, day)] of a day number,
    day 0 being 1970-01-01. *)
Definition civil_from_days (z0 : Z) : Z * Z * Z :=
  let z := z0 + 719468 in
  let era := z / 146097 in
  let doe := z - era * 146097 in
  let yoe := (doe - doe / 1460 + doe / 36524 - doe / 146096) / 365 in
  let y := yoe + era * 400 in
  let doy := doe - (365 * yoe + yoe / 4 - yoe / 100) in
  let mp := (5 * doy + 2) / 153 in
  let d := doy - (153 * mp + 2) / 5 + 1 in
  let m := if mp <? 10 then mp + 3 else mp - 9 in
  (if m <=? 2 then y + 1 else y, m, d).

Fixpoint dec_digits (fuel : nat) (n : Z) (acc : gostring) : gostring :=
  match fuel with
  | O => acc
  | S fuel' =>
    let acc' := byte_of (48 + n mod 10) :: acc in
    if n <? 10 then acc' else dec_digits fuel' (n / 10) acc'
  end.

(** The decimal digits of [n >= 0]. *)
Definition itoa (n : Z) : gostring :=
  dec_digits (S (Z.to_nat (Z.log2 n))) n [].

(** [appendInt b x width]: [x] in decimal, zero-padded to [width]
    digits, with a minus sign before a negative [x]. *)
Definition appendInt (x : Z) (width : nat) : gostring :=
  let ds := itoa (Z.abs x) in
  (if x <? 0 then ["-"%char] else [])
    ++ repeat "0"%char (width - length ds) ++ ds.

(** [t.Format("2006-01-02")] for a time on local day [day]. *)
Definition Format_date (day : Z) : gostring :=
  let '(y, m, d) := civil_from_days day in
  appendInt y 4 ++ "-"%char :: appendInt m 2 ++ "-"%char :: appendInt d 2.

(** The local day number of an instant. *)
Definition local_day `{Location} (unix : Z) : Z :=
  (unix + zone_offset unix) / 86400.

(** [time.Unix(sec, 0).Format("2006-01-02")]. *)
Definition Unix_Format_date `{Location} (sec : Z) : gostring :=
  Format_date (local_day sec).

(** [now.AddDate(0, 0, n).Format("2006-01-02")]: [AddDate] adds [n] to
    the day of the month of the local date and normalises the date. *)
Definition AddDate_Format_date `{Location} (now : Z) (n : Z) : gostring :=
  Format_date (local_day now + n).

End time.

Global Instance UTC : Location := {| zone_offset := fun _ => 0 |}.

(** * The program *)

(** An operation that may end the process ([os.Exit]) or panic. *)
Inductive outcome (A : Type) : Type :=
| Done (a : A)
| Exit (code : Z)
| Panic.
Arguments Done {A} a.
Arguments Exit {A} code.
Arguments Panic {A}.

(** The answer of an HTTP GET: a transport error, or a response whose body
    is read to the end. *)
Inductive http_result : Type :=
| http_error
| http_response (body : gostring).

(** ** kafka.go: messages and payloads *)

Module WeatherMessage.
Record t := mk {
  Topic : gostring;
  Zip : gostring;
  Date : gostring;
  Temperature : float;
  FeelsLike : float;
  Humidity : float;
  WindSpeed : float;
  WindDegree : float;
  Cloud : float
}.

(** Field names as [encoding/json] sees them (the tags of the source). *)
Definition type : json.gotype :=
  json.TStruct
    [(str "Topic", json.TString); (str "Zip", json.TString);
     (str "Date", json.TString); (str "Temp", json.TFloat64);
     (str "FeelsLike", json.TFloat64); (str "Humidity", json.TFloat64);
     (str "Speed", json.TFloat64); (str "Degree", json.TFloat64);
     (str "CloudPercent", json.TFloat64)].

Definition zero : t := mk [] [] [] 0%float 0%float 0%float 0%float 0%float 0%float.

Definition of_value (v : json.govalue) : t :=
  match v with
  | json.VStruct
      [json.VString a; json.VString b; json.VString c; json.VFloat d;
       json.VFloat e; json.VFloat f; json.VFloat g; json.VFloat h;
       json.VFloat i] => mk a b c d e f g h i
  | _ => zero
  end.

Section Codec.
Context `{Strconv}.

(** [json.Unmarshal(data, &msg)] for a fresh [msg]. *)
Definition Unmarshal (data : gostring) : option t :=
  option_map of_value (json.Unmarshal type data).

(** [json.Marshal(msg)]. *)
Definition Marshal (m : t) : option gostring :=
  match json.sequence
          [json.encode_float (Temperature m);
           json.encode_float (FeelsLike m);
           json.encode_float (Humidity m);
           json.encode_float (WindSpeed m);
           json.encode_float (WindDegree m);
           json.encode_float (Cloud m)] with
  | Some [a; b; c; d; e; f] =>
    Some (json.object_text
            [(str "Topic", json.encode_string (Topic m));
             (str "Zip", json.encode_string (Zip m));
             (str "Date", json.encode_string (Date m));
             (str "Temp", a); (str "FeelsLike", b); (str "Humidity", c);
             (str "Speed", d); (str "Degree", e);
             (str "CloudPercent", f)])
  | _ => None
  end.
End Codec.
End WeatherMessage.

Module TemperaturePayload.
Record t := mk {
  Location : gostring; Date : gostring; Temp : float; FeelsLike : float
}.
Definition Marshal `{Strconv} (p : t) : option gostring :=
  match json.encode_float (Temp p), json.encode_float (FeelsLike p) with
  | Some a, Some b =>
    Some (json.object_text
            [(str "Location", json.encode_string (Location p));
             (str "Date", json.encode_string (Date p));
             (str "Temp", a); (str "FeelsLike", b)])
  | _, _ => None
  end.
End TemperaturePayload.

Module HumidityPayload.
Record t := mk { Location : gostring; Date : gostring; Humidity : float }.
Definition Marshal `{Strconv} (p : t) : option gostring :=
  match json.encode_float (Humidity p) with
  | Some a =>
    Some (json.object_text
            [(str "Location", json.encode_string (Location p));
             (str "Date", json.encode_string (Date p));
             (str "Humidity", a)])
  | None => None
  end.
End HumidityPayload.

Module WindPayload.
Record t := mk {
  Location : gostring; Date : gostring; Speed : float; Degree : float
}.
Definition Marshal `{Strconv} (p : t) : option gostring :=
  match json.encode_float (Speed p), json.encode_float (Degree p) with
  | Some a, Some b =>
    Some (json.object_text
            [(str "Location", json.encode_string (Location p));
             (str "Date", json.encode_string (Date p));
             (str "Speed", a); (str "Degree", b)])
  | _, _ => None
  end.
End WindPayload.

Module CloudPayload.
Record t := mk {
  Location : gostring; Date : gostring; CloudPercent : float
}.
Definition Marshal `{Strconv} (p : t) : option gostring :=
  match json.encode_float (CloudPercent p) with
  | Some a =>
    Some (json.object_text
            [(str "Location", json.encode_string (Location p));
             (str "Date", json.encode_string (Date p));
             (str "CloudPercent", a)])
  | None => None
  end.
End CloudPayload.

(** The topics, in the order [main] lists them. *)
Definition topics : list gostring :=
  [str "temperature"; str "humidity"; str "wind"; str "cloud"].

(** A message handed to a [kafka.Writer]: the writer's topic, the key and
    the value. *)
Module kafka.
Record Message := mkMessage {
  Topic : gostring; Key : gostring; Value : gostring
}.
End kafka.

(** ** Requests and provider responses *)

Module ZIPResponse.
Record t := mk {
  Zip : gostring; Name : gostring; Latitude : float; Longitude : float;
  Country : gostring; Cod : json.any; Message : json.any
}.
Definition type : json.gotype :=
  json.TStruct
    [(str "zip", json.TString); (str "name", json.TString);
     (str "lat", json.TFloat32); (str "lon", json.TFloat32);
     (str "country", json.TString); (str "cod", json.TAny);
     (str "message", json.TAny)].
Definition zero : t :=
  mk [] [] 0%float 0%float [] json.any_nil json.any_nil.
Definition of_value (v : json.govalue) : t :=
  match v with
  | json.VStruct
      [json.VString a; json.VString b; json.VFloat c; json.VFloat d;
       json.VString e; json.VAny f; json.VAny g] => mk a b c d e f g
  | _ => zero
  end.
End ZIPResponse.

Module DailyResponse.
(** The fields of a forecast sample that [processRequest] reads. *)
Record t := mk {
  Time : Z;
  Main_Temp : float; Main_FeelsLike : float; Main_Humidity : Z;
  Clouds_All : Z;
  Wind_Speed : float; Wind_Deg : Z
}.
Definition MainResponse_type : json.gotype :=
  json.TStruct
    [(str "temp", json.TFloat32); (str "feels_like", json.TFloat32);
     (str "temp_min", json.TFloat32); (str "temp_max", json.TFloat32);
     (str "pressure", json.TInt); (str "sea_level", json.TInt);
     (str "grnd_level", json.TInt); (str "humidity", json.TInt)].
Definition WeatherResponse_type : json.gotype :=
  json.TStruct
    [(str "id", json.TInt); (str "main", json.TString);
     (str "description", json.TString); (str "icon", json.TString)].
Definition CloudResponse_type : json.gotype :=
  json.TStruct [(str "all", json.TInt)].
Definition WindResponse_type : json.gotype :=
  json.TStruct
    [(str "speed", json.TFloat32); (str "deg", json.TInt);
     (str "gust", json.TFloat32)].
Definition RainResponse_type : json.gotype :=
  json.TStruct [(str "3h", json.TFloat32)].
Definition SnowResponse_type : json.gotype :=
  json.TStruct [(str "3h", json.TFloat32)].
Definition type : json.gotype :=
  json.TStruct
    [(str "dt", json.TInt); (str "main", MainResponse_type);
     (str "weather", json.TSlice WeatherResponse_type);
     (str "clouds", CloudResponse_type); (str "wind", WindResponse_type);
     (str "visibility", json.TInt); (str "pop", json.TFloat32);
     (str "rain", RainResponse_type); (str "snow", SnowResponse_type)].
Definition zero : t := mk 0 0%float 0%float 0 0 0%float 0.
Definition of_value (v : json.govalue) : t :=
  match v with
  | json.VStruct
      [json.VInt dt;
       json.VStruct [json.VFloat temp; json.VFloat feels; _; _; _; _; _;
                     json.VInt hum];
       _;
       json.VStruct [json.VInt all];
       json.VStruct [json.VFloat speed; json.VInt deg; _];
       _; _; _; _] => mk dt temp feels hum all speed deg
  | _ => zero
  end.
End DailyResponse.

Module APIResponse.
Record t := mk {
  Cod : json.any; Message : json.any; DaysList : list DailyResponse.t
}.
Definition type : json.gotype :=
  json.TStruct
    [(str "cod", json.TAny); (str "message", json.TAny);
     (str "list", json.TSlice DailyResponse.type)].
Definition zero : t := mk json.any_nil json.any_nil [].
Definition of_value (v : json.govalue) : t :=
  match v with
  | json.VStruct [json.VAny c; json.VAny m; json.VSlice l] =>
    mk c m (map DailyResponse.of_value l)
  | _ => zero
  end.
End APIResponse.

Module PreCoordinateRequest.
Record t := mk { Days : Z; ZIPCode : gostring; LineNum : Z }.
End PreCoordinateRequest.

Module PostLocationRequest.
Record t := mk {
  Days : Z; Name : gostring; Lat : float; Lon : float;
  ZIPCode : gostring; LineNum : Z
}.
End PostLocationRequest.

(** [float64(n)] for an [int] [n]. *)
Definition float64_of_int (n : Z) : float :=
  if n =? GoInt.min_int then (-0x1p63)%float
  else if n <? 0 then (- PrimFloat.of_uint63 (Uint63.of_Z (- n)))%float
  else PrimFloat.of_uint63 (Uint63.of_Z n).

(** ** Input parsing *)

(** [parseLine]: a line [days|ZIP] of the input file.  [None] is the
    [false] of the source (the request is skipped). *)
Definition parseLine (text : gostring) (lineNum : Z)
  : option PreCoordinateRequest.t :=
  let parameters := strings.Split text "|"%char in
  if negb (length parameters =? 2)%nat then None
  else
    let daysStr := strings.TrimSpace (nth 0 parameters []) in
    let ZIPcode := strings.TrimSpace (nth 1 parameters []) in
    match strconv.Atoi daysStr with
    | None => None
    | Some days =>
      if days <=? 0 then None
      else
        let days := if 5 <? days then 5 else days in
        Some (PreCoordinateRequest.mk days ZIPcode lineNum)
    end.

(** ** The metrics store and the JSONL file (prometheus.go) *)

(** The gauge vectors of the program, each labelled by (location, date). *)
Inductive Gauge : Type :=
| tempGauge | feelsLikeGauge | humidityGauge | windSpeedGauge
| windDegreeGauge | cloudGauge
| alertTempHigh | alertTempLow | alertHumidityHigh | alertHumidityLow
| alertWindHigh.

Global Instance Gauge_eq_dec : EqDecision Gauge.
Proof. solve_decision. Defined.

(** The store: for every gauge vector, the values set so far. *)
Definition Gauges : Type := Gauge -> gmap (gostring * gostring) float.

Definition no_gauges : Gauges := fun _ => ∅.

(** [vec.WithLabelValues(zip, date).Set(v)].  [WithLabelValues] panics
    when a label value is not valid UTF-8 ([None]). *)
Definition WithLabelValues_Set (g : Gauge) (zip date : gostring) (v : float)
  (st : Gauges) : option Gauges :=
  if utf8.ValidString zip && utf8.ValidString date
  then Some (fun g' => if decide (g' = g)
                       then <[(zip, date) := v]> (st g') else st g')
  else None.

(** The alert thresholds ([tempLow], [tempHigh], ...). *)
Record Thresholds := mkThresholds {
  tempLow : float; tempHigh : float;
  humidityLow : float; humidityHigh : float;
  windHigh : float
}.

(** The metrics file [/data/metrics.jsonl]. *)
Inductive file_state : Type :=
| FileAbsent
| FilePresent (content : gostring)
| FileDenied.

(** [os.Open]: the content, or an error. *)
Definition os_Open (f : file_state) : option gostring :=
  match f with
  | FilePresent c => Some c
  | _ => None
  end.

(** [os.OpenFile(path, O_CREATE|O_WRONLY|O_APPEND, 0644)]: the content
    the writes are appended to, or an error. *)
Definition os_OpenFile_append (f : file_state) : option gostring :=
  match f with
  | FileAbsent => Some []
  | FilePresent c => Some c
  | FileDenied => None
  end.

Record State := mkState {
  gauges : Gauges;
  metricsFile : file_state
}.

Definition bind_gauges (r : option Gauges) (k : Gauges -> option Gauges)
  : option Gauges :=
  match r with
  | Some st => k st
  | None => None
  end.

Notation "r >>g k" := (bind_gauges r k) (at level 50, left associativity).

(** The gauge updates of [updateMetrics] (the [switch] on the topic). *)
Definition update_gauges (th : Thresholds) (msg : WeatherMessage.t)
  (st : Gauges) : option Gauges :=
  let zip := WeatherMessage.Zip msg in
  let date := WeatherMessage.Date msg in
  let topic := WeatherMessage.Topic msg in
  if json.eqb_str topic (str "temperature") then
    WithLabelValues_Set tempGauge zip date (WeatherMessage.Temperature msg) st
    >>g WithLabelValues_Set feelsLikeGauge zip date
          (WeatherMessage.FeelsLike msg)
    >>g WithLabelValues_Set alertTempHigh zip date
          (if (tempHigh th <? WeatherMessage.Temperature msg)%float
           then 1%float else 0%float)
    >>g WithLabelValues_Set alertTempLow zip date
          (if (WeatherMessage.Temperature msg <? tempLow th)%float
           then 1%float else 0%float)
  else if json.eqb_str topic (str "humidity") then
    WithLabelValues_Set humidityGauge zip date (WeatherMessage.Humidity msg) st
    >>g WithLabelValues_Set alertHumidityHigh zip date
          (if (humidityHigh th <? WeatherMessage.Humidity msg)%float
           then 1%float else 0%float)
    >>g WithLabelValues_Set alertHumidityLow zip date
          (if (WeatherMessage.Humidity msg <? humidityLow th)%float
           then 1%float else 0%float)
  else if json.eqb_str topic (str "wind") then
    WithLabelValues_Set windSpeedGauge zip date
      (WeatherMessage.WindSpeed msg) st
    >>g WithLabelValues_Set windDegreeGauge zip date
          (WeatherMessage.WindDegree msg)
    >>g WithLabelValues_Set alertWindHigh zip date
          (if (windHigh th <? WeatherMessage.WindSpeed msg)%float
           then 1%float else 0%float)
  else if json.eqb_str topic (str "cloud") then
    WithLabelValues_Set cloudGauge zip date (WeatherMessage.Cloud msg) st
  else Some st.

(** The append to the metrics file at the end of [updateMetrics]: nothing
    is written when the file cannot be opened or the message cannot be
    marshalled (the file has then been created by the open); the two
    writes are taken to succeed. *)
Definition append_metrics `{Strconv} (msg : WeatherMessage.t)
  (f : file_state) : file_state :=
  match os_OpenFile_append f with
  | None => f
  | Some content =>
    match WeatherMessage.Marshal msg with
    | None => FilePresent content
    | Some data => FilePresent (content ++ data ++ ["010"%char])
    end
  end.

(** [updateMetrics msg]. *)
Definition updateMetrics `{Strconv} (th : Thresholds)
  (msg : WeatherMessage.t) (st : State) : outcome State :=
  match update_gauges th msg (gauges st) with
  | None => Panic
  | Some g => Done (mkState g (append_metrics msg (metricsFile st)))
  end.

(** [bufio.Scanner] with the default split function [ScanLines]: the
    lines of the content, each without its end-of-line marker (a newline,
    with one carriage return before it dropped); a last line without a
    newline is delivered when it is not empty.  The scanner's buffer grows
    to [MaxScanTokenSize] bytes and no further: when it is full of one line
    whose newline has not come, [Scan] reports [ErrTooLong] and the loop of
    [isInTSDB], which does not look at the error, ends there. *)
Definition dropCR (line : gostring) : gostring :=
  match rev line with
  | "013"%char :: r => rev r
  | _ => line
  end.

Definition MaxScanTokenSize : Z := 64 * 1024.

(** The pending line fills the buffer. *)
Definition too_long (cur : gostring) : bool :=
  MaxScanTokenSize <=? Z.of_nat (length cur).

(** [cur] holds the bytes of the pending line, the last one first. *)
Fixpoint scan_lines (cur : gostring) (s : gostring) : list gostring :=
  match s with
  | [] =>
    match cur with
    | [] => []
    | _ => if too_long cur then [] else [dropCR (rev cur)]
    end
  | c :: s' =>
    if Ascii.eqb c "010"%char
    then if too_long cur then [] else dropCR (rev cur) :: scan_lines [] s'
    else scan_lines (c :: cur) s'
  end.

Definition ScanLines (content : gostring) : list gostring :=
  scan_lines [] content.

(** The scanner reaches the end of the content: no line fills the
    buffer. *)
Fixpoint lines_fit (cur : gostring) (s : gostring) : bool :=
  match s with
  | [] => negb (too_long cur)
  | c :: s' =>
    if Ascii.eqb c "010"%char
    then negb (too_long cur) && lines_fit [] s'
    else lines_fit (c :: cur) s'
  end.

Definition scans_to_the_end (content : gostring) : bool :=
  lines_fit [] content.

(** The scanning loop of [isInTSDB]: a line that does not unmarshal is
    skipped; the first record with the wanted Zip and Date ends the scan. *)
Fixpoint scan_records `{Strconv} (zip date : gostring)
  (lines : list gostring) : bool :=
  match lines with
  | [] => false
  | line :: rest =>
    match WeatherMessage.Unmarshal line with
    | None => scan_records zip date rest
    | Some msg =>
      if json.eqb_str (WeatherMessage.Zip msg) zip
         && json.eqb_str (WeatherMessage.Date msg) date
      then true
      else scan_records zip date rest
    end
  end.

(** [isInTSDB req], at the instant [now]. *)
Definition isInTSDB `{Strconv} `{Location} (file : file_state) (now : Z)
  (req : PreCoordinateRequest.t) : bool :=
  let zip := PreCoordinateRequest.ZIPCode req in
  let date :=
    time.AddDate_Format_date now
      (GoInt.sub (PreCoordinateRequest.Days req) 1) in
  match os_Open file with
  | None => false
  | Some content => scan_records zip date (ScanLines content)
  end.

(** ** Location resolution and forecast fetching *)

(** The providers, as functions of the parameters that the source puts
    into the request URLs. *)
Record Providers := mkProviders {
  (** GET [geo/1.0/zip?zip=<zip>,US&appid=<key>] *)
  geocoding : gostring -> gostring -> http_result;
  (** GET [data/2.5/forecast?lat=<lat>&lon=<lon>&cnt=<cnt>&units=imperial&appid=<key>] *)
  forecast : float -> float -> Z -> gostring -> http_result
}.

Section Pipeline.
Context `{Strconv} `{Location}.
Variable net : Providers.

(** [convertToCoordinates req key]: [Done None] is the [false] of the
    source (request skipped), [Exit 1] the end of the process through
    [check] or [os.Exit(1)]. *)
Definition convertToCoordinates (req : PreCoordinateRequest.t)
  (key : gostring) : outcome (option PostLocationRequest.t) :=
  let days := PreCoordinateRequest.Days req in
  let zipCode := PreCoordinateRequest.ZIPCode req in
  let lineNum := PreCoordinateRequest.LineNum req in
  match geocoding net zipCode key with
  | http_error => Exit 1
  | http_response body =>
    match json.Decode ZIPResponse.type body with
    | None => Exit 1
    | Some v =>
      let response := ZIPResponse.of_value v in
      if json.any_eq_int (ZIPResponse.Cod response) 401 then Exit 1
      else if json.any_eq_string (ZIPResponse.Cod response) (str "404")
      then Done None
      else
        let latitude := ZIPResponse.Latitude response in
        let longitude := ZIPResponse.Longitude response in
        let name := ZIPResponse.Name response in
        Done (Some (PostLocationRequest.mk days name latitude longitude
                      zipCode lineNum))
    end
  end.

(** The body of the worker loop over [preCoordinateChan] in [main]: the
    request forwarded on [requestsChan], if any. *)
Definition resolve_request (file : file_state) (now : Z)
  (req : PreCoordinateRequest.t) (key : gostring)
  : outcome (option PostLocationRequest.t) :=
  let exists_ := isInTSDB file now req in
  if negb exists_ then convertToCoordinates req key else Done None.

(** The four messages published for one sample. *)
Definition publish_sample (location zipCode : gostring)
  (r : DailyResponse.t) : list kafka.Message :=
  let date := time.Unix_Format_date (DailyResponse.Time r) in
  let tempPayload :=
    TemperaturePayload.mk location date (DailyResponse.Main_Temp r)
      (DailyResponse.Main_FeelsLike r) in
  let humidityPayload :=
    HumidityPayload.mk location date
      (float64_of_int (DailyResponse.Main_Humidity r)) in
  let windPayload :=
    WindPayload.mk location date (DailyResponse.Wind_Speed r)
      (float64_of_int (DailyResponse.Wind_Deg r)) in
  let cloudPayload :=
    CloudPayload.mk location date
      (float64_of_int (DailyResponse.Clouds_All r)) in
  let key := zipCode ++ "-"%char :: date in
  (* a marshalling error is ignored: the value is then empty *)
  let tempBytes := default [] (TemperaturePayload.Marshal tempPayload) in
  let humidityBytes := default [] (HumidityPayload.Marshal humidityPayload) in
  let windBytes := default [] (WindPayload.Marshal windPayload) in
  let cloudBytes := default [] (CloudPayload.Marshal cloudPayload) in
  [kafka.mkMessage (str "temperature") key tempBytes;
   kafka.mkMessage (str "humidity") key humidityBytes;
   kafka.mkMessage (str "wind") key windBytes;
   kafka.mkMessage (str "cloud") key cloudBytes].

(** The loop [for i := 0; i < days && i*8 < len(list); i++].  An index
    out of range would panic.  [fuel] bounds the iterations. *)
Fixpoint publish_loop (fuel : nat) (i days : Z) (location zipCode : gostring)
  (samples : list DailyResponse.t) : outcome (list kafka.Message) :=
  match fuel with
  | O => Done []
  | S fuel' =>
    if (i <? days) && (GoInt.mul i 8 <? Z.of_nat (length samples)) then
      if GoInt.mul i 8 <? 0 then Panic
      else
        match nth_error samples (Z.to_nat (GoInt.mul i 8)) with
        | None => Panic
        | Some r =>
          match publish_loop fuel' (GoInt.add i 1) days location zipCode
                  samples with
          | Done ms => Done (publish_sample location zipCode r ++ ms)
          | Exit c => Exit c
          | Panic => Panic
          end
        end
    else Done []
  end.

(** The number of samples asked of the provider. *)
Definition forecast_cnt (req : PostLocationRequest.t) : Z :=
  GoInt.mul (PostLocationRequest.Days req) 8.

(** [processRequest req key kWriters]: the messages written to the
    Kafka writers, in order. *)
Definition processRequest (req : PostLocationRequest.t) (key : gostring)
  : outcome (list kafka.Message) :=
  let days := PostLocationRequest.Days req in
  let lat := PostLocationRequest.Lat req in
  let lon := PostLocationRequest.Lon req in
  let location := PostLocationRequest.Name req in
  let zipCode := PostLocationRequest.ZIPCode req in
  let cnt := forecast_cnt req in
  match forecast net lat lon cnt key with
  | http_error => Exit 1
  | http_response body =>
    match json.Decode APIResponse.type body with
    | None => Exit 1
    | Some v =>
      let results := APIResponse.of_value v in
      if negb (json.any_eq_string (APIResponse.Cod results) (str "200"))
      then Exit 1
      else
        publish_loop (S (length (APIResponse.DaysList results))) 0 days
          location zipCode (APIResponse.DaysList results)
    end
  end.

(** ** The Kafka consumer (kafka.go)

    What [consumeKafkaTopic] does with one message read from [topic]: the
    message sent on [metricsChan].  A value that does not unmarshal ends
    the process; a key without a dash makes [keyParts[1]] panic. *)
Definition consume_message (topic : gostring) (key value : gostring)
  : outcome WeatherMessage.t :=
  match WeatherMessage.Unmarshal value with
  | None => Exit 1
  | Some msg =>
    let keyParts := strings.SplitN2 key "-"%char in
    match keyParts with
    | zip :: date :: _ =>
      Done (WeatherMessage.mk topic zip date
              (WeatherMessage.Temperature msg) (WeatherMessage.FeelsLike msg)
              (WeatherMessage.Humidity msg) (WeatherMessage.WindSpeed msg)
              (WeatherMessage.WindDegree msg) (WeatherMessage.Cloud msg))
    | _ => Panic
    end
  end.

End Pipeline.

(** ** Configuration *)

(** The environment: the value of a variable, if it is set. *)
Definition Env : Type := gostring -> option gostring.

Definition Getenv (env : Env) (name : string) : gostring :=
  default [] (env (str name)).

(** The thresholds that [init] reads from the environment. *)
Definition init `{Strconv} (env : Env) : Thresholds :=
  let get name (dflt : float) :=
    match ParseFloat64 (Getenv env name) with
    | Some v => v
    | None => dflt
    end in
  mkThresholds (get "TEMP_LOW"%string 32%float)
               (get "TEMP_HIGH"%string 90%float)
               (get "HUMIDITY_LOW"%string 30%float)
               (get "HUMIDITY_HIGH"%string 70%float)
               (get "WIND_SPEED_HIGH"%string 40%float).

Definition DEFAULT_NUM_WORKERS : Z := 10.

(** The quote characters that [main] trims: ['] and the double quote. *)
Definition quotes : gostring := ["'"%char; "034"%char].

(** The number of workers that [main] computes from [WORKERS]. *)
Definition numWorkers (env : Env) : Z :=
  let workers := strings.Trim (Getenv env "WORKERS") quotes in
  match strconv.Atoi workers with
  | None => DEFAULT_NUM_WORKERS
  | Some n => if n <=? 0 then DEFAULT_NUM_WORKERS else n
  end.

(** [time.Second], in nanoseconds. *)
Definition Second : Z := 1000000000.

(** The argument of [waitForGrafana] in [main]. *)
Definition grafanaTimeout : Z := 60 * Second.

(** [waitForGrafana]'s test after a failed probe, [elapsed] nanoseconds
    after the start: give up ([true]) or sleep and retry. *)
Definition waitForGrafana_gives_up (timeout elapsed : Z) : bool :=
  timeout <? elapsed.

Record Config := mkConfig {
  cfg_workers : Z;
  cfg_thresholds : Thresholds;
  cfg_grafanaTimeout : Z
}.

(** The configuration in force once [main] has passed its check of the
    API key ([None]: no key, [main] returns at once). *)
Definition configuration `{Strconv} (env : Env) : option Config :=
  match Getenv env "API_KEY" with
  | [] => None
  | _ => Some (mkConfig (numWorkers env) (init env) grafanaTimeout)
  end.

(** ** The goroutines of [main] and its shutdown sequence

    [main], from the creation of the cancellable context on, and the
    goroutines it starts, as an interleaving of atomic steps.  The values
    that travel through the channels are left out: a step records which
    goroutine moves and how the channels, the [WaitGroup] counters and the
    cancellation change.  The three channels are unbuffered: a send
    completes together with a receive.  Goroutines of one pool run the same
    code, so a pool is the number of its goroutines at each program
    point; the counter of its [WaitGroup] is their sum. *)
Module main.

Inductive chan := preCoordinateChan | requestsChan | metricsChan.

(** The two run-time panics of channel misuse. *)
Inductive fault :=
  | send_on_closed_channel (c : chan)
  | close_of_closed_channel (c : chan).

(** The statement that [main] is at; the first five carry the number of
    iterations left of the loop they are in ([Scanning]: lines left in the
    input file). *)
Inductive pc :=
  | StartConsumers (n : nat)
  | StartPromWorkers (n : nat)
  | StartZipWorkers (n : nat)
  | StartResultWorkers (n : nat)
  | Scanning (n : nat)
  | Sleep
  | fileWG_Wait
  | close_preCoordinateChan
  | zipCodeWG_Wait
  | close_requestsChan
  | resultsWG_Wait
  | cancel
  | kafkaWG_Wait
  | close_metricsChan
  | promWG_Wait
  | Finished.

Record state := mk {
  at_ : pc;
  workers : nat;
  lines : nat;
  preCoordinateChan_closed : bool;
  requestsChan_closed : bool;
  metricsChan_closed : bool;
  cancelled : bool;
  (** [fileWG]: goroutines in [parseLine], goroutines at their send *)
  file_parsing : nat;
  file_sending : nat;
  (** [zipCodeWG]: at [range preCoordinateChan], in [isInTSDB] or
      [convertToCoordinates], at the send on [requestsChan] *)
  zip_receiving : nat;
  zip_working : nat;
  zip_sending : nat;
  (** [resultsWG]: at [range requestsChan], in [processRequest] *)
  results_receiving : nat;
  results_working : nat;
  (** [kafkaWG]: in [ReadMessage], at the send on [metricsChan] *)
  kafka_reading : nat;
  kafka_sending : nat;
  (** [promWG]: at [range metricsChan], in [updateMetrics] *)
  prom_receiving : nat;
  prom_working : nat;
  (** the process has ended, other than by a channel misuse *)
  exited : bool;
  panicked : option fault
}.

(** The counters of the wait groups. *)
Definition fileWG (s : state) : nat := file_parsing s + file_sending s.
Definition zipCodeWG (s : state) : nat :=
  zip_receiving s + zip_working s + zip_sending s.
Definition resultsWG (s : state) : nat :=
  results_receiving s + results_working s.
Definition kafkaWG (s : state) : nat := kafka_reading s + kafka_sending s.
Definition promWG (s : state) : nat := prom_receiving s + prom_working s.

Definition closed (s : state) (c : chan) : bool :=
  match c with
  | preCoordinateChan => preCoordinateChan_closed s
  | requestsChan => requestsChan_closed s
  | metricsChan => metricsChan_closed s
  end.

(** [main] after [waitForGrafana]: nothing started, every channel open. *)
Definition start (numWorkers lines : nat) : state :=
  mk (StartConsumers (4 * numWorkers)) numWorkers lines
    false false false false 0 0 0 0 0 0 0 0 0 0 0 false None.

Definition set_at (p : pc) (s : state) : state :=
  mk p (workers s) (lines s) (preCoordinateChan_closed s)
    (requestsChan_closed s) (metricsChan_closed s) (cancelled s)
    (file_parsing s) (file_sending s) (zip_receiving s) (zip_working s)
    (zip_sending s) (results_receiving s) (results_working s)
    (kafka_reading s) (kafka_sending s) (prom_receiving s) (prom_working s)
    (exited s) (panicked s).

Definition set_fileWG (parsing sending : nat) (s : state) : state :=
  mk (at_ s) (workers s) (lines s) (preCoordinateChan_closed s)
    (requestsChan_closed s) (metricsChan_closed s) (cancelled s)
    parsing sending (zip_receiving s) (zip_working s)
    (zip_sending s) (results_receiving s) (results_working s)
    (kafka_reading s) (kafka_sending s) (prom_receiving s) (prom_working s)
    (exited s) (panicked s).

Definition set_zipCodeWG (receiving working sending : nat) (s : state)
  : state :=
  mk (at_ s) (workers s) (lines s) (preCoordinateChan_closed s)
    (requestsChan_closed s) (metricsChan_closed s) (cancelled s)
    (file_parsing s) (file_sending s) receiving working sending
    (results_receiving s) (results_working s)
    (kafka_reading s) (kafka_sending s) (prom_receiving s) (prom_working s)
    (exited s) (panicked s).

Definition set_resultsWG (receiving working : nat) (s : state) : state :=
  mk (at_ s) (workers s) (lines s) (preCoordinateChan_closed s)
    (requestsChan_closed s) (metricsChan_closed s) (cancelled s)
    (file_parsing s) (file_sending s) (zip_receiving s) (zip_working s)
    (zip_sending s) receiving working
    (kafka_reading s) (kafka_sending s) (prom_receiving s) (prom_working s)
    (exited s) (panicked s).

Definition set_kafkaWG (reading sending : nat) (s : state) : state :=
  mk (at_ s) (workers s) (lines s) (preCoordinateChan_closed s)
    (requestsChan_closed s) (metricsChan_closed s) (cancelled s)
    (file_parsing s) (file_sending s) (zip_receiving s) (zip_working s)
    (zip_sending s) (results_receiving s) (results_working s)
    reading sending (prom_receiving s) (prom_working s)
    (exited s) (panicked s).

Definition set_promWG (receiving working : nat) (s : state) : state :=
  mk (at_ s) (workers s) (lines s) (preCoordinateChan_closed s)
    (requestsChan_closed s) (metricsChan_closed s) (cancelled s)
    (file_parsing s) (file_sending s) (zip_receiving s) (zip_working s)
    (zip_sending s) (results_receiving s) (results_working s)
    (kafka_reading s) (kafka_sending s) receiving working
    (exited s) (panicked s).

Definition set_panicked (f : fault) (s : state) : state :=
  mk (at_ s) (workers s) (lines s) (preCoordinateChan_closed s)
    (requestsChan_closed s) (metricsChan_closed s) (cancelled s)
    (file_parsing s) (file_sending s) (zip_receiving s) (zip_working s)
    (zip_sending s) (results_receiving s) (results_working s)
    (kafka_reading s) (kafka_sending s) (prom_receiving s) (prom_working s)
    (exited s) (Some f).

Definition set_exited (s : state) : state :=
  mk (at_ s) (workers s) (lines s) (preCoordinateChan_closed s)
    (requestsChan_closed s) (metricsChan_closed s) (cancelled s)
    (file_parsing s) (file_sending s) (zip_receiving s) (zip_working s)
    (zip_sending s) (results_receiving s) (results_working s)
    (kafka_reading s) (kafka_sending s) (prom_receiving s) (prom_working s)
    true (panicked s).

Definition set_cancelled (s : state) : state :=
  mk (at_ s) (workers s) (lines s) (preCoordinateChan_closed s)
    (requestsChan_closed s) (metricsChan_closed s) true
    (file_parsing s) (file_sending s) (zip_receiving s) (zip_working s)
    (zip_sending s) (results_receiving s) (results_working s)
    (kafka_reading s) (kafka_sending s) (prom_receiving s) (prom_working s)
    (exited s) (panicked s).

(** [close(c)]: a panic when [c] is closed already. *)
Definition close (c : chan) (s : state) : state :=
  if closed s c then set_panicked (close_of_closed_channel c) s
  else
    mk (at_ s) (workers s) (lines s)
      (match c with preCoordinateChan => true
                  | _ => preCoordinateChan_closed s end)
      (match c with requestsChan => true | _ => requestsChan_closed s end)
      (match c with metricsChan => true | _ => metricsChan_closed s end)
      (cancelled s)
      (file_parsing s) (file_sending s) (zip_receiving s) (zip_working s)
      (zip_sending s) (results_receiving s) (results_working s)
      (kafka_reading s) (kafka_sending s) (prom_receiving s) (prom_working s)
      (exited s) (panicked s).

(** [wg.Wait()]: passes when the counter is zero, blocks otherwise. *)
Definition Wait (counter : nat) (next : pc) (s : state) : option state :=
  match counter with
  | O => Some (set_at next s)
  | S _ => None
  end.

(** The next statement of [main]. *)
Definition main_step (s : state) : option state :=
  match at_ s with
  | StartConsumers (S n) =>
    Some (set_at (StartConsumers n)
            (set_kafkaWG (S (kafka_reading s)) (kafka_sending s) s))
  | StartConsumers O => Some (set_at (StartPromWorkers (workers s)) s)
  | StartPromWorkers (S n) =>
    Some (set_at (StartPromWorkers n)
            (set_promWG (S (prom_receiving s)) (prom_working s) s))
  | StartPromWorkers O => Some (set_at (StartZipWorkers (workers s)) s)
  | StartZipWorkers (S n) =>
    Some (set_at (StartZipWorkers n)
            (set_zipCodeWG (S (zip_receiving s)) (zip_working s)
               (zip_sending s) s))
  | StartZipWorkers O => Some (set_at (StartResultWorkers (workers s)) s)
  | StartResultWorkers (S n) =>
    Some (set_at (StartResultWorkers n)
            (set_resultsWG (S (results_receiving s)) (results_working s) s))
  | StartResultWorkers O => Some (set_at (Scanning (lines s)) s)
  | Scanning (S n) =>
    Some (set_at (Scanning n)
            (set_fileWG (S (file_parsing s)) (file_sending s) s))
  | Scanning O => Some (set_at Sleep s)
  | Sleep => Some (set_at fileWG_Wait s)
  | fileWG_Wait => Wait (fileWG s) close_preCoordinateChan s
  | close_preCoordinateChan =>
    Some (set_at zipCodeWG_Wait (close preCoordinateChan s))
  | zipCodeWG_Wait => Wait (zipCodeWG s) close_requestsChan s
  | close_requestsChan => Some (set_at resultsWG_Wait (close requestsChan s))
  | resultsWG_Wait => Wait (resultsWG s) cancel s
  | cancel => Some (set_at kafkaWG_Wait (set_cancelled s))
  | kafkaWG_Wait => Wait (kafkaWG s) close_metricsChan s
  | close_metricsChan => Some (set_at promWG_Wait (close metricsChan s))
  | promWG_Wait => Wait (promWG s) Finished s
  | Finished => None
  end.

(** What moves next: [main], or a goroutine of one of the pools. *)
Inductive action :=
  | Main
  (** a file goroutine: [parseLine] returns, with success or not *)
  | FileParsed (success : bool)
  (** a file goroutine: [preCoordinateChan <- req], then it returns *)
  | FileSend
  (** a resolver: its [range] finds [preCoordinateChan] closed *)
  | ZipRangeEnds
  (** a resolver: [isInTSDB] and [convertToCoordinates] are done, with a
      request to forward or not *)
  | ZipResolved (forward : bool)
  (** a resolver: [requestsChan <- newRequest] *)
  | ZipSend
  (** a fetcher: its [range] finds [requestsChan] closed *)
  | ResultsRangeEnds
  (** a fetcher: [processRequest] returns *)
  | ResultsProcessed
  (** a consumer: [ReadMessage] returns a message, or [context.Canceled] *)
  | KafkaRead (message : bool)
  (** a consumer: [metricsChan <- msg] *)
  | KafkaSend
  (** an aggregator: its [range] finds [metricsChan] closed *)
  | PromRangeEnds
  (** an aggregator: [updateMetrics] returns *)
  | PromUpdated
  (** the process ends otherwise: [os.Exit(1)] from [check], from a worker
      or from [startMetrics], or a panic that is no channel misuse (an
      index out of range in [consumeKafkaTopic], an invalid label in
      [updateMetrics]) *)
  | Exit.

(** A send on channel [c] by a goroutine that is at its send: a panic when
    [c] is closed; else it needs a receiver and completes with it. *)
Definition send (c : chan) (senders receivers : nat)
  (done : state -> state) (s : state) : option state :=
  match senders with
  | O => None
  | S _ =>
    if closed s c then Some (set_panicked (send_on_closed_channel c) s)
    else match receivers with
         | O => None
         | S _ => Some (done s)
         end
  end.

Definition goroutine_step (a : action) (s : state) : option state :=
  match a with
  | Main => main_step s
  | FileParsed success =>
    match file_parsing s with
    | O => None
    | S n =>
      Some (set_fileWG n (if success then S (file_sending s)
                          else file_sending s) s)
    end
  | FileSend =>
    send preCoordinateChan (file_sending s) (zip_receiving s)
      (fun s =>
         set_zipCodeWG (pred (zip_receiving s)) (S (zip_working s))
           (zip_sending s)
           (set_fileWG (file_parsing s) (pred (file_sending s)) s))
      s
  | ZipRangeEnds =>
    match zip_receiving s, preCoordinateChan_closed s with
    | S n, true => Some (set_zipCodeWG n (zip_working s) (zip_sending s) s)
    | _, _ => None
    end
  | ZipResolved forward =>
    match zip_working s with
    | O => None
    | S n =>
      Some (if forward
            then set_zipCodeWG (zip_receiving s) n (S (zip_sending s)) s
            else set_zipCodeWG (S (zip_receiving s)) n (zip_sending s) s)
    end
  | ZipSend =>
    send requestsChan (zip_sending s) (results_receiving s)
      (fun s =>
         set_resultsWG (pred (results_receiving s)) (S (results_working s))
           (set_zipCodeWG (S (zip_receiving s)) (zip_working s)
              (pred (zip_sending s)) s))
      s
  | ResultsRangeEnds =>
    match results_receiving s, requestsChan_closed s with
    | S n, true => Some (set_resultsWG n (results_working s) s)
    | _, _ => None
    end
  | ResultsProcessed =>
    match results_working s with
    | O => None
    | S n => Some (set_resultsWG (S (results_receiving s)) n s)
    end
  | KafkaRead message =>
    match kafka_reading s with
    | O => None
    | S n =>
      if message then Some (set_kafkaWG n (S (kafka_sending s)) s)
      else if cancelled s then Some (set_kafkaWG n (kafka_sending s) s)
      else None
    end
  | KafkaSend =>
    send metricsChan (kafka_sending s) (prom_receiving s)
      (fun s =>
         set_promWG (pred (prom_receiving s)) (S (prom_working s))
           (set_kafkaWG (S (kafka_reading s)) (pred (kafka_sending s)) s))
      s
  | PromRangeEnds =>
    match prom_receiving s, metricsChan_closed s with
    | S n, true => Some (set_promWG n (prom_working s) s)
    | _, _ => None
    end
  | PromUpdated =>
    match prom_working s with
    | O => None
    | S n => Some (set_promWG (S (prom_receiving s)) n s)
    end
  | Exit => Some (set_exited s)
  end.

(** One step of the program: none once it has exited or panicked. *)
Definition step (a : action) (s : state) : option state :=
  if exited s then None
  else match panicked s with
       | Some _ => None
       | None => goroutine_step a s
       end.

(** The state after a schedule, if each of its actions could move. *)
Fixpoint run (schedule : list action) (s : state) : option state :=
  match schedule with
  | [] => Some s
  | a :: rest =>
    match step a s with
    | None => None
    | Some s' => run rest s'
    end
  end.

(** How far [main] is in its shutdown sequence. *)
Definition stage (p : pc) : nat :=
  match p with
  | StartConsumers _ | StartPromWorkers _ | StartZipWorkers _
  | StartResultWorkers _ | Scanning _ | Sleep | fileWG_Wait => 0
  | close_preCoordinateChan => 1
  | zipCodeWG_Wait => 2
  | close_requestsChan => 3
  | resultsWG_Wait => 4
  | cancel => 5
  | kafkaWG_Wait => 6
  | close_metricsChan => 7
  | promWG_Wait => 8
  | Finished => 9
  end.

End main.

(** ** An instance of the [strconv] interface

    Decimal integers are parsed exactly; every float is written as [0].
    The instance serves to run the model on concrete inputs and to show
    that the assumptions made on the interface can be met. *)
Definition float_of_Z (n : Z) : float :=
  if n <? 0 then (- PrimFloat.of_uint63 (Uint63.of_Z (- n)))%float
  else PrimFloat.of_uint63 (Uint63.of_Z n).

Definition integer_strconv : Strconv := {|
  ParseFloat64 := fun s => option_map float_of_Z (strconv.Atoi s);
  ParseFloat32 := fun s => option_map float_of_Z (strconv.Atoi s);
  FormatFloat := fun _ => ["0"%char]
|}.

(** * The vocabulary of the statements *)

Definition alert_value (crossed : bool) : float :=
  if crossed then 1%float else 0%float.

(** The alert gauges and the metric family (topic) each belongs to. *)
Definition alert_topic (g : Gauge) : option gostring :=
  match g with
  | alertTempHigh | alertTempLow => Some (str "temperature")
  | alertHumidityHigh | alertHumidityLow => Some (str "humidity")
  | alertWindHigh => Some (str "wind")
  | _ => None
  end.

(** Whether the value of a message crosses the threshold of an alert. *)
Definition crossed (th : Thresholds) (msg : WeatherMessage.t) (g : Gauge)
  : bool :=
  match g with
  | alertTempHigh => (tempHigh th <? WeatherMessage.Temperature msg)%float
  | alertTempLow => (WeatherMessage.Temperature msg <? tempLow th)%float
  | alertHumidityHigh => (humidityHigh th <? WeatherMessage.Humidity msg)%float
  | alertHumidityLow => (WeatherMessage.Humidity msg <? humidityLow th)%float
  | alertWindHigh => (windHigh th <? WeatherMessage.WindSpeed msg)%float
  | _ => false
  end.

(** The alert thresholds when no environment variable is set. *)
Definition default_thresholds : Thresholds :=
  mkThresholds 32%float 90%float 30%float 70%float 40%float.

(** A humidity message as the consumer of the [humidity] topic builds it:
    the fields of the other families are zero. *)
Definition humidity_message : WeatherMessage.t :=
  WeatherMessage.mk (str "humidity") (str "10001") (str "2026-01-01")
    0%float 0%float 50%float 0%float 0%float 0%float.

Definition empty_state : State := mkState no_gauges FileAbsent.

(** What the development assumes of the [strconv] interface: the empty
    text is not a number; the text written for a finite float is a JSON
    number literal, read as one literal before a comma or a closing brace,
    and [ParseFloat] accepts it. *)
Class StrconvLaws (S : Strconv) : Prop := {
  ParseFloat64_empty : ParseFloat64 [] = None;
  FormatFloat_literal : forall f c rest,
    is_finite f = true ->
    c = ","%char \/ c = "}"%char ->
    json.scan_number (FormatFloat f ++ c :: rest)
    = Some (FormatFloat f, c :: rest);
  FormatFloat_parses : forall f,
    is_finite f = true -> is_Some (ParseFloat64 (FormatFloat f))
}.

(** An environment variable that is not set, or whose value is not a
    floating-point number. *)
Definition unset_or_not_float `{Strconv} (env : Env) (name : string) : Prop :=
  env (str name) = None \/ ParseFloat64 (Getenv env name) = None.

(** The configuration documented as default. *)
Definition default_configuration : Config :=
  mkConfig 10 default_thresholds 60000000000.

(** The samples that [processRequest] turns into messages: for each of
    the [days] requested days, in order, the sample at eight times the
    index of the day. *)
Definition sample_at (samples : list DailyResponse.t) (day : nat)
  : option DailyResponse.t :=
  nth_error samples (8 * day).

Definition chosen_samples (days : nat) (samples : list DailyResponse.t)
  : list DailyResponse.t :=
  omap (sample_at samples) (seq 0 days).

(** The sample at position [idx] is the first of the sequence on its
    calendar day: no sample before it has the same date. *)
Definition first_sample_of_its_day `{Location}
  (samples : list DailyResponse.t) (idx : nat) : bool :=
  match nth_error samples idx with
  | None => false
  | Some r =>
    forallb (fun r' =>
               negb (json.eqb_str
                       (time.Unix_Format_date (DailyResponse.Time r'))
                       (time.Unix_Format_date (DailyResponse.Time r))))
            (firstn idx samples)
  end.

(** A forecast as the provider gives it: [n] samples three hours apart,
    the first at [start]. *)
Definition three_hourly (start : Z) (n : nat) : list DailyResponse.t :=
  map (fun k => DailyResponse.mk (start + 10800 * Z.of_nat k)
                  40%float 38%float 50 20 5%float 180)
      (seq 0 n).

(** A forecast response as the provider sends it: status 200 and [n]
    samples three hours apart, the first at [start]. *)
Definition jq (name : string) : gostring :=
  json.quote :: str name ++ [json.quote].

Definition sample_json (dt : Z) : gostring :=
  str "{" ++ jq "dt" ++ str ":" ++ time.itoa dt ++ str ","
  ++ jq "main" ++ str ":{" ++ jq "temp" ++ str ":40," ++ jq "feels_like"
  ++ str ":38," ++ jq "humidity" ++ str ":50},"
  ++ jq "clouds" ++ str ":{" ++ jq "all" ++ str ":20},"
  ++ jq "wind" ++ str ":{" ++ jq "speed" ++ str ":5," ++ jq "deg"
  ++ str ":180}}".

Fixpoint join_comma (l : list gostring) : gostring :=
  match l with
  | [] => []
  | [x] => x
  | x :: l' => x ++ ","%char :: join_comma l'
  end.

Definition forecast_body (start : Z) (n : nat) : gostring :=
  str "{" ++ jq "cod" ++ str ":" ++ jq "200" ++ str "," ++ jq "message"
  ++ str ":0," ++ jq "list" ++ str ":["
  ++ join_comma (map (fun k => sample_json (start + 10800 * Z.of_nat k))
                     (seq 0 n))
  ++ str "]}".

(** A provider whose forecast holds as many samples as are asked for, from
    2026-01-01 15:00 UTC on. *)
Definition afternoon_provider : Providers :=
  mkProviders
    (fun _ _ => http_error)
    (fun _ _ cnt _ => http_response (forecast_body 1767279600 (Z.to_nat cnt))).

Definition two_day_request : PostLocationRequest.t :=
  PostLocationRequest.mk 2 (str "New York") 40%float (-74)%float
    (str "10001") 1.

(** A record of the log with the given location and date: a line that the
    scanner delivers (every line, as long as none fills its buffer) and
    that unmarshals into a message with that Zip and that Date. *)
Definition log_has_record `{Strconv} (file : file_state)
  (zip date : gostring) : Prop :=
  exists content line msg,
    os_Open file = Some content
    /\ In line (ScanLines content)
    /\ WeatherMessage.Unmarshal line = Some msg
    /\ WeatherMessage.Zip msg = zip
    /\ WeatherMessage.Date msg = date.

(** The body with which the geocoding provider rejects an API key. *)
Definition invalid_key_body : gostring :=
  str "{" ++ jq "cod" ++ str ":401, " ++ jq "message" ++ str ": "
  ++ jq "Invalid API key. Please see https://openweathermap.org/faq#error401 for more info."
  ++ str "}".

(** A geocoding provider that rejects every key. *)
Definition rejecting_provider : Providers :=
  mkProviders (fun _ _ => http_response invalid_key_body)
              (fun _ _ _ _ => http_response invalid_key_body).

(** An interface value that does not hold an [int]. *)
Definition not_int (a : json.any) : Prop :=
  match a with
  | json.any_int _ => False
  | _ => True
  end.

(** The sixth field of a [ZIPResponse] under construction, its [cod],
    does not hold an [int]. *)
Definition cod_not_int (acc : list json.govalue) : Prop :=
  match acc !! 5%nat with
  | Some (json.VAny a) => not_int a
  | _ => True
  end.

(** A value text that the parser reads back as [jv] before a comma or a
    closing brace. *)
Definition renders (vtext : gostring) (jv : json.value) : Prop :=
  forall fuel depth d rest,
    d = ","%char \/ d = "}"%char ->
    json.parse_value (S fuel) depth (vtext ++ d :: rest)
    = Some (jv, d :: rest).

(** The texts and the values of a list of members with both. *)
Definition member_texts (l : list (gostring * gostring * json.value))
  : list (gostring * gostring) :=
  map (fun m => (fst (fst m), snd (fst m))) l.

Definition member_values (l : list (gostring * gostring * json.value))
  : list (gostring * json.value) :=
  map (fun m => (fst (fst m), snd m)) l.



Definition newline : ascii := "010"%char.

(** A log that is empty or ends with a newline. *)
Definition newline_terminated (content : gostring) : Prop :=
  content = [] \/ exists pre, content = pre ++ [newline].

(** The characters of a JSON number literal. *)
Definition number_char (c : ascii) : bool :=
  strconv.is_digit c || Ascii.eqb c "-"%char || Ascii.eqb c "+"%char
  || Ascii.eqb c "."%char || Ascii.eqb c "e"%char || Ascii.eqb c "E"%char.

(** ** Concrete inputs *)

Definition noon_sample : DailyResponse.t :=
  DailyResponse.mk 1767268800 40%float 38%float 50 20 5%float 180.

Definition humidity_event : kafka.Message :=
  nth 1 (@publish_sample integer_strconv UTC (str "New York") (str "10001")
           noon_sample)
      (kafka.mkMessage [] [] []).

(** An environment with an API key, a low temperature threshold that is
    not a number, a high temperature threshold of 95 and a worker count
    that is not an integer; the other variables are not set. *)
Definition sample_env : Env := fun name =>
  if json.eqb_str name (str "API_KEY") then Some (str "0123456789abcdef")
  else if json.eqb_str name (str "TEMP_LOW") then Some (str "freezing")
  else if json.eqb_str name (str "TEMP_HIGH") then Some (str "95")
  else if json.eqb_str name (str "WORKERS") then Some (str "'many'")
  else None.

(** The forecast that [afternoon_provider] sends for two days, decoded. *)
Definition afternoon_forecast : json.govalue :=
  default (json.zero APIResponse.type)
    (@json.Decode integer_strconv APIResponse.type
       (forecast_body 1767279600 16)).

(** A log of one record, the line that [updateMetrics] writes for
    [humidity_message]. *)
Definition one_record_log : gostring :=
  default [] (@WeatherMessage.Marshal integer_strconv humidity_message)
  ++ ["010"%char].

Definition one_day_request : PreCoordinateRequest.t :=
  PreCoordinateRequest.mk 1 (str "10001") 1.

Definition wind_message : WeatherMessage.t :=
  WeatherMessage.mk (str "wind") (str "12601") (str "2026-01-02")
    0%float 0%float 0%float 12%float 270%float 0%float.

Definition two_day_lookup : PreCoordinateRequest.t :=
  PreCoordinateRequest.mk 2 (str "12601") 7.

(** The state after [updateMetrics] has processed [wind_message] with a
    log of one record. *)
Definition after_wind_message : State :=
  match @updateMetrics integer_strconv default_thresholds wind_message
          (mkState no_gauges (FilePresent one_record_log)) with
  | Done st' => st'
  | _ => empty_state
  end.

(** A complete run with one worker per pool and one input line: everything
    is started, the line travels through the three channels, the four
    consumers are cancelled, and [main] reaches its end. *)
Definition one_line_schedule : list main.action :=
  repeat main.Main 14
  ++ [main.FileParsed true; main.FileSend; main.ZipResolved true;
      main.ZipSend; main.ResultsProcessed;
      main.KafkaRead true; main.KafkaSend; main.PromUpdated;
      main.Main; main.Main; main.ZipRangeEnds;
      main.Main; main.Main; main.ResultsRangeEnds;
      main.Main; main.Main]
  ++ repeat (main.KafkaRead false) 4
  ++ [main.Main; main.Main; main.PromRangeEnds; main.Main].

Definition one_line_end : main.state :=
  default (main.start 1 1) (main.run one_line_schedule (main.start 1 1)).

(** What holds of every state that [main] and its goroutines reach. *)
Definition shutdown_invariant (s : main.state) : Prop :=
  let stage := main.stage (main.at_ s) in
  main.panicked s = None
  /\ main.preCoordinateChan_closed s = (2 <=? stage)%nat
  /\ main.requestsChan_closed s = (4 <=? stage)%nat
  /\ main.metricsChan_closed s = (8 <=? stage)%nat
  /\ main.cancelled s = (6 <=? stage)%nat
  /\ ((1 <= stage)%nat -> main.fileWG s = 0%nat)
  /\ ((3 <= stage)%nat -> main.zipCodeWG s = 0%nat)
  /\ ((7 <= stage)%nat -> main.kafkaWG s = 0%nat).

(** A line of 64 KiB without a newline. *)
Definition overlong_line : gostring := repeat "x"%char (Z.to_nat 65536).

(** The humidity message published for a ZIP+4 code. *)
Definition zip4_event : kafka.Message :=
  nth 1 (@publish_sample integer_strconv UTC (str "Poughkeepsie")
           (str "12601-1234") noon_sample)
      (kafka.mkMessage [] [] []).

(** The state after [humidity_message], then [wind_message], on an empty
    store without a log. *)
Definition after_two_messages : State :=
  match @updateMetrics integer_strconv default_thresholds humidity_message
          empty_state with
  | Done st1 =>
    match @updateMetrics integer_strconv default_thresholds wind_message
            st1 with
    | Done st2 => st2
    | _ => empty_state
    end
  | _ => empty_state
  end.

Definition after_humidity_message : State :=
  match @updateMetrics integer_strconv default_thresholds humidity_message
          empty_state with
  | Done st1 => st1
  | _ => empty_state
  end.

(** A wind message whose Zip is the byte 0xFF. *)
Definition bad_label_message : WeatherMessage.t :=
  WeatherMessage.mk (str "wind") ["255"%char] (str "2026-01-02")
    0%float 0%float 0%float 12%float 270%float 0%float.

(** ** The dashboards (the Grafana file of the project)

    [getAllZipCodes]: the Zip of every line of the metrics file that
    unmarshals, each one once.  The source fills a map used as a set and
    returns its keys in the order of the map iteration, which Go leaves
    unspecified: the result is a set.  An unreadable file gives [nil]. *)
Fixpoint collect_zips `{Strconv} (lines : list gostring)
  (zipSet : gset gostring) : gset gostring :=
  match lines with
  | [] => zipSet
  | line :: rest =>
    match WeatherMessage.Unmarshal line with
    | Some msg => collect_zips rest ({[WeatherMessage.Zip msg]} ∪ zipSet)
    | None => collect_zips rest zipSet
    end
  end.

Definition getAllZipCodes `{Strconv} (file : file_state) : gset gostring :=
  match os_Open file with
  | None => ∅
  | Some content => collect_zips (ScanLines content) ∅
  end.

(** [waitForGrafana].  One turn of its loop is a probe of
    [/api/health] and, when the answer is not that of a Grafana that is
    up, a reading of [time.Since(start)], in nanoseconds; the loop then
    sleeps two seconds.  The function runs on the turns that the
    environment offers: [Some ready] is the [nil] of the source,
    [Some timed_out] its error, [None] a loop that is still waiting when
    the turns are used up. *)
Inductive probe : Type :=
| probe_failed
| probe_status (code : Z).

Inductive wait_result : Type := ready | timed_out.

(** Status 200, or 401 (login required). *)
Definition grafana_is_up (p : probe) : bool :=
  match p with
  | probe_failed => false
  | probe_status code => (code =? 200) || (code =? 401)
  end.

Fixpoint waitForGrafana (timeout : Z) (turns : list (probe * Z))
  : option wait_result :=
  match turns with
  | [] => None
  | (p, elapsed) :: rest =>
    if grafana_is_up p then Some ready
    else if waitForGrafana_gives_up timeout elapsed then Some timed_out
    else waitForGrafana timeout rest
  end.

(** The clock readings of a loop that sleeps two seconds after each turn:
    the reading of turn [k] (from 0) is at least [k] times two seconds. *)
Definition paced (turns : list (probe * Z)) : Prop :=
  forall k p elapsed,
    nth_error turns k = Some (p, elapsed) ->
    2 * Second * Z.of_nat k <= elapsed.

(** A turn that lets the loop go on: Grafana is not up and the deadline
    has not passed. *)
Definition keeps_waiting (timeout : Z) (turn : probe * Z) : Prop :=
  grafana_is_up (fst turn) = false /\ snd turn <= timeout.

(** Thirty-two probes that fail, two seconds apart. *)
Definition silent_grafana : list (probe * Z) :=
  map (fun k => (probe_failed, 2 * Second * Z.of_nat k + 1000)) (seq 0 32).

(** A provider whose forecast holds ten samples, whatever is asked for,
    from 2026-01-01 15:00 UTC on. *)
Definition short_provider : Providers :=
  mkProviders
    (fun _ _ => http_error)
    (fun _ _ _ _ => http_response (forecast_body 1767279600 10)).

Definition five_day_request : PostLocationRequest.t :=
  PostLocationRequest.mk 5 (str "New York") 40%float (-74)%float
    (str "10001") 1.

Definition short_forecast : json.govalue :=
  default (json.zero APIResponse.type)
    (@json.Decode integer_strconv APIResponse.type
       (forecast_body 1767279600 10)).

(** The sizes of the pools at each statement of [main]: a pool is complete
    from the end of the loop that starts it until its channel is closed
    (the consumers: until the context is cancelled), and empty once
    [main] has passed its [Wait]. *)
Definition pool_sizes (s : main.state) : Prop :=
  let W := main.workers s in
  let kafka := main.kafkaWG s in
  let prom := main.promWG s in
  let zip := main.zipCodeWG s in
  let results := main.resultsWG s in
  match main.at_ s with
  | main.StartConsumers n =>
    (kafka + n = 4 * W /\ prom = 0 /\ zip = 0 /\ results = 0
     /\ main.fileWG s = 0)%nat
  | main.StartPromWorkers n =>
    (kafka = 4 * W /\ prom + n = W /\ zip = 0 /\ results = 0
     /\ main.fileWG s = 0)%nat
  | main.StartZipWorkers n =>
    (kafka = 4 * W /\ prom = W /\ zip + n = W /\ results = 0
     /\ main.fileWG s = 0)%nat
  | main.StartResultWorkers n =>
    (kafka = 4 * W /\ prom = W /\ zip = W /\ results + n = W
     /\ main.fileWG s = 0)%nat
  | main.Scanning _ | main.Sleep | main.fileWG_Wait
  | main.close_preCoordinateChan =>
    (kafka = 4 * W /\ prom = W /\ zip = W /\ results = W)%nat
  | main.zipCodeWG_Wait | main.close_requestsChan =>
    (kafka = 4 * W /\ prom = W /\ results = W)%nat
  | main.resultsWG_Wait => (kafka = 4 * W /\ prom = W)%nat
  | main.cancel => (kafka = 4 * W /\ prom = W /\ results = 0)%nat
  | main.kafkaWG_Wait | main.close_metricsChan =>
    (prom = W /\ results = 0)%nat
  | main.promWG_Wait => results = 0%nat
  | main.Finished => (prom = 0 /\ results = 0)%nat
  end.

(** [main] has started the four pools and reads the input file, or is
    further on. *)
Definition pools_started (p : main.pc) : bool :=
  match p with
  | main.StartConsumers _ | main.StartPromWorkers _
  | main.StartZipWorkers _ | main.StartResultWorkers _ => false
  | _ => true
  end.



(** ** A second instance of the [strconv] interface

    A float that is an integer of magnitude at most [2 ^ 53] is written in
    decimal, every other float as [0]; decimal integers are parsed
    exactly.  On the integers it writes, the instance agrees with
    [strconv]: the text written is read back as the same float. *)
Definition integer_of_float (f : float) : option Z :=
  match Prim2SF f with
  | S754_finite sign m e =>
    let n := if 0 <=? e then Z.pos m * 2 ^ e else Z.pos m / 2 ^ (- e) in
    if (0 <? n) && (n <=? 2 ^ 53)
    then if (float_of_Z (if sign then - n else n) =? f)%float
         then Some (if sign then - n else n)
         else None
    else None
  | _ => None
  end.

Definition decimal_text (n : Z) : gostring :=
  (if n <? 0 then ["-"%char] else []) ++ time.itoa (Z.abs n).

Definition decimal_strconv : Strconv := {|
  ParseFloat64 := fun s => option_map float_of_Z (strconv.Atoi s);
  ParseFloat32 := fun s => option_map float_of_Z (strconv.Atoi s);
  FormatFloat := fun f =>
    match integer_of_float f with
    | Some n => decimal_text n
    | None => ["0"%char]
    end
|}.
(** The text that [FormatFloat] writes for [f] is read back as [f] (as
    [strconv] does for every finite float). *)
Definition reads_back `{Strconv} (f : float) : Prop :=
  is_finite f = true /\ ParseFloat64 (FormatFloat f) = Some f.

(** The four messages that the consumers are to send on [metricsChan] for
    one sample: each carries the values of its family, the other fields
    are zero. *)
Definition consumed_sample `{Location} (zipCode : gostring)
  (r : DailyResponse.t) : list WeatherMessage.t :=
  let date := time.Unix_Format_date (DailyResponse.Time r) in
  let z := 0%float in
  [WeatherMessage.mk (str "temperature") zipCode date
     (DailyResponse.Main_Temp r) (DailyResponse.Main_FeelsLike r) z z z z;
   WeatherMessage.mk (str "humidity") zipCode date z z
     (float64_of_int (DailyResponse.Main_Humidity r)) z z z;
   WeatherMessage.mk (str "wind") zipCode date z z z
     (DailyResponse.Wind_Speed r)
     (float64_of_int (DailyResponse.Wind_Deg r)) z;
   WeatherMessage.mk (str "cloud") zipCode date z z z z z
     (float64_of_int (DailyResponse.Clouds_All r))].

(** A sample of 2026-01-01 12:00 UTC: 28 degrees, felt as 19, humidity 50,
    clouds 20, wind 5 from 180. *)
Definition cold_sample : DailyResponse.t :=
  DailyResponse.mk 1767268800 28%float 19%float 50 20 5%float 180.

(** The topic whose messages set a gauge. *)
Definition gauge_topic (g : Gauge) : gostring :=
  match g with
  | tempGauge | feelsLikeGauge | alertTempHigh | alertTempLow =>
    str "temperature"
  | humidityGauge | alertHumidityHigh | alertHumidityLow => str "humidity"
  | windSpeedGauge | windDegreeGauge | alertWindHigh => str "wind"
  | cloudGauge => str "cloud"
  end.

(** The loop of an aggregator of [main],
    [for msg := range metricsChan { updateMetrics(msg) }], over the
    messages that it receives, in the order in which it receives them. *)
Fixpoint aggregate `{Strconv} (th : Thresholds)
  (msgs : list WeatherMessage.t) (st : State) : outcome State :=
  match msgs with
  | [] => Done st
  | msg :: rest =>
    match updateMetrics th msg st with
    | Done st' => aggregate th rest st'
    | Exit code => Exit code
    | Panic => Panic
    end
  end.

(** Two messages that differ in their topic, or in their (location, date)
    pair. *)
Definition independent (m1 m2 : WeatherMessage.t) : Prop :=
  WeatherMessage.Topic m1 <> WeatherMessage.Topic m2
  \/ (WeatherMessage.Zip m1, WeatherMessage.Date m1)
     <> (WeatherMessage.Zip m2, WeatherMessage.Date m2).

(** The gauge updates of a sequence of messages. *)
Fixpoint update_all (th : Thresholds) (msgs : list WeatherMessage.t)
  (st : Gauges) : option Gauges :=
  match msgs with
  | [] => Some st
  | msg :: rest =>
    match update_gauges th msg st with
    | Some st' => update_all th rest st'
    | None => None
    end
  end.

(** The way of one line of the input file through the stages of [main]:
    [parseLine] in the goroutine of the line, [isInTSDB] and
    [convertToCoordinates] in a worker of [preCoordinateChan],
    [processRequest] in a worker of [requestsChan].  The result is what is
    written to the Kafka writers for the line. *)
Definition process_line `{Strconv} `{Location} (net : Providers)
  (file : file_state) (now : Z) (key : gostring) (text : gostring)
  (lineNum : Z) : outcome (list kafka.Message) :=
  match parseLine text lineNum with
  | None => Done []
  | Some req =>
    match resolve_request net file now req key with
    | Done None => Done []
    | Done (Some newRequest) => processRequest net newRequest key
    | Exit code => Exit code
    | Panic => Panic
    end
  end.

(** A later humidity message for the location and date of
    [humidity_message], with a humidity beyond the high threshold. *)
Definition later_humidity_message : WeatherMessage.t :=
  WeatherMessage.mk (str "humidity") (str "10001") (str "2026-01-01")
    0%float 0%float 85%float 0%float 0%float 0%float.


(** ** The log as a file of lines *)

(** The lines of a text as they are in the file: the bytes between two
    newlines, however many, and the bytes after the last newline when
    there are some.  [cur] holds the bytes of the pending line, the last
    one first. *)
Fixpoint raw_lines (cur : gostring) (s : gostring) : list gostring :=
  match s with
  | [] =>
    match cur with
    | [] => []
    | _ => [rev cur]
    end
  | c :: s' =>
    if Ascii.eqb c newline then rev cur :: raw_lines [] s'
    else raw_lines (c :: cur) s'
  end.


(** A line shorter than 64 KiB. *)
Definition fits (line : gostring) : bool :=
  Z.of_nat (length line) <? MaxScanTokenSize.


(** The lines that come before the first line of 64 KiB or more. *)
Fixpoint lines_before_overlong (lines : list gostring) : list gostring :=
  match lines with
  | [] => []
  | line :: rest =>
    if fits line then line :: lines_before_overlong rest else []
  end.

Definition reached_lines (content : gostring) : list gostring :=
  map dropCR (lines_before_overlong (raw_lines [] content)).




(** The line that [updateMetrics] writes for [wind_message]. *)
Definition wind_record_log : gostring :=
  default [] (@WeatherMessage.Marshal integer_strconv wind_message)
  ++ [newline].



(** ** The [Set] calls of [updateMetrics]

    The calls [vec.WithLabelValues(msg.Zip, msg.Date).Set(v)] that
    [updateMetrics] makes for a message, in the order of the source: the
    gauge vector and the value of each.  Each call is atomic, and no lock
    spans the calls of one message (the mutex of [updateMetrics] guards
    the file only): when two aggregators run [updateMetrics] at once, the
    calls of the two interleave. *)
Definition updateMetrics_sets (th : Thresholds) (msg : WeatherMessage.t)
  : list (Gauge * float) :=
  let topic := WeatherMessage.Topic msg in
  if json.eqb_str topic (str "temperature") then
    [(tempGauge, WeatherMessage.Temperature msg);
     (feelsLikeGauge, WeatherMessage.FeelsLike msg);
     (alertTempHigh,
      if (tempHigh th <? WeatherMessage.Temperature msg)%float
      then 1%float else 0%float);
     (alertTempLow,
      if (WeatherMessage.Temperature msg <? tempLow th)%float
      then 1%float else 0%float)]
  else if json.eqb_str topic (str "humidity") then
    [(humidityGauge, WeatherMessage.Humidity msg);
     (alertHumidityHigh,
      if (humidityHigh th <? WeatherMessage.Humidity msg)%float
      then 1%float else 0%float);
     (alertHumidityLow,
      if (WeatherMessage.Humidity msg <? humidityLow th)%float
      then 1%float else 0%float)]
  else if json.eqb_str topic (str "wind") then
    [(windSpeedGauge, WeatherMessage.WindSpeed msg);
     (windDegreeGauge, WeatherMessage.WindDegree msg);
     (alertWindHigh,
      if (windHigh th <? WeatherMessage.WindSpeed msg)%float
      then 1%float else 0%float)]
  else if json.eqb_str topic (str "cloud") then
    [(cloudGauge, WeatherMessage.Cloud msg)]
  else [].

(** One call [vec.WithLabelValues(zip, date).Set(v)]. *)
Record set_call := mkSet {
  set_gauge : Gauge;
  set_zip : gostring;
  set_date : gostring;
  set_value : float
}.

Definition calls_of (th : Thresholds) (msg : WeatherMessage.t)
  : list set_call :=
  map (fun gv => mkSet (fst gv) (WeatherMessage.Zip msg)
                   (WeatherMessage.Date msg) (snd gv))
      (updateMetrics_sets th msg).

(** The calls of a list, one after the other; [None] when one panics. *)
Fixpoint run_calls (calls : list set_call) (st : Gauges) : option Gauges :=
  match calls with
  | [] => Some st
  | c :: rest =>
    match WithLabelValues_Set (set_gauge c) (set_zip c) (set_date c)
            (set_value c) st with
    | Some st' => run_calls rest st'
    | None => None
    end
  end.

(** The calls of two goroutines in the order in which they happen:
    [schedule] tells at each step whether the first goroutine moves
    ([true]) or the second; once it is used up, or one of the two has
    finished, what is left runs in order, the first goroutine before the
    second. *)
Fixpoint interleave {A : Type} (schedule : list bool) (a b : list A)
  : list A :=
  match schedule with
  | [] => a ++ b
  | first :: schedule' =>
    match a, b with
    | [], _ => b
    | _, [] => a
    | x :: a', y :: b' =>
      if first then x :: interleave schedule' a' b
      else y :: interleave schedule' a b'
    end
  end.

(** The store in which the calls of [humidity_message] and of
    [later_humidity_message] have interleaved: the humidity of the first,
    the humidity of the second and its alert, then the alert of the
    first, and the rest. *)
Definition mixed_schedule : list bool := [true; false; false; true].

Definition mixed_gauges : Gauges :=
  default no_gauges
    (run_calls
       (interleave mixed_schedule
          (calls_of default_thresholds humidity_message)
          (calls_of default_thresholds later_humidity_message))
       no_gauges).

(** * Properties *)

(** ** Strings *)

Lemma eqb_str_refl (a : gostring) : json.eqb_str a a = true.
Proof.
  induction a as [|c a IH]; simpl; [reflexivity|].
  rewrite Ascii.eqb_refl. exact IH.
Qed.

Lemma eqb_str_eq (a b : gostring) : json.eqb_str a b = true <-> a = b.
Proof.
  split.
  - revert b. induction a as [|x a IH]; intros [|y b] Hab; simpl in Hab;
      try discriminate; [reflexivity|].
    apply andb_true_iff in Hab as [Hxy Hab].
    apply Ascii.eqb_eq in Hxy. subst y. f_equal. auto.
  - intros ->. apply eqb_str_refl.
Qed.

(** ** Input parsing *)

(** C8. Every request accepted by [parseLine] has a day count between 1
    and 5, the limit of the provider. *)
Theorem parseLine_days_bounded (text : gostring) (lineNum : Z)
  (req : PreCoordinateRequest.t) :
  parseLine text lineNum = Some req ->
  0 < PreCoordinateRequest.Days req <= 5.
Proof.
  unfold parseLine.
  destruct (negb _); [discriminate|].
  destruct (strconv.Atoi _) as [days|]; [|discriminate].
  destruct (days <=? 0) eqn:Hpos; [discriminate|].
  apply Z.leb_gt in Hpos.
  destruct (5 <? days) eqn:Hcap; intros [= <-]; simpl.
  - lia.
  - apply Z.ltb_ge in Hcap. lia.
Qed.

Lemma parseLine_days_bounded_witness :
  0 < PreCoordinateRequest.Days
        (PreCoordinateRequest.mk 5 (str "10001") 7) <= 5.
Proof.
  apply (parseLine_days_bounded (str " 12 | 10001 ") 7).
  vm_compute. reflexivity.
Defined.

(** ** The message key *)

Lemma SplitN2_first_sep (a b : gostring) (sep : ascii) :
  ~ In sep a ->
  strings.SplitN2 (a ++ sep :: b) sep = [a; b].
Proof.
  induction a as [|c a IH]; intros Hnot; simpl.
  - rewrite Ascii.eqb_refl. reflexivity.
  - destruct (Ascii.eqb c sep) eqn:Hc.
    + apply Ascii.eqb_eq in Hc. subst c. exfalso. apply Hnot. left. reflexivity.
    + rewrite IH; [reflexivity|]. intros Hin. apply Hnot. right. exact Hin.
Qed.

Section KeyRoundTrip.
Context `{Strconv} `{Location}.

Lemma publish_sample_keys location zipCode r m :
  In m (publish_sample location zipCode r) ->
  kafka.Key m = zipCode ++ "-"%char :: time.Unix_Format_date (DailyResponse.Time r)
  /\ In (kafka.Topic m) topics.
Proof.
  unfold publish_sample, topics. simpl.
  intros [<-|[<-|[<-|[<-|[]]]]]; simpl; auto 6.
Qed.

(** C10. The consumer splits the key of a published message at its first
    dash; when the ZIP code of the request holds no dash the two parts are
    the ZIP code and the date that [processRequest] joined, and the
    message that the consumer passes on carries them. *)
Theorem key_roundtrip (location zipCode : gostring) (r : DailyResponse.t)
  (m : kafka.Message) :
  ~ In "-"%char zipCode ->
  In m (publish_sample location zipCode r) ->
  let date := time.Unix_Format_date (DailyResponse.Time r) in
  strings.SplitN2 (kafka.Key m) "-"%char = [zipCode; date]
  /\ forall payload,
      WeatherMessage.Unmarshal (kafka.Value m) = Some payload ->
      exists msg,
        consume_message (kafka.Topic m) (kafka.Key m) (kafka.Value m)
        = Done msg
        /\ WeatherMessage.Zip msg = zipCode
        /\ WeatherMessage.Date msg = date
        /\ WeatherMessage.Topic msg = kafka.Topic m.
Proof.
  intros Hdash Hm date.
  destruct (publish_sample_keys _ _ _ _ Hm) as [Hkey _].
  assert (Hsplit : strings.SplitN2 (kafka.Key m) "-"%char = [zipCode; date]).
  { rewrite Hkey. apply SplitN2_first_sep. exact Hdash. }
  split; [exact Hsplit|].
  intros payload Hpayload. unfold consume_message.
  rewrite Hpayload, Hsplit. eexists. split; [reflexivity|]. simpl. auto.
Qed.

End KeyRoundTrip.

(** ** Gauges and alerts *)

Lemma one_not_zero : 1%float <> 0%float.
Proof.
  intros Heq.
  assert (Hc : (1 =? 1)%float = (0 =? 1)%float) by (rewrite <- Heq; reflexivity).
  vm_compute in Hc. discriminate.
Qed.

Lemma Set_lookup g zip date v st st' :
  WithLabelValues_Set g zip date v st = Some st' ->
  st' g !! (zip, date) = Some v.
Proof.
  unfold WithLabelValues_Set. destruct (_ && _); [|discriminate].
  intros [= <-]. rewrite decide_True by reflexivity.
  apply lookup_insert_eq.
Qed.

Lemma Set_other g g' zip date v st st' :
  WithLabelValues_Set g zip date v st = Some st' ->
  g' <> g -> st' g' = st g'.
Proof.
  unfold WithLabelValues_Set. destruct (_ && _); [|discriminate].
  intros [= <-] Hne. rewrite decide_False by exact Hne. reflexivity.
Qed.

Lemma alert_value_one (crossed : bool) :
  alert_value crossed = 1%float <-> crossed = true.
Proof.
  destruct crossed; simpl; split; auto; intros Heq.
  - symmetry in Heq. destruct (one_not_zero Heq).
  - discriminate.
Qed.

Lemma alert_value_zero (crossed : bool) :
  alert_value crossed = 0%float <-> crossed = false.
Proof.
  destruct crossed; simpl; split; auto; intros Heq.
  - destruct (one_not_zero Heq).
  - discriminate.
Qed.

Ltac gauge_cases :=
  repeat match goal with
         | |- context [if json.eqb_str ?a ?b then _ else _] =>
           let E := fresh "Etopic" in destruct (json.eqb_str a b) eqn:E
         | H : context [if json.eqb_str ?a ?b then _ else _] |- _ =>
           let E := fresh "Etopic" in destruct (json.eqb_str a b) eqn:E
         end.

Lemma update_gauges_alert th msg st st' g topic :
  update_gauges th msg st = Some st' ->
  alert_topic g = Some topic ->
  WeatherMessage.Topic msg = topic ->
  st' g !! (WeatherMessage.Zip msg, WeatherMessage.Date msg)
  = Some (alert_value (crossed th msg g)).
Proof.
  intros Hup Hg Htopic. unfold update_gauges in Hup.
  unfold WithLabelValues_Set, bind_gauges in Hup.
  destruct (utf8.ValidString _ && utf8.ValidString _) eqn:Hvalid.
  - destruct g; simpl in Hg; try discriminate; injection Hg as <-;
      rewrite Htopic in Hup; simpl in Hup;
      injection Hup as <-; simpl; rewrite lookup_insert_eq; reflexivity.
  - destruct g; simpl in Hg; try discriminate; injection Hg as <-;
      rewrite Htopic in Hup; simpl in Hup; discriminate.
Qed.

Lemma update_gauges_other th msg st st' g topic :
  update_gauges th msg st = Some st' ->
  alert_topic g = Some topic ->
  WeatherMessage.Topic msg <> topic ->
  st' g = st g.
Proof.
  intros Hup Hg Htopic. unfold update_gauges in Hup.
  unfold WithLabelValues_Set, bind_gauges in Hup.
  gauge_cases;
    repeat match goal with
           | E : json.eqb_str _ _ = true |- _ => apply eqb_str_eq in E
           end;
    try (destruct (utf8.ValidString _ && utf8.ValidString _);
         [|discriminate]);
    injection Hup as <-;
    destruct g; simpl in Hg; try discriminate; injection Hg as <-;
    try reflexivity; exfalso; apply Htopic; assumption.
Qed.

Lemma update_gauges_idempotent th msg st st' st'' :
  update_gauges th msg st = Some st' ->
  update_gauges th msg st' = Some st'' ->
  forall g, st'' g = st' g.
Proof.
  intros Hup Hup' g. unfold update_gauges in Hup, Hup'.
  unfold WithLabelValues_Set, bind_gauges in Hup, Hup'.
  gauge_cases;
    try (destruct (utf8.ValidString _ && utf8.ValidString _);
         [|discriminate]);
    injection Hup as <-; injection Hup' as <-;
    try reflexivity;
    destruct g; simpl; rewrite ?insert_insert_eq; reflexivity.
Qed.

(** C5, as stated, fails: once a humidity message is processed, its
    Temperature field (zero) is below the low threshold, yet the
    temperature-low alert gauge of that location and date is not 1: it has
    no value at all. *)
Lemma alerts_follow_topic_counterexample :
  exists st',
    @updateMetrics integer_strconv default_thresholds humidity_message
      empty_state = Done st'
    /\ (WeatherMessage.Temperature humidity_message
        <? tempLow default_thresholds)%float = true
    /\ gauges st' alertTempLow
         !! (WeatherMessage.Zip humidity_message,
             WeatherMessage.Date humidity_message) = None.
Proof.
  assert (Hg : exists g, update_gauges default_thresholds humidity_message
                           no_gauges = Some g) by (eexists; reflexivity).
  destruct Hg as [g Hg].
  exists (mkState g (@append_metrics integer_strconv humidity_message FileAbsent)).
  split; [|split].
  - unfold updateMetrics, empty_state. cbn [gauges metricsFile].
    rewrite Hg. reflexivity.
  - vm_compute. reflexivity.
  - cbn [gauges].
    rewrite (update_gauges_other _ _ _ _ alertTempLow (str "temperature") Hg)
      by (reflexivity || discriminate).
    apply lookup_empty.
Qed.

Lemma alert_reading (v : option float) (c : bool) :
  v = Some (alert_value c) ->
  (v = Some 1%float <-> c = true) /\ (v = Some 0%float <-> c = false).
Proof.
  intros ->. split; (split; [intros [= Hv]|intros ->; reflexivity]).
  - apply alert_value_one. exact Hv.
  - apply alert_value_zero. exact Hv.
Qed.

Section Alerts.
Context `{Strconv}.

(** C5, amended. Once [updateMetrics] has processed a message, the alert
    gauges of the family named by its topic read, at the message's
    (location, date), 1 if the value crosses the threshold and 0 if not;
    the alert gauges of the other families are as they were; processing
    the same message again leaves every gauge with the same values. *)
Theorem alerts_follow_topic (th : Thresholds) (msg : WeatherMessage.t)
  (st st' : State) :
  updateMetrics th msg st = Done st' ->
  let alert g :=
    gauges st' g !! (WeatherMessage.Zip msg, WeatherMessage.Date msg) in
  let temperature := WeatherMessage.Temperature msg in
  let humidity := WeatherMessage.Humidity msg in
  let wind := WeatherMessage.WindSpeed msg in
  (WeatherMessage.Topic msg = str "temperature" ->
   ((alert alertTempHigh = Some 1%float
     <-> (tempHigh th <? temperature)%float = true)
    /\ (alert alertTempHigh = Some 0%float
        <-> (tempHigh th <? temperature)%float = false))
   /\ ((alert alertTempLow = Some 1%float
        <-> (temperature <? tempLow th)%float = true)
       /\ (alert alertTempLow = Some 0%float
           <-> (temperature <? tempLow th)%float = false)))
  /\ (WeatherMessage.Topic msg = str "humidity" ->
      ((alert alertHumidityHigh = Some 1%float
        <-> (humidityHigh th <? humidity)%float = true)
       /\ (alert alertHumidityHigh = Some 0%float
           <-> (humidityHigh th <? humidity)%float = false))
      /\ ((alert alertHumidityLow = Some 1%float
           <-> (humidity <? humidityLow th)%float = true)
          /\ (alert alertHumidityLow = Some 0%float
              <-> (humidity <? humidityLow th)%float = false)))
  /\ (WeatherMessage.Topic msg = str "wind" ->
      (alert alertWindHigh = Some 1%float
       <-> (windHigh th <? wind)%float = true)
      /\ (alert alertWindHigh = Some 0%float
          <-> (windHigh th <? wind)%float = false))
  /\ (forall g topic,
        alert_topic g = Some topic ->
        WeatherMessage.Topic msg <> topic ->
        gauges st' g = gauges st g)
  /\ (forall st'',
        updateMetrics th msg st' = Done st'' ->
        forall g, gauges st'' g = gauges st' g).
Proof.
  unfold updateMetrics.
  destruct (update_gauges th msg (gauges st)) as [g1|] eqn:Hup;
    [|discriminate].
  intros [= <-]. cbn [gauges].
  repeat split_and.
  - intros Htopic. split; apply alert_reading.
    + exact (update_gauges_alert _ _ _ _ alertTempHigh _ Hup eq_refl Htopic).
    + exact (update_gauges_alert _ _ _ _ alertTempLow _ Hup eq_refl Htopic).
  - intros Htopic. split; apply alert_reading.
    + exact (update_gauges_alert _ _ _ _ alertHumidityHigh _ Hup eq_refl Htopic).
    + exact (update_gauges_alert _ _ _ _ alertHumidityLow _ Hup eq_refl Htopic).
  - intros Htopic. apply alert_reading.
    exact (update_gauges_alert _ _ _ _ alertWindHigh _ Hup eq_refl Htopic).
  - intros g topic Hg Hne. exact (update_gauges_other _ _ _ _ _ _ Hup Hg Hne).
  - intros st''.
    destruct (update_gauges th msg g1) as [g2|] eqn:Hup'; [|discriminate].
    intros [= <-] g. cbn [gauges].
    exact (update_gauges_idempotent _ _ _ _ _ Hup Hup' g).
Qed.

End Alerts.

(** ** Configuration *)

Lemma integer_strconv_laws : StrconvLaws integer_strconv.
Proof.
  split.
  - reflexivity.
  - intros f c rest _ [->| ->]; reflexivity.
  - intros f _. exists 0%float. reflexivity.
Qed.

Section Defaults.
Context `{StrconvLaws}.

Lemma unset_not_float env name :
  unset_or_not_float env name -> ParseFloat64 (Getenv env name) = None.
Proof.
  intros [Hunset|Hbad]; [|exact Hbad].
  unfold Getenv. rewrite Hunset. simpl. apply ParseFloat64_empty.
Qed.

(** C9. Each setting takes its documented default when its own variable
    is unset or cannot be parsed, whatever the other variables hold: 32
    and 90 for the temperature thresholds, 30 and 70 for the humidity
    thresholds, 40 for the wind threshold, 10 workers; Grafana is awaited
    for 60 seconds.  When this is so for all of them, the configuration
    is the documented default one. *)
Theorem configuration_defaults (env : Env) :
  (unset_or_not_float env "TEMP_LOW" -> tempLow (init env) = 32%float)
  /\ (unset_or_not_float env "TEMP_HIGH" -> tempHigh (init env) = 90%float)
  /\ (unset_or_not_float env "HUMIDITY_LOW" ->
      humidityLow (init env) = 30%float)
  /\ (unset_or_not_float env "HUMIDITY_HIGH" ->
      humidityHigh (init env) = 70%float)
  /\ (unset_or_not_float env "WIND_SPEED_HIGH" ->
      windHigh (init env) = 40%float)
  /\ (env (str "WORKERS") = None
      \/ strconv.Atoi (strings.Trim (Getenv env "WORKERS") quotes) = None ->
      numWorkers env = 10)
  /\ grafanaTimeout = 60 * Second
  /\ (forall elapsed,
        waitForGrafana_gives_up grafanaTimeout elapsed = true
        <-> 60 * Second < elapsed)
  /\ (unset_or_not_float env "TEMP_LOW" ->
      unset_or_not_float env "TEMP_HIGH" ->
      unset_or_not_float env "HUMIDITY_LOW" ->
      unset_or_not_float env "HUMIDITY_HIGH" ->
      unset_or_not_float env "WIND_SPEED_HIGH" ->
      env (str "WORKERS") = None
      \/ strconv.Atoi (strings.Trim (Getenv env "WORKERS") quotes) = None ->
      init env = default_thresholds
      /\ forall cfg, configuration env = Some cfg ->
                     cfg = default_configuration).
Proof.
  assert (Hworkers : env (str "WORKERS") = None
            \/ strconv.Atoi (strings.Trim (Getenv env "WORKERS") quotes)
               = None ->
            numWorkers env = 10).
  { unfold numWorkers. intros [Hw|Hw].
    - unfold Getenv. rewrite Hw. reflexivity.
    - rewrite Hw. reflexivity. }
  repeat split_and.
  - intros H1. apply unset_not_float in H1.
    unfold init. cbn [tempLow]. rewrite H1. reflexivity.
  - intros H1. apply unset_not_float in H1.
    unfold init. cbn [tempHigh]. rewrite H1. reflexivity.
  - intros H1. apply unset_not_float in H1.
    unfold init. cbn [humidityLow]. rewrite H1. reflexivity.
  - intros H1. apply unset_not_float in H1.
    unfold init. cbn [humidityHigh]. rewrite H1. reflexivity.
  - intros H1. apply unset_not_float in H1.
    unfold init. cbn [windHigh]. rewrite H1. reflexivity.
  - exact Hworkers.
  - reflexivity.
  - intros elapsed. unfold waitForGrafana_gives_up. apply Z.ltb_lt.
  - intros H1 H2 H3 H4 H5 Hw.
    apply unset_not_float in H1, H2, H3, H4, H5.
    assert (Hinit : init env = default_thresholds).
    { unfold init. rewrite H1, H2, H3, H4, H5. reflexivity. }
    split; [exact Hinit|].
    intros cfg. unfold configuration.
    destruct (Getenv env "API_KEY"); [discriminate|].
    intros [= <-]. rewrite Hinit, (Hworkers Hw). reflexivity.
Qed.

End Defaults.

(** ** Forecast fetching *)

Lemma wrap_in_range (z : Z) : GoInt.in_range z -> GoInt.wrap z = z.
Proof.
  unfold GoInt.in_range, GoInt.min_int, GoInt.max_int, GoInt.wrap.
  intros Hz. rewrite Z.mod_small; lia.
Qed.

Section Fetch.
Context `{Strconv} `{Location}.

Lemma publish_sample_topics location zipCode r :
  map kafka.Topic (publish_sample location zipCode r) = topics.
Proof. reflexivity. Qed.

Lemma publish_loop_step fuel i days location zipCode samples :
  publish_loop (S fuel) i days location zipCode samples
  = if (i <? days) && (GoInt.mul i 8 <? Z.of_nat (length samples)) then
      if GoInt.mul i 8 <? 0 then Panic
      else
        match nth_error samples (Z.to_nat (GoInt.mul i 8)) with
        | None => Panic
        | Some r =>
          match publish_loop fuel (GoInt.add i 1) days location zipCode
                  samples with
          | Done ms => Done (publish_sample location zipCode r ++ ms)
          | Exit c => Exit c
          | Panic => Panic
          end
        end
    else Done [].
Proof. reflexivity. Qed.

Lemma publish_loop_run location zipCode samples days :
  8 * days <= Z.of_nat (length samples) <= GoInt.max_int ->
  forall k i fuel,
    0 <= i -> i + Z.of_nat k = days -> (k < fuel)%nat ->
    publish_loop fuel i days location zipCode samples
    = Done (flat_map (publish_sample location zipCode)
              (omap (sample_at samples) (seq (Z.to_nat i) k))).
Proof.
  intros Hlen. unfold GoInt.max_int in Hlen.
  induction k as [|k IH]; intros i fuel Hi Hk Hfuel;
    (destruct fuel as [|fuel]; [lia|]); rewrite publish_loop_step.
  - replace (i <? days) with false by (symmetry; apply Z.ltb_ge; lia).
    reflexivity.
  - assert (Hmul : GoInt.mul i 8 = i * 8).
    { apply wrap_in_range. unfold GoInt.in_range, GoInt.min_int, GoInt.max_int.
      lia. }
    assert (Hadd : GoInt.add i 1 = i + 1).
    { apply wrap_in_range. unfold GoInt.in_range, GoInt.min_int, GoInt.max_int.
      lia. }
    rewrite Hmul, Hadd.
    replace (i <? days) with true by (symmetry; apply Z.ltb_lt; lia).
    replace (i * 8 <? Z.of_nat (length samples)) with true
      by (symmetry; apply Z.ltb_lt; lia).
    replace (i * 8 <? 0) with false by (symmetry; apply Z.ltb_ge; lia).
    cbn [andb].
    destruct (nth_error samples (Z.to_nat (i * 8))) as [r|] eqn:Hr.
    + rewrite (IH (i + 1) fuel) by lia.
      replace (Z.to_nat (i + 1)) with (S (Z.to_nat i)) by lia.
      cbn [seq omap list_omap]. unfold sample_at at 2.
      replace (8 * Z.to_nat i)%nat with (Z.to_nat (i * 8)) by lia.
      rewrite Hr. reflexivity.
    + apply nth_error_None in Hr. lia.
Qed.

Lemma chosen_samples_nth days samples :
  (8 * days <= length samples)%nat ->
  length (chosen_samples days samples) = days
  /\ forall day, (day < days)%nat ->
       nth_error (chosen_samples days samples) day
       = nth_error samples (8 * day)
       /\ is_Some (nth_error samples (8 * day)).
Proof.
  intros Hlen. unfold chosen_samples.
  assert (Hgen : forall n start, (8 * (start + n) <= length samples)%nat ->
            length (omap (sample_at samples) (seq start n)) = n
            /\ forall day, (day < n)%nat ->
                 nth_error (omap (sample_at samples) (seq start n)) day
                 = nth_error samples (8 * (start + day))
                 /\ is_Some (nth_error samples (8 * (start + day)))).
  { induction n as [|n IH]; intros start Hb.
    - split; [reflexivity|]. intros day Hday. lia.
    - cbn [seq omap list_omap].
      destruct (nth_error samples (8 * start)) as [r|] eqn:Hr.
      2:{ apply nth_error_None in Hr. lia. }
      assert (Hs : sample_at samples start = Some r) by exact Hr.
      rewrite Hs.
      destruct (IH (S start)) as [IHlen IHnth]; [lia|].
      split; [cbn [length]; rewrite IHlen; reflexivity|].
      intros [|day] Hday; cbn [nth_error].
      + rewrite Nat.add_0_r, Hr. eauto.
      + replace (start + S day)%nat with (S start + day)%nat by lia.
        apply IHnth. lia. }
  destruct (Hgen days 0%nat) as [Hl Hn]; [simpl; lia|].
  split; [exact Hl|]. intros day Hday. exact (Hn day Hday).
Qed.

Lemma publish_loop_short location zipCode samples days :
  0 <= days -> 8 * days <= GoInt.max_int ->
  forall k i fuel,
    0 <= i ->
    i + Z.of_nat k = Z.min days ((Z.of_nat (length samples) + 7) / 8) ->
    (k < fuel)%nat ->
    publish_loop fuel i days location zipCode samples
    = Done (flat_map (publish_sample location zipCode)
              (omap (sample_at samples) (seq (Z.to_nat i) k))).
Proof.
  intros Hdays Hmax. unfold GoInt.max_int in *.
  induction k as [|k IH]; intros i fuel Hi Hk Hfuel;
    (destruct fuel as [|fuel]; [lia|]); rewrite publish_loop_step.
  - assert (Hmul : GoInt.mul i 8 = i * 8).
    { apply wrap_in_range.
      unfold GoInt.in_range, GoInt.min_int, GoInt.max_int. lia. }
    rewrite Hmul.
    destruct (Z.ltb_spec i days); [|reflexivity].
    replace (i * 8 <? Z.of_nat (length samples)) with false;
      [reflexivity|].
    symmetry. apply Z.ltb_ge.
    assert (Hceil : i = (Z.of_nat (length samples) + 7) / 8) by lia.
    clear Hk. Z.div_mod_to_equations. lia.
  - assert (Hlt : i < days /\ i * 8 < Z.of_nat (length samples)).
    { assert (i + 1 <= days /\ i + 1 <= (Z.of_nat (length samples) + 7) / 8)
        as [Hd Hc] by lia.
      split; [lia|]. clear Hk. Z.div_mod_to_equations. lia. }
    destruct Hlt as [Hlt Hin].
    assert (Hmul : GoInt.mul i 8 = i * 8).
    { apply wrap_in_range.
      unfold GoInt.in_range, GoInt.min_int, GoInt.max_int. lia. }
    assert (Hadd : GoInt.add i 1 = i + 1).
    { apply wrap_in_range.
      unfold GoInt.in_range, GoInt.min_int, GoInt.max_int. lia. }
    rewrite Hmul, Hadd.
    replace (i <? days) with true by (symmetry; apply Z.ltb_lt; lia).
    replace (i * 8 <? Z.of_nat (length samples)) with true
      by (symmetry; apply Z.ltb_lt; lia).
    replace (i * 8 <? 0) with false by (symmetry; apply Z.ltb_ge; lia).
    cbn [andb].
    destruct (nth_error samples (Z.to_nat (i * 8))) as [r|] eqn:Hr.
    + rewrite (IH (i + 1) fuel) by lia.
      replace (Z.to_nat (i + 1)) with (S (Z.to_nat i)) by lia.
      cbn [seq omap list_omap]. unfold sample_at at 2.
      replace (8 * Z.to_nat i)%nat with (Z.to_nat (i * 8)) by lia.
      rewrite Hr. reflexivity.
    + apply nth_error_None in Hr. lia.
Qed.

Lemma chosen_samples_covered n samples :
  (forall day, (day < n)%nat -> (8 * day < length samples)%nat) ->
  length (chosen_samples n samples) = n
  /\ forall day, (day < n)%nat ->
       nth_error (chosen_samples n samples) day
       = nth_error samples (8 * day).
Proof.
  unfold chosen_samples.
  assert (Hgen : forall n start,
            (forall day, (day < n)%nat ->
                         (8 * (start + day) < length samples)%nat) ->
            length (omap (sample_at samples) (seq start n)) = n
            /\ forall day, (day < n)%nat ->
                 nth_error (omap (sample_at samples) (seq start n)) day
                 = nth_error samples (8 * (start + day))).
  { clear n. induction n as [|n IH]; intros start Hb.
    - split; [reflexivity|]. intros day Hday. lia.
    - cbn [seq omap list_omap].
      destruct (nth_error samples (8 * start)) as [r|] eqn:Hr.
      2:{ apply nth_error_None in Hr. specialize (Hb 0%nat). lia. }
      assert (Hs : sample_at samples start = Some r) by exact Hr.
      rewrite Hs.
      destruct (IH (S start)) as [IHlen IHnth].
      { intros day Hday. specialize (Hb (S day)).
        replace (S start + day)%nat with (start + S day)%nat by lia.
        apply Hb. lia. }
      split; [cbn [length]; rewrite IHlen; reflexivity|].
      intros [|day] Hday; cbn [nth_error].
      + rewrite Nat.add_0_r, Hr. reflexivity.
      + replace (start + S day)%nat with (S start + day)%nat by lia.
        apply IHnth. lia. }
  intros Hb. destruct (Hgen n 0%nat) as [Hl Hn]; [exact Hb|].
  split; [exact Hl|]. intros day Hday. exact (Hn day Hday).
Qed.

Variable net : Providers.

Lemma processRequest_run (req : PostLocationRequest.t) (key body : gostring)
  (v : json.govalue) :
  let days := PostLocationRequest.Days req in
  let samples := APIResponse.DaysList (APIResponse.of_value v) in
  0 <= days ->
  forecast net (PostLocationRequest.Lat req) (PostLocationRequest.Lon req)
    (8 * days) key = http_response body ->
  json.Decode APIResponse.type body = Some v ->
  APIResponse.Cod (APIResponse.of_value v) = json.any_string (str "200") ->
  8 * days <= Z.of_nat (length samples) <= GoInt.max_int ->
  forecast_cnt req = 8 * days
  /\ processRequest net req key
     = Done (flat_map (publish_sample (PostLocationRequest.Name req)
                         (PostLocationRequest.ZIPCode req))
               (chosen_samples (Z.to_nat days) samples)).
Proof.
  intros days samples Hdays Hget Hdecode Hcod Hlen.
  assert (Hcnt : forecast_cnt req = 8 * days).
  { unfold forecast_cnt. fold days. unfold GoInt.mul.
    rewrite wrap_in_range; [lia|].
    unfold GoInt.in_range, GoInt.min_int, GoInt.max_int in *. lia. }
  split; [exact Hcnt|].
  unfold processRequest. rewrite Hcnt. fold days. rewrite Hget, Hdecode, Hcod.
  unfold json.any_eq_string. rewrite eqb_str_refl. cbn [negb].
  fold samples.
  rewrite (publish_loop_run _ _ samples days Hlen (Z.to_nat days) 0) by lia.
  reflexivity.
Qed.

Lemma flat_map_publish_length location zipCode l :
  length (flat_map (publish_sample location zipCode) l) = (4 * length l)%nat.
Proof. induction l as [|r l IH]; simpl; [reflexivity|]. rewrite IH. lia. Qed.

Lemma flat_map_publish_topics location zipCode l :
  map kafka.Topic (flat_map (publish_sample location zipCode) l)
  = concat (repeat topics (length l)).
Proof.
  induction l as [|r l IH]; [reflexivity|].
  cbn [flat_map length repeat concat].
  rewrite map_app, publish_sample_topics, IH. reflexivity.
Qed.

Lemma flat_map_publish_nth location zipCode (l : list DailyResponse.t) :
  forall day r j,
    nth_error l day = Some r -> (j < 4)%nat ->
    nth_error (flat_map (publish_sample location zipCode) l) (4 * day + j)
    = nth_error (publish_sample location zipCode r) j.
Proof.
  induction l as [|a l IH]; intros [|day] r j Hr Hj; try discriminate;
    cbn [flat_map].
  - injection Hr as ->. apply List.nth_error_app1. exact Hj.
  - rewrite List.nth_error_app2 by (cbn [length publish_sample]; lia).
    replace (4 * S day + j - length (publish_sample location zipCode a))%nat
      with (4 * day + j)%nat by (cbn [length publish_sample]; lia).
    apply IH; assumption.
Qed.

(** C2. When the provider answers with status 200 and at least [8 * d]
    samples, [processRequest] publishes [4 * d] messages: for each of the
    [d] days in turn, one on the temperature topic, one on humidity, one
    on wind and one on cloud.  The four messages of the day of index [i]
    are built from the sample at position [8 * i]: their key is the ZIP
    code of the request, a dash and the local date of that sample, and
    their value is the payload of their family, with the name of the
    location, that date and the readings of the sample. *)
Theorem processRequest_publishes (req : PostLocationRequest.t)
  (key body : gostring) (v : json.govalue) :
  let days := PostLocationRequest.Days req in
  let location := PostLocationRequest.Name req in
  let zipCode := PostLocationRequest.ZIPCode req in
  let samples := APIResponse.DaysList (APIResponse.of_value v) in
  0 <= days ->
  forecast net (PostLocationRequest.Lat req) (PostLocationRequest.Lon req)
    (8 * days) key = http_response body ->
  json.Decode APIResponse.type body = Some v ->
  APIResponse.Cod (APIResponse.of_value v) = json.any_string (str "200") ->
  8 * days <= Z.of_nat (length samples) <= GoInt.max_int ->
  exists ms chosen,
    processRequest net req key = Done ms
    /\ ms = flat_map (publish_sample location zipCode) chosen
    /\ Z.of_nat (length chosen) = days
    /\ Z.of_nat (length ms) = 4 * days
    /\ map kafka.Topic ms = concat (repeat topics (Z.to_nat days))
    /\ forall day, Z.of_nat day < days ->
         exists r,
           nth_error samples (8 * day) = Some r
           /\ let date := time.Unix_Format_date (DailyResponse.Time r) in
              let k := zipCode ++ "-"%char :: date in
              nth_error ms (4 * day)
              = Some (kafka.mkMessage (str "temperature") k
                        (default []
                           (TemperaturePayload.Marshal
                              (TemperaturePayload.mk location date
                                 (DailyResponse.Main_Temp r)
                                 (DailyResponse.Main_FeelsLike r)))))
              /\ nth_error ms (4 * day + 1)
                 = Some (kafka.mkMessage (str "humidity") k
                           (default []
                              (HumidityPayload.Marshal
                                 (HumidityPayload.mk location date
                                    (float64_of_int
                                       (DailyResponse.Main_Humidity r))))))
              /\ nth_error ms (4 * day + 2)
                 = Some (kafka.mkMessage (str "wind") k
                           (default []
                              (WindPayload.Marshal
                                 (WindPayload.mk location date
                                    (DailyResponse.Wind_Speed r)
                                    (float64_of_int
                                       (DailyResponse.Wind_Deg r))))))
              /\ nth_error ms (4 * day + 3)
                 = Some (kafka.mkMessage (str "cloud") k
                           (default []
                              (CloudPayload.Marshal
                                 (CloudPayload.mk location date
                                    (float64_of_int
                                       (DailyResponse.Clouds_All r)))))).
Proof.
  intros days location zipCode samples Hdays Hget Hdecode Hcod Hlen.
  destruct (processRequest_run req key body v Hdays Hget Hdecode Hcod Hlen)
    as [_ Hrun].
  fold days samples location zipCode in Hrun.
  destruct (chosen_samples_nth (Z.to_nat days) samples) as [Hchosen Hnth];
    [lia|].
  eexists. exists (chosen_samples (Z.to_nat days) samples).
  split; [exact Hrun|]. split; [reflexivity|].
  rewrite flat_map_publish_length, flat_map_publish_topics, Hchosen.
  repeat split_and; try lia; try reflexivity.
  intros day Hday. destruct (Hnth day) as [Heq [r Hr]]; [lia|].
  exists r. split; [exact Hr|]. rewrite Hr in Heq. cbv zeta.
  replace (4 * day)%nat with (4 * day + 0)%nat at 1 by lia.
  rewrite !(flat_map_publish_nth _ _ _ day r) by (exact Heq || lia).
  repeat split.
Qed.

(** C3, amended. For every forecast fetched with status 200,
    [processRequest] asks the provider for [8 * d] samples, and the
    messages of the day of index [i] (from 0) are built from the sample
    at position [8 * i] of the sequence received, every eighth sample
    beginning with the first one, for every [i] below [d] that the
    sequence reaches; their key carries the local date of that sample. *)
Theorem processRequest_every_eighth (req : PostLocationRequest.t)
  (key body : gostring) (v : json.govalue) :
  let days := PostLocationRequest.Days req in
  let location := PostLocationRequest.Name req in
  let zipCode := PostLocationRequest.ZIPCode req in
  let samples := APIResponse.DaysList (APIResponse.of_value v) in
  let covered := Z.min days ((Z.of_nat (length samples) + 7) / 8) in
  0 <= days -> 8 * days <= GoInt.max_int ->
  forecast net (PostLocationRequest.Lat req) (PostLocationRequest.Lon req)
    (forecast_cnt req) key = http_response body ->
  json.Decode APIResponse.type body = Some v ->
  APIResponse.Cod (APIResponse.of_value v) = json.any_string (str "200") ->
  forecast_cnt req = 8 * days
  /\ exists chosen,
      processRequest net req key
      = Done (flat_map (publish_sample location zipCode) chosen)
      /\ Z.of_nat (length chosen) = covered
      /\ (8 * days <= Z.of_nat (length samples) -> covered = days)
      /\ forall day, Z.of_nat day < covered ->
           exists r,
             nth_error chosen day = Some r
             /\ nth_error samples (8 * day) = Some r
             /\ forall m, In m (publish_sample location zipCode r) ->
                  kafka.Key m
                  = zipCode ++ "-"%char
                      :: time.Unix_Format_date (DailyResponse.Time r).
Proof.
  intros days location zipCode samples covered Hdays Hmax Hget Hdecode Hcod.
  assert (Hcnt : forecast_cnt req = 8 * days).
  { unfold forecast_cnt. fold days. unfold GoInt.mul.
    rewrite wrap_in_range; [lia|].
    unfold GoInt.in_range, GoInt.min_int, GoInt.max_int in *. lia. }
  split; [exact Hcnt|].
  assert (Hcov : 0 <= covered).
  { unfold covered. apply Z.min_glb; [exact Hdays|].
    apply Z.div_pos; lia. }
  exists (chosen_samples (Z.to_nat covered) samples).
  assert (Hin : forall day, (day < Z.to_nat covered)%nat ->
                            (8 * day < length samples)%nat).
  { intros day Hday.
    assert (Z.of_nat day + 1 <= (Z.of_nat (length samples) + 7) / 8)
      by (unfold covered in *; lia).
    clear Hday Hcov. Z.div_mod_to_equations. lia. }
  destruct (chosen_samples_covered _ _ Hin) as [Hl Hn].
  assert (Hle : covered <= Z.of_nat (length samples)).
  { assert ((Z.of_nat (length samples) + 7) / 8
            <= Z.of_nat (length samples))
      by (clear; Z.div_mod_to_equations; lia).
    unfold covered. lia. }
  repeat split_and.
  - unfold processRequest. rewrite Hget, Hdecode, Hcod.
    unfold json.any_eq_string. rewrite eqb_str_refl. cbn [negb].
    fold samples. fold days. fold location zipCode.
    rewrite (publish_loop_short _ _ samples days Hdays Hmax
               (Z.to_nat covered) 0); [reflexivity|lia| |lia].
    fold samples. fold covered. lia.
  - rewrite Hl. lia.
  - intros Hall. unfold covered. apply Z.min_l.
    clear - Hall. Z.div_mod_to_equations. lia.
  - intros day Hday.
    assert (Hd : (day < Z.to_nat covered)%nat) by lia.
    specialize (Hn day Hd). specialize (Hin day Hd).
    destruct (nth_error samples (8 * day)) as [r|] eqn:Hr.
    2:{ apply nth_error_None in Hr. lia. }
    exists r. split; [exact Hn|]. split; [reflexivity|].
    intros m Hm. apply (publish_sample_keys _ _ _ _ Hm).
Qed.

End Fetch.

(** C3, as stated, fails.  A two-day request is answered with sixteen
    samples three hours apart from 2026-01-01 15:00 UTC.  The four messages
    of the second day are built from the ninth sample (2026-01-02 15:00),
    although the fourth sample (2026-01-02 00:00) is the first one of that
    calendar day. *)
Lemma first_sample_of_day_counterexample :
  let samples := three_hourly 1767279600 16 in
  let day1 := DailyResponse.mk 1767279600 40%float 38%float 50 20 5%float 180 in
  let day2 := DailyResponse.mk 1767366000 40%float 38%float 50 20 5%float 180 in
  @processRequest integer_strconv UTC afternoon_provider two_day_request
    (str "k")
  = Done (@publish_sample integer_strconv UTC (str "New York") (str "10001") day1
          ++ @publish_sample integer_strconv UTC (str "New York") (str "10001") day2)
  /\ nth_error samples 8 = Some day2
  /\ @time.Unix_Format_date UTC (DailyResponse.Time day2) = str "2026-01-02"
  /\ option_map (fun r => @time.Unix_Format_date UTC (DailyResponse.Time r))
       (nth_error samples 3) = Some (str "2026-01-02")
  /\ @first_sample_of_its_day UTC samples 8 = false.
Proof. vm_compute. repeat split; reflexivity. Qed.

(** ** The dedup gate *)

Lemma fits_rev (cur : gostring) : fits (rev cur) = negb (too_long cur).
Proof.
  unfold fits, too_long. rewrite length_rev. apply Z.ltb_antisym.
Qed.

(** The lines that the scanner delivers are the lines of the file that
    come before the first line of 64 KiB or more. *)
Lemma scan_lines_raw (s : gostring) : forall cur,
  scan_lines cur s = map dropCR (lines_before_overlong (raw_lines cur s)).
Proof.
  induction s as [|c s IH]; intros cur; cbn [scan_lines raw_lines].
  - destruct cur as [|x cur]; [reflexivity|].
    cbn [lines_before_overlong]. rewrite fits_rev.
    destruct (too_long (x :: cur)); reflexivity.
  - change (Ascii.eqb c newline) with (Ascii.eqb c "010"%char).
    destruct (Ascii.eqb c "010"%char); [|apply IH].
    cbn [lines_before_overlong]. rewrite fits_rev.
    destruct (too_long cur); [reflexivity|].
    cbn [negb map]. rewrite IH. reflexivity.
Qed.

Lemma ScanLines_reached (content : gostring) :
  ScanLines content = reached_lines content.
Proof. apply scan_lines_raw. Qed.


Lemma lines_before_overlong_stop (before after : list gostring)
  (long : gostring) :
  fits long = false ->
  lines_before_overlong (before ++ long :: after)
  = lines_before_overlong before.
Proof.
  intros Hlong. induction before as [|line before IH];
    cbn [app lines_before_overlong].
  - rewrite Hlong. reflexivity.
  - destruct (fits line); [rewrite IH|]; reflexivity.
Qed.

Lemma raw_lines_line (s : gostring) : forall cur t,
  ~ In newline s ->
  raw_lines cur (s ++ newline :: t) = (rev cur ++ s) :: raw_lines [] t.
Proof.
  induction s as [|c s IH]; intros cur t Hnl; cbn [app raw_lines].
  - change (Ascii.eqb newline newline) with true. rewrite app_nil_r.
    reflexivity.
  - destruct (Ascii.eqb c newline) eqn:Hc.
    + apply Ascii.eqb_eq in Hc. exfalso. apply Hnl. left. exact Hc.
    + rewrite IH by (intros Hin; apply Hnl; right; exact Hin).
      cbn [rev]. rewrite <- app_assoc. reflexivity.
Qed.

Lemma raw_lines_terminated (pre : gostring) : forall cur t,
  raw_lines cur ((pre ++ [newline]) ++ t)
  = raw_lines cur (pre ++ [newline]) ++ raw_lines [] t.
Proof.
  induction pre as [|c pre IH]; intros cur t; cbn [app raw_lines].
  - change (Ascii.eqb newline newline) with true. reflexivity.
  - destruct (Ascii.eqb c newline); [|apply IH].
    rewrite IH. reflexivity.
Qed.

Lemma raw_lines_app (pre t : gostring) :
  newline_terminated pre ->
  raw_lines [] (pre ++ t) = raw_lines [] pre ++ raw_lines [] t.
Proof.
  intros [->|[p ->]]; [reflexivity|]. apply raw_lines_terminated.
Qed.

Lemma raw_lines_last (s : gostring) : forall cur,
  ~ In newline s ->
  rev cur ++ s <> [] ->
  raw_lines cur s = [rev cur ++ s].
Proof.
  induction s as [|c s IH]; intros cur Hnl Hne; cbn [raw_lines].
  - rewrite app_nil_r in *. destruct cur as [|x cur]; [contradiction|].
    reflexivity.
  - destruct (Ascii.eqb c newline) eqn:Hc.
    + apply Ascii.eqb_eq in Hc. exfalso. apply Hnl. left. exact Hc.
    + rewrite IH.
      * cbn [rev]. rewrite <- app_assoc. reflexivity.
      * intros Hin. apply Hnl. right. exact Hin.
      * cbn [rev]. rewrite <- app_assoc. exact Hne.
Qed.

Section Dedup.
Context `{Strconv} `{Location}.


Variable net : Providers.


End Dedup.


(** ** Location resolution *)

Section Resolve.
Context `{Strconv} `{Location}.

Lemma to_any_not_int v a : json.to_any v = Some a -> not_int a.
Proof.
  destruct v; simpl; intros Ha;
    repeat match type of Ha with
           | option_map _ ?x = Some _ => destruct x; simpl in Ha
           end;
    try discriminate; injection Ha as <-; exact I.
Qed.

Lemma decode_any_not_int v cur nv :
  json.decode v json.TAny cur = Some nv ->
  exists a, nv = json.VAny a /\ not_int a.
Proof.
  destruct v; simpl; intros Hd.
  - injection Hd as <-. eexists. split; [reflexivity|exact I].
  - injection Hd as <-. eexists. split; [reflexivity|exact I].
  - destruct (ParseFloat64 lit); [|discriminate]. injection Hd as <-.
    eexists. split; [reflexivity|exact I].
  - injection Hd as <-. eexists. split; [reflexivity|exact I].
  - match type of Hd with
    | option_map _ ?x = _ => destruct x as [a|] eqn:Ha; [|discriminate]
    end.
    injection Hd as <-. exists a. split; [reflexivity|].
    apply (to_any_not_int (json.JArray elems)). exact Ha.
  - match type of Hd with
    | option_map _ ?x = _ => destruct x as [a|] eqn:Ha; [|discriminate]
    end.
    injection Hd as <-. exists a. split; [reflexivity|].
    apply (to_any_not_int (json.JObject members)). exact Ha.
Qed.

End Resolve.

Section InvalidKey.
Context `{Strconv} `{Location}.

Lemma store_members_cod ms : forall acc r,
  json.store_members json.decode
    [(str "zip", json.TString); (str "name", json.TString);
     (str "lat", json.TFloat32); (str "lon", json.TFloat32);
     (str "country", json.TString); (str "cod", json.TAny);
     (str "message", json.TAny)] ms acc = Some r ->
  cod_not_int acc -> cod_not_int r.
Proof.
  induction ms as [|[k e] ms IH]; intros acc r; cbn [json.store_members].
  - intros [= <-]. auto.
  - destruct (json.field_index _ k) as [i|]; [|apply IH].
    destruct (_ !! i) as [[n ft]|] eqn:Hf; [|discriminate].
    destruct (acc !! i) as [fv|] eqn:Hacc; [|discriminate].
    destruct (json.decode e ft fv) as [nv|] eqn:Hd; [|discriminate].
    intros Hr Hq. apply (IH _ _ Hr). unfold cod_not_int.
    destruct (decide (i = 5%nat)) as [->|Hne].
    + rewrite list_lookup_insert_eq by (apply lookup_lt_Some in Hacc; exact Hacc).
      injection Hf as _ <-.
      destruct (decode_any_not_int _ _ _ Hd) as (a & -> & Ha). exact Ha.
    + rewrite list_lookup_insert_ne by exact Hne. exact Hq.
Qed.

Lemma cod_of_value acc n :
  cod_not_int acc ->
  json.any_eq_int (ZIPResponse.Cod (ZIPResponse.of_value (json.VStruct acc))) n
  = false.
Proof.
  unfold cod_not_int, ZIPResponse.of_value.
  repeat match goal with
         | |- context [match ?x with _ => _ end] =>
           is_var x; destruct x; try reflexivity
         end.
  cbn. destruct a; simpl; intros Ha; try reflexivity. destruct Ha.
Qed.

Lemma decoded_cod_never_int body v n :
  json.Decode ZIPResponse.type body = Some v ->
  json.any_eq_int (ZIPResponse.Cod (ZIPResponse.of_value v)) n = false.
Proof.
  unfold json.Decode. destruct (json.parse_first body) as [jv|]; [|discriminate].
  destruct jv; cbn [json.decode ZIPResponse.type]; try discriminate.
  - intros [= <-]. reflexivity.
  - match goal with
    | |- option_map _ ?x = _ -> _ => destruct x as [r|] eqn:Hr; [|discriminate]
    end.
    intros [= <-]. apply cod_of_value.
    apply (store_members_cod _ _ _ Hr). exact I.
Qed.

Variable net : Providers.

(** Whatever the geocoding provider answers, once its body decodes the
    test [response.Cod == 401] is false: [convertToCoordinates] returns
    and does not end the process. *)
Lemma convertToCoordinates_decoded_returns req key body v :
  geocoding net (PreCoordinateRequest.ZIPCode req) key = http_response body ->
  json.Decode ZIPResponse.type body = Some v ->
  exists r, convertToCoordinates net req key = Done r.
Proof.
  intros Hget Hdec. unfold convertToCoordinates.
  rewrite Hget, Hdec, (decoded_cod_never_int body v 401 Hdec).
  destruct (json.any_eq_string _ _); eauto.
Qed.

Lemma invalid_key_body_parsed :
  json.parse_first invalid_key_body
  = Some (json.JObject
            [(str "cod", json.JNumber (str "401"));
             (str "message",
              json.JString (str "Invalid API key. Please see https://openweathermap.org/faq#error401 for more info."))]).
Proof. vm_compute. reflexivity. Qed.

(** C6, at the failing input.  When the geocoding provider rejects the
    API key (body [{"cod":401, "message": ...}]), the number 401 is
    decoded as a [float64], the comparison with the [int] 401 is false,
    and [convertToCoordinates] returns a request with empty name and zero
    coordinates, which the worker forwards. *)
Theorem invalid_key_is_forwarded (req : PreCoordinateRequest.t)
  (key : gostring) (f : float) (file : file_state) (now : Z) :
  geocoding net (PreCoordinateRequest.ZIPCode req) key
  = http_response invalid_key_body ->
  ParseFloat64 (str "401") = Some f ->
  isInTSDB file now req = false ->
  let forwarded :=
    PostLocationRequest.mk (PreCoordinateRequest.Days req) [] 0%float
      0%float (PreCoordinateRequest.ZIPCode req)
      (PreCoordinateRequest.LineNum req) in
  convertToCoordinates net req key = Done (Some forwarded)
  /\ resolve_request net file now req key = Done (Some forwarded).
Proof.
  intros Hget Hparse Hnew forwarded.
  assert (Hconv : convertToCoordinates net req key = Done (Some forwarded)).
  { unfold convertToCoordinates, json.Decode.
    rewrite Hget, invalid_key_body_parsed.
    cbn [json.decode ZIPResponse.type json.store_members].
    replace (json.field_index _ (str "cod")) with (Some 5%nat)
      by (vm_compute; reflexivity).
    replace (json.field_index _ (str "message")) with (Some 6%nat)
      by (vm_compute; reflexivity).
    cbn in Hparse |- *. rewrite Hparse. reflexivity. }
  split; [exact Hconv|].
  unfold resolve_request. rewrite Hnew. exact Hconv.
Qed.

End InvalidKey.

(** ** The JSON text of a record

    Strings: what [encodeState.string] writes, [unquote] reads back. *)
Lemma byte_of_val (c : ascii) : byte_of (byte_val c) = c.
Proof.
  unfold byte_of, byte_val. rewrite N2Z.id. apply ascii_N_embedding.
Qed.

Lemma byte_val_range (c : ascii) : 0 <= byte_val c < 256.
Proof.
  unfold byte_val. pose proof (N_ascii_bounded c) as Hb. lia.
Qed.

Lemma parse_escape_byte (c : ascii) (n : nat) (tail : gostring) :
  byte_val c < 128 ->
  json.parse_string (S n) (json.escape_byte c ++ tail)
  = json.prepend [c] (json.parse_string n tail).
Proof.
  destruct c as [b0 b1 b2 b3 b4 b5 b6 b7].
  destruct b7.
  { intros Hc. exfalso. revert Hc.
    destruct b0, b1, b2, b3, b4, b5, b6; vm_compute; intros Hc; discriminate. }
  intros _.
  destruct b0, b1, b2, b3, b4, b5, b6; reflexivity.
Qed.

Ltac bool_to_prop :=
  repeat match goal with
         | H : _ && _ = true |- _ => apply andb_true_iff in H; destruct H
         | H : (_ <=? _) = true |- _ => apply Z.leb_le in H
         | H : (_ <=? _) = false |- _ => apply Z.leb_gt in H
         | H : (_ <? _) = true |- _ => apply Z.ltb_lt in H
         | H : (_ <? _) = false |- _ => apply Z.ltb_ge in H
         | H : (_ =? _) = true |- _ => apply Z.eqb_eq in H
         | H : (_ =? _) = false |- _ => apply Z.eqb_neq in H
         end.

Ltac dlia := Z.div_mod_to_equations; lia.

Ltac decide_tests :=
  repeat match goal with
         | |- context [?a <=? ?b] =>
           first [ replace (a <=? b) with true by (symmetry; apply Z.leb_le; dlia)
                 | replace (a <=? b) with false by (symmetry; apply Z.leb_gt; dlia) ]
         | |- context [?a <? ?b] =>
           first [ replace (a <? b) with true by (symmetry; apply Z.ltb_lt; dlia)
                 | replace (a <? b) with false by (symmetry; apply Z.ltb_ge; dlia) ]
         | |- context [?a =? ?b] =>
           first [ replace (a =? b) with true by (symmetry; apply Z.eqb_eq; dlia)
                 | replace (a =? b) with false by (symmetry; apply Z.eqb_neq; dlia) ]
         end.

Ltac split_tests :=
  repeat match goal with
         | |- context [?a <=? ?b] => destruct (Z.leb_spec a b)
         | |- context [?a <? ?b] => destruct (Z.ltb_spec a b)
         end.

Lemma DecodeRune_prefix (c0 : ascii) (s1 : gostring) (r : Z) (size : nat) :
  utf8.DecodeRune (c0 :: s1) = (r, size) ->
  (r =? utf8.RuneError) && (size =? 1)%nat = false ->
  128 <= byte_val c0 ->
  exists p,
    c0 :: s1 = (c0 :: p) ++ skipn size (c0 :: s1)
    /\ length (c0 :: p) = size
    /\ utf8.EncodeRune r = c0 :: p
    /\ Forall (fun c => 128 <= byte_val c) (c0 :: p)
    /\ (forall t, utf8.DecodeRune ((c0 :: p) ++ t) = (r, size)).
Proof.
  intros Hdec Hok Hc0.
  pose proof (byte_val_range c0) as R0.
  unfold utf8.DecodeRune in Hdec.
  unfold utf8.RuneSelf in Hdec.
  replace (byte_val c0 <? 128) with false in Hdec
    by (symmetry; apply Z.ltb_ge; lia).
  destruct (utf8.in_rng 194 223 (byte_val c0)) eqn:H2.
  { destruct s1 as [|c1 s2]; [injection Hdec as <- <-; discriminate|].
    pose proof (byte_val_range c1) as R1.
    destruct (utf8.is_cont (byte_val c1)) eqn:Hc1;
      [|injection Hdec as <- <-; discriminate].
    injection Hdec as <- <-.
    unfold utf8.is_cont, utf8.in_rng in *. bool_to_prop.
    exists [c1].
    assert (E0 : byte_val c0 = 192 + byte_val c0 mod 32
                 /\ 2 <= byte_val c0 mod 32 < 32) by dlia.
    assert (E1 : byte_val c1 = 128 + byte_val c1 mod 64
                 /\ 0 <= byte_val c1 mod 64 < 64) by dlia.
    set (m0 := byte_val c0 mod 32) in *. set (m1 := byte_val c1 mod 64) in *.
    clearbody m0 m1. destruct E0 as [E0 M0], E1 as [E1 M1].
    split; [reflexivity|]. split; [reflexivity|]. split; [|split].
    - unfold utf8.EncodeRune, utf8.in_rng. decide_tests. cbn [andb orb].
      replace (192 + (m0 * 64 + m1) / 64) with (byte_val c0) by dlia.
      replace (128 + (m0 * 64 + m1) mod 64) with (byte_val c1) by dlia.
      rewrite !byte_of_val. reflexivity.
    - repeat (apply List.Forall_cons; [lia|]); apply List.Forall_nil.
    - intros t. cbn [app].
      unfold utf8.DecodeRune, utf8.RuneSelf, utf8.is_cont, utf8.in_rng.
      rewrite E0, E1. decide_tests. cbn [andb].
      repeat f_equal; dlia. }
  destruct (utf8.in_rng 224 239 (byte_val c0)) eqn:H3.
  { destruct s1 as [|c1 [|c2 s3]]; try (injection Hdec as <- <-; discriminate).
    pose proof (byte_val_range c1) as R1. pose proof (byte_val_range c2) as R2.
    match type of Hdec with
    | (if ?c then _ else _) = _ => destruct c eqn:Hc;
                                   [|injection Hdec as <- <-; discriminate]
    end.
    injection Hdec as <- <-.
    unfold utf8.is_cont, utf8.in_rng in *.
    destruct (byte_val c0 =? 224) eqn:He0; destruct (byte_val c0 =? 237) eqn:Hed;
      bool_to_prop; try lia.
    all: exists [c1; c2].
    all: assert (E0 : byte_val c0 = 224 + byte_val c0 mod 16
                      /\ 0 <= byte_val c0 mod 16 < 16) by dlia.
    all: assert (E1 : byte_val c1 = 128 + byte_val c1 mod 64
                      /\ 0 <= byte_val c1 mod 64 < 64) by dlia.
    all: assert (E2 : byte_val c2 = 128 + byte_val c2 mod 64
                      /\ 0 <= byte_val c2 mod 64 < 64) by dlia.
    all: set (m0 := byte_val c0 mod 16) in *;
      set (m1 := byte_val c1 mod 64) in *;
      set (m2 := byte_val c2 mod 64) in *; clearbody m0 m1 m2;
      destruct E0 as [E0 M0], E1 as [E1 M1], E2 as [E2 M2].
    all: split; [reflexivity|]; split; [reflexivity|]; split; [|split];
      [ unfold utf8.EncodeRune, utf8.in_rng; decide_tests; split_tests;
        cbn [andb orb]; try (exfalso; lia);
        replace (224 + (m0 * 4096 + m1 * 64 + m2) / 4096)
          with (byte_val c0) by dlia;
        replace (128 + (m0 * 4096 + m1 * 64 + m2) / 64 mod 64)
          with (byte_val c1) by dlia;
        replace (128 + (m0 * 4096 + m1 * 64 + m2) mod 64)
          with (byte_val c2) by dlia;
        rewrite !byte_of_val; reflexivity
      | repeat (apply List.Forall_cons; [lia|]); apply List.Forall_nil
      | intros t; cbn [app];
        unfold utf8.DecodeRune, utf8.RuneSelf, utf8.is_cont, utf8.in_rng;
        rewrite E0, E1, E2; decide_tests; cbn [andb];
        repeat f_equal; dlia ]. }
  destruct (utf8.in_rng 240 244 (byte_val c0)) eqn:H4.
  { destruct s1 as [|c1 [|c2 [|c3 s4]]];
      try (injection Hdec as <- <-; discriminate).
    pose proof (byte_val_range c1) as R1. pose proof (byte_val_range c2) as R2.
    pose proof (byte_val_range c3) as R3.
    match type of Hdec with
    | (if ?c then _ else _) = _ => destruct c eqn:Hc;
                                   [|injection Hdec as <- <-; discriminate]
    end.
    injection Hdec as <- <-.
    unfold utf8.is_cont, utf8.in_rng in *.
    destruct (byte_val c0 =? 240) eqn:He0; destruct (byte_val c0 =? 244) eqn:Hed;
      bool_to_prop; try lia.
    all: exists [c1; c2; c3].
    all: assert (E0 : byte_val c0 = 240 + byte_val c0 mod 8
                      /\ 0 <= byte_val c0 mod 8 < 5) by dlia.
    all: assert (E1 : byte_val c1 = 128 + byte_val c1 mod 64
                      /\ 0 <= byte_val c1 mod 64 < 64) by dlia.
    all: assert (E2 : byte_val c2 = 128 + byte_val c2 mod 64
                      /\ 0 <= byte_val c2 mod 64 < 64) by dlia.
    all: assert (E3 : byte_val c3 = 128 + byte_val c3 mod 64
                      /\ 0 <= byte_val c3 mod 64 < 64) by dlia.
    all: set (m0 := byte_val c0 mod 8) in *;
      set (m1 := byte_val c1 mod 64) in *;
      set (m2 := byte_val c2 mod 64) in *;
      set (m3 := byte_val c3 mod 64) in *; clearbody m0 m1 m2 m3;
      destruct E0 as [E0 M0], E1 as [E1 M1], E2 as [E2 M2], E3 as [E3 M3].
    all: split; [reflexivity|]; split; [reflexivity|]; split; [|split];
      [ unfold utf8.EncodeRune, utf8.in_rng; decide_tests; split_tests;
        cbn [andb orb]; try (exfalso; lia);
        replace (240 + (m0 * 262144 + m1 * 4096 + m2 * 64 + m3) / 262144)
          with (byte_val c0) by dlia;
        replace (128 + (m0 * 262144 + m1 * 4096 + m2 * 64 + m3) / 4096 mod 64)
          with (byte_val c1) by dlia;
        replace (128 + (m0 * 262144 + m1 * 4096 + m2 * 64 + m3) / 64 mod 64)
          with (byte_val c2) by dlia;
        replace (128 + (m0 * 262144 + m1 * 4096 + m2 * 64 + m3) mod 64)
          with (byte_val c3) by dlia;
        rewrite !byte_of_val; reflexivity
      | repeat (apply List.Forall_cons; [lia|]); apply List.Forall_nil
      | intros t; cbn [app];
        unfold utf8.DecodeRune, utf8.RuneSelf, utf8.is_cont, utf8.in_rng;
        rewrite E0, E1, E2, E3; decide_tests; cbn [andb];
        repeat f_equal; dlia ]. }
  injection Hdec as <- <-. discriminate.
Qed.

Lemma escape_byte_nonempty (c : ascii) : (1 <= length (json.escape_byte c))%nat.
Proof.
  unfold json.escape_byte.
  repeat match goal with
         | |- context [if ?b then _ else _] => destruct b
         end; simpl; lia.
Qed.

Lemma parse_escape (n : nat) : forall (s rest : gostring) (k : nat),
  utf8.valid_fuel n s = true ->
  (length (json.escape n s) < k)%nat ->
  json.parse_string k (json.escape n s ++ json.quote :: rest) = Some (s, rest).
Proof.
  induction n as [|n IH]; intros s rest k Hvalid Hk.
  - destruct s; [|discriminate]. destruct k as [|k]; [simpl in Hk; lia|].
    reflexivity.
  - destruct s as [|c s'].
    { destruct k as [|k]; [simpl in Hk; lia|]. reflexivity. }
    cbn [utf8.valid_fuel] in Hvalid. cbn [json.escape] in Hk |- *.
    unfold utf8.RuneSelf in *.
    destruct (byte_val c <? 128) eqn:Hascii.
    + apply Z.ltb_lt in Hascii.
      assert (Hdec : utf8.DecodeRune (c :: s') = (byte_val c, 1%nat)).
      { unfold utf8.DecodeRune, utf8.RuneSelf.
        replace (byte_val c <? 128) with true by (symmetry; apply Z.ltb_lt; lia).
        reflexivity. }
      rewrite Hdec in Hvalid.
      replace (byte_val c =? utf8.RuneError) with false in Hvalid
        by (symmetry; apply Z.eqb_neq; unfold utf8.RuneError; lia).
      cbn [andb skipn] in Hvalid.
      pose proof (escape_byte_nonempty c) as Hne.
      rewrite length_app in Hk.
      destruct k as [|k]; [lia|].
      rewrite <- app_assoc, parse_escape_byte by lia.
      rewrite IH by (assumption || lia). reflexivity.
    + apply Z.ltb_ge in Hascii.
      destruct (utf8.DecodeRune (c :: s')) as [r size] eqn:Hdec.
      destruct ((r =? utf8.RuneError) && (size =? 1)%nat) eqn:Herr;
        [discriminate|].
      destruct (DecodeRune_prefix c s' r size Hdec Herr Hascii)
        as (p & Hs & Hlen & Henc & Hhigh & Hpre).
      set (tl := skipn size (c :: s')) in *.
      assert (Hfirst : firstn size (c :: s') = c :: p).
      { rewrite Hs. rewrite <- Hlen. rewrite firstn_app, Nat.sub_diag, firstn_all.
        cbn [firstn]. rewrite app_nil_r. reflexivity. }
      pose proof (byte_val_range c) as Rc.
      destruct (r =? 8232) eqn:H2028; [|destruct (r =? 8233) eqn:H2029].
      * apply Z.eqb_eq in H2028. subst r.
        destruct k as [|k]; [lia|].
        cbn [length app str list_ascii_of_string] in Hk |- *.
        change (json.parse_string (S k)
                  (json.backslash :: "u"%char :: "2"%char :: "0"%char
                     :: "2"%char :: "8"%char
                     :: json.escape n tl ++ json.quote :: rest))
          with (json.prepend (utf8.EncodeRune 8232)
                  (json.parse_string k (json.escape n tl ++ json.quote :: rest))).
        rewrite (IH tl rest k Hvalid) by lia.
        rewrite Henc. cbn [json.prepend]. rewrite <- Hs. reflexivity.
      * apply Z.eqb_eq in H2029. subst r.
        destruct k as [|k]; [lia|].
        cbn [length app str list_ascii_of_string] in Hk |- *.
        change (json.parse_string (S k)
                  (json.backslash :: "u"%char :: "2"%char :: "0"%char
                     :: "2"%char :: "9"%char
                     :: json.escape n tl ++ json.quote :: rest))
          with (json.prepend (utf8.EncodeRune 8233)
                  (json.parse_string k (json.escape n tl ++ json.quote :: rest))).
        rewrite IH by (assumption || lia).
        rewrite Henc. cbn [json.prepend]. rewrite <- Hs. reflexivity.
      * rewrite Hfirst in Hk |- *. rewrite length_app in Hk.
        destruct k as [|k]; [lia|].
        rewrite <- app_assoc.
        assert (Hstep : json.parse_string (S k)
                          ((c :: p) ++ json.escape n tl ++ json.quote :: rest)
                        = json.prepend (utf8.EncodeRune r)
                            (json.parse_string k
                               (skipn size
                                  ((c :: p) ++ json.escape n tl
                                     ++ json.quote :: rest)))).
        { cbn [json.parse_string app]. unfold utf8.RuneSelf.
          replace (byte_val c =? 34) with false by (symmetry; apply Z.eqb_neq; lia).
          replace (byte_val c =? 92) with false by (symmetry; apply Z.eqb_neq; lia).
          replace (byte_val c <? 32) with false by (symmetry; apply Z.ltb_ge; lia).
          replace (byte_val c <? 128) with false by (symmetry; apply Z.ltb_ge; lia).
          change (c :: p ++ json.escape n tl ++ json.quote :: rest)
            with ((c :: p) ++ json.escape n tl ++ json.quote :: rest).
          rewrite Hpre. reflexivity. }
        rewrite Hstep. rewrite <- Hlen at 1.
        rewrite skipn_app, Nat.sub_diag, skipn_all, skipn_O. cbn [app].
        rewrite IH by (assumption || (cbn [length] in Hk; lia)).
        rewrite Henc. cbn [json.prepend]. rewrite <- Hs. reflexivity.
Qed.

Lemma parse_encode_string (s rest : gostring) :
  utf8.ValidString s = true ->
  json.parse_string (length (json.escape (length s) s ++ json.quote :: rest))
    (json.escape (length s) s ++ json.quote :: rest)
  = Some (s, rest).
Proof.
  intros Hvalid. apply parse_escape; [exact Hvalid|].
  rewrite length_app. cbn [length]. lia.
Qed.

(** Numbers and members. *)

Lemma parse_value_number_head (c : ascii) (s' : gostring) (fuel : nat) (depth : Z) :
  c = "-"%char \/ strconv.is_digit c = true ->
  json.parse_value (S fuel) depth (c :: s')
  = match json.scan_number (c :: s') with
    | Some (lit, r) => Some (json.JNumber lit, r)
    | None => None
    end.
Proof.
  intros [->|Hd]; [reflexivity|].
  destruct c as [[] [] [] [] [] [] [] []];
    try (vm_compute in Hd; discriminate Hd); reflexivity.
Qed.

Lemma scan_number_head (s lit r : gostring) :
  json.scan_number s = Some (lit, r) ->
  exists c s', s = c :: s' /\ (c = "-"%char \/ strconv.is_digit c = true).
Proof.
  destruct s as [|c s']; [discriminate|].
  intros Hscan. exists c, s'. split; [reflexivity|].
  destruct (strconv.is_digit c) eqn:Hd; [right; reflexivity|left].
  destruct c as [[] [] [] [] [] [] [] []];
    try (vm_compute in Hd; discriminate Hd);
    try reflexivity;
    exfalso; cbn in Hscan; discriminate Hscan.
Qed.

Lemma parse_value_number (lit rest : gostring) (fuel : nat) (depth : Z) :
  json.scan_number (lit ++ rest) = Some (lit, rest) ->
  json.parse_value (S fuel) depth (lit ++ rest)
  = Some (json.JNumber lit, rest).
Proof.
  intros Hscan.
  destruct (scan_number_head _ _ _ Hscan) as (c & s' & Hs & Hc).
  rewrite Hs in *. rewrite parse_value_number_head by exact Hc.
  rewrite Hscan. reflexivity.
Qed.

Lemma parse_value_string (s rest : gostring) (fuel : nat) (depth : Z) :
  utf8.ValidString s = true ->
  json.parse_value (S fuel) depth (json.encode_string s ++ rest)
  = Some (json.JString s, rest).
Proof.
  intros Hvalid. unfold json.encode_string.
  cbn [app]. rewrite <- app_assoc. cbn [app].
  change (json.parse_value (S fuel) depth
            (json.quote :: json.escape (length s) s ++ json.quote :: rest))
    with (match json.parse_string
                  (length (json.escape (length s) s ++ json.quote :: rest))
                  (json.escape (length s) s ++ json.quote :: rest) with
          | Some (lit, r) => Some (json.JString lit, r)
          | None => None
          end).
  rewrite parse_encode_string by exact Hvalid. reflexivity.
Qed.

Lemma renders_string (s : gostring) :
  utf8.ValidString s = true -> renders (json.encode_string s) (json.JString s).
Proof.
  intros Hvalid fuel depth d rest _. apply parse_value_string. exact Hvalid.
Qed.

Lemma renders_float `{StrconvLaws} (f : float) :
  is_finite f = true -> renders (FormatFloat f) (json.JNumber (FormatFloat f)).
Proof.
  intros Hf fuel depth d rest Hd. apply parse_value_number.
  apply FormatFloat_literal; assumption.
Qed.

Lemma members_text_cons k v (fs : list (gostring * gostring)) :
  json.members_text ((k, v) :: fs)
  = json.quote :: json.escape (length k) k
    ++ json.quote :: ":"%char :: v
    ++ match fs with
       | [] => []
       | _ => ","%char :: json.members_text fs
       end.
Proof.
  cbn [json.members_text]. unfold json.encode_string.
  cbn [app]. rewrite <- app_assoc. reflexivity.
Qed.

Lemma parse_members_step k v tail (fuel : nat) (depth : Z) :
  utf8.ValidString k = true ->
  json.parse_members (S fuel) depth
    (json.quote :: json.escape (length k) k ++ json.quote :: ":"%char
       :: v ++ tail)
  = match json.parse_value fuel depth (v ++ tail) with
    | Some (jv, s4) =>
      match json.skip_ws s4 with
      | ","%char :: s5 =>
        match json.parse_members fuel depth (json.skip_ws s5) with
        | Some (ms, r) => Some ((k, jv) :: ms, r)
        | None => None
        end
      | "}"%char :: s5 => Some ([(k, jv)], s5)
      | _ => None
      end
    | None => None
    end.
Proof.
  intros Hk. cbn [json.parse_members].
  change (Ascii.eqb json.quote json.quote) with true. cbv iota.
  rewrite parse_encode_string by exact Hk. reflexivity.
Qed.

Lemma parse_members_text (l : list (gostring * gostring * json.value)) :
  l <> [] ->
  Forall (fun m => utf8.ValidString (fst (fst m)) = true
                   /\ renders (snd (fst m)) (snd m)) l ->
  forall fuel depth rest,
    (length l < fuel)%nat ->
    json.parse_members fuel depth
      (json.members_text (member_texts l) ++ "}"%char :: rest)
    = Some (member_values l, rest).
Proof.
  induction l as [|[[k v] j] l IH]; [congruence|].
  intros _ Hall fuel depth rest Hfuel.
  inversion Hall as [|m l' [Hk Hv] Hall' Em]; subst.
  cbn [fst snd] in Hk, Hv.
  destruct fuel as [|fuel]; [lia|]. cbn [length] in Hfuel.
  destruct fuel as [|fuel]; [lia|].
  cbn [member_texts member_values map fst snd].
  fold (member_texts l). fold (member_values l).
  rewrite members_text_cons. cbn [app]. rewrite <- !app_assoc. cbn [app].
  rewrite <- !app_assoc.
  rewrite parse_members_step by exact Hk.
  destruct l as [|m2 l2].
  - cbn [member_texts map app].
    rewrite (Hv fuel depth "}"%char rest) by (right; reflexivity).
    reflexivity.
  - assert (Hnext : exists more,
               json.members_text (member_texts (m2 :: l2))
               = json.quote :: more).
    { destruct m2 as [[k2 v2] j2]. cbn [member_texts map fst snd].
      rewrite members_text_cons. eauto. }
    destruct Hnext as [more Hmore].
    cbn [member_texts map] in Hmore |- *. cbn [app].
    rewrite (Hv fuel depth ","%char _) by (left; reflexivity).
    cbn [json.skip_ws]. change (json.is_space ","%char) with false. cbv iota.
    rewrite Hmore. cbn [app json.skip_ws].
    change (json.is_space json.quote) with false. cbv iota.
    change (json.quote :: more ++ "}"%char :: rest)
      with ((json.quote :: more) ++ "}"%char :: rest).
    rewrite <- Hmore.
    pose proof (IH ltac:(discriminate) Hall' (S fuel) depth rest
                  ltac:(cbn [length] in *; lia)) as IH'.
    cbn [member_texts map] in IH'. rewrite IH'.
    reflexivity.
Qed.

Lemma members_text_length (fs : list (gostring * gostring)) :
  (length fs <= length (json.members_text fs))%nat.
Proof.
  induction fs as [|[k v] fs IH]; [reflexivity|].
  rewrite members_text_cons. cbn [length]. rewrite length_app. cbn [length].
  rewrite length_app.
  destruct fs as [|m fs']; [cbn [length]; lia|].
  cbn [length] in *. lia.
Qed.

Lemma parse_object_text (l : list (gostring * gostring * json.value)) :
  l <> [] ->
  Forall (fun m => utf8.ValidString (fst (fst m)) = true
                   /\ renders (snd (fst m)) (snd m)) l ->
  json.parse_whole (json.object_text (member_texts l))
  = Some (json.JObject (member_values l)).
Proof.
  intros Hne Hall. unfold json.parse_whole, json.parse_document, json.object_text.
  pose proof (members_text_length (member_texts l)) as Hlen.
  assert (Hl : length (member_texts l) = length l) by apply length_map.
  assert (Hq : exists more, json.members_text (member_texts l) = json.quote :: more).
  { destruct l as [|[[k v] j] l']; [congruence|].
    cbn [member_texts map fst snd]. rewrite members_text_cons. eauto. }
  destruct Hq as [more Hmore].
  set (s := "{"%char :: json.members_text (member_texts l) ++ ["}"%char]).
  assert (Hstep : json.parse_value (S (S (length s))) 0 s
                  = match json.parse_members (S (length s)) 1
                            (json.members_text (member_texts l) ++ ["}"%char]) with
                    | Some (ms, r) => Some (json.JObject ms, r)
                    | None => None
                    end).
  { subst s. rewrite Hmore. reflexivity. }
  rewrite Hstep.
  rewrite (parse_members_text l Hne Hall (S (length s)) 1 []).
  - reflexivity.
  - subst s. cbn [length]. rewrite length_app. cbn [length]. lia.
Qed.

Section RecordText.
Context `{StrconvLaws}.

Lemma encode_float_finite f text :
  json.encode_float f = Some text ->
  text = FormatFloat f /\ is_finite f = true.
Proof.
  unfold json.encode_float. destruct (is_finite f); [|discriminate].
  intros [= <-]. auto.
Qed.

Lemma decode_float64 f cur :
  is_finite f = true ->
  exists f', json.decode (json.JNumber (FormatFloat f)) json.TFloat64 cur
             = Some (json.VFloat f').
Proof.
  intros Hf. destruct (FormatFloat_parses f Hf) as [f' Hf'].
  exists f'. cbn [json.decode]. rewrite Hf'. reflexivity.
Qed.

Lemma WeatherMessage_roundtrip (m : WeatherMessage.t) (data : gostring) :
  WeatherMessage.Marshal m = Some data ->
  utf8.ValidString (WeatherMessage.Topic m) = true ->
  utf8.ValidString (WeatherMessage.Zip m) = true ->
  utf8.ValidString (WeatherMessage.Date m) = true ->
  exists m',
    WeatherMessage.Unmarshal data = Some m'
    /\ WeatherMessage.Topic m' = WeatherMessage.Topic m
    /\ WeatherMessage.Zip m' = WeatherMessage.Zip m
    /\ WeatherMessage.Date m' = WeatherMessage.Date m.
Proof.
  intros Hm Ht Hz Hd. unfold WeatherMessage.Marshal in Hm.
  cbn [json.sequence] in Hm.
  destruct (json.encode_float (WeatherMessage.Temperature m)) as [a|] eqn:Ea;
    [|discriminate].
  destruct (json.encode_float (WeatherMessage.FeelsLike m)) as [b|] eqn:Eb;
    [|discriminate].
  destruct (json.encode_float (WeatherMessage.Humidity m)) as [c|] eqn:Ec;
    [|discriminate].
  destruct (json.encode_float (WeatherMessage.WindSpeed m)) as [d|] eqn:Ed;
    [|discriminate].
  destruct (json.encode_float (WeatherMessage.WindDegree m)) as [e|] eqn:Ee;
    [|discriminate].
  destruct (json.encode_float (WeatherMessage.Cloud m)) as [f|] eqn:Ef;
    [|discriminate].
  cbn [option_map] in Hm. injection Hm as <-.
  apply encode_float_finite in Ea as [-> Fa], Eb as [-> Fb], Ec as [-> Fc],
    Ed as [-> Fd], Ee as [-> Fe], Ef as [-> Ff].
  set (l := [(str "Topic", json.encode_string (WeatherMessage.Topic m),
              json.JString (WeatherMessage.Topic m));
             (str "Zip", json.encode_string (WeatherMessage.Zip m),
              json.JString (WeatherMessage.Zip m));
             (str "Date", json.encode_string (WeatherMessage.Date m),
              json.JString (WeatherMessage.Date m));
             (str "Temp", FormatFloat (WeatherMessage.Temperature m),
              json.JNumber (FormatFloat (WeatherMessage.Temperature m)));
             (str "FeelsLike", FormatFloat (WeatherMessage.FeelsLike m),
              json.JNumber (FormatFloat (WeatherMessage.FeelsLike m)));
             (str "Humidity", FormatFloat (WeatherMessage.Humidity m),
              json.JNumber (FormatFloat (WeatherMessage.Humidity m)));
             (str "Speed", FormatFloat (WeatherMessage.WindSpeed m),
              json.JNumber (FormatFloat (WeatherMessage.WindSpeed m)));
             (str "Degree", FormatFloat (WeatherMessage.WindDegree m),
              json.JNumber (FormatFloat (WeatherMessage.WindDegree m)));
             (str "CloudPercent", FormatFloat (WeatherMessage.Cloud m),
              json.JNumber (FormatFloat (WeatherMessage.Cloud m)))]).
  assert (Hparse : json.parse_whole (json.object_text (member_texts l))
                   = Some (json.JObject (member_values l))).
  { apply parse_object_text; [discriminate|].
    subst l.
    repeat (apply List.Forall_cons;
            [cbn [fst snd]; split;
             [vm_compute; reflexivity
             |first [apply renders_string; assumption
                    |apply renders_float; assumption]]|]).
    apply List.Forall_nil. }
  destruct (FormatFloat_parses _ Fa) as [a' Ha'].
  destruct (FormatFloat_parses _ Fb) as [b' Hb'].
  destruct (FormatFloat_parses _ Fc) as [c' Hc'].
  destruct (FormatFloat_parses _ Fd) as [d' Hd'].
  destruct (FormatFloat_parses _ Fe) as [e' He'].
  destruct (FormatFloat_parses _ Ff) as [f' Hf'].
  exists (WeatherMessage.mk (WeatherMessage.Topic m) (WeatherMessage.Zip m)
            (WeatherMessage.Date m) a' b' c' d' e' f').
  split; [|auto].
  unfold WeatherMessage.Unmarshal, json.Unmarshal.
  change (json.object_text _) with (json.object_text (member_texts l)).
  rewrite Hparse. subst l.
  cbn [member_values map fst snd json.decode WeatherMessage.type
       json.store_members json.zero].
  repeat match goal with
         | |- context [json.field_index ?fs ?k] =>
           let i := eval vm_compute in (json.field_index fs k) in
           change (json.field_index fs k) with i; cbv iota beta
         end.
  cbn [lookup list_lookup insert list_insert json.decode].
  rewrite Ha', Hb', Hc', Hd', He', Hf'. reflexivity.
Qed.

End RecordText.

(** ** The lines of the log *)

Lemma too_long_nil : too_long [] = false.
Proof. reflexivity. Qed.

Lemma scan_lines_line (s : gostring) : forall cur t,
  ~ In newline s ->
  too_long (rev s ++ cur) = false ->
  scan_lines cur (s ++ newline :: t) = dropCR (rev cur ++ s) :: scan_lines [] t.
Proof.
  induction s as [|c s IH]; intros cur t Hnl Hfit.
  - cbn [app scan_lines]. change (Ascii.eqb newline "010"%char) with true.
    cbn [rev app] in Hfit. rewrite Hfit, app_nil_r. reflexivity.
  - cbn [app scan_lines].
    destruct (Ascii.eqb c "010"%char) eqn:Hc.
    + apply Ascii.eqb_eq in Hc. exfalso. apply Hnl. left. exact Hc.
    + rewrite IH.
      * cbn [rev]. rewrite <- app_assoc. reflexivity.
      * intros Hin. apply Hnl. right. exact Hin.
      * cbn [rev] in Hfit. rewrite <- app_assoc in Hfit. exact Hfit.
Qed.

Lemma scan_lines_terminated (pre : gostring) : forall cur t,
  lines_fit cur (pre ++ [newline]) = true ->
  scan_lines cur ((pre ++ [newline]) ++ t)
  = scan_lines cur (pre ++ [newline]) ++ scan_lines [] t.
Proof.
  induction pre as [|c pre IH]; intros cur t Hfit.
  - cbn [app scan_lines lines_fit] in Hfit |- *.
    change (Ascii.eqb newline "010"%char) with true in Hfit |- *.
    destruct (too_long cur); [discriminate|]. reflexivity.
  - cbn [app scan_lines lines_fit] in Hfit |- *.
    destruct (Ascii.eqb c "010"%char).
    + destruct (too_long cur); [discriminate|].
      rewrite IH by exact Hfit. reflexivity.
    + apply IH. exact Hfit.
Qed.

Lemma scan_lines_too_long (s : gostring) : forall cur t,
  ~ In newline s ->
  too_long (rev s ++ cur) = true ->
  scan_lines cur (s ++ newline :: t) = [].
Proof.
  induction s as [|c s IH]; intros cur t Hnl Hlong.
  - cbn [app scan_lines]. change (Ascii.eqb newline "010"%char) with true.
    cbn [rev app] in Hlong. rewrite Hlong. reflexivity.
  - cbn [app scan_lines].
    destruct (Ascii.eqb c "010"%char) eqn:Hc.
    + apply Ascii.eqb_eq in Hc. exfalso. apply Hnl. left. exact Hc.
    + apply IH.
      * intros Hin. apply Hnl. right. exact Hin.
      * cbn [rev] in Hlong. rewrite <- app_assoc in Hlong. exact Hlong.
Qed.

Lemma dropCR_brace (s : gostring) : dropCR (s ++ ["}"%char]) = s ++ ["}"%char].
Proof. unfold dropCR. rewrite rev_app_distr. reflexivity. Qed.

Lemma ScanLines_append (old data : gostring) :
  newline_terminated old ->
  scans_to_the_end old = true ->
  ~ In newline data ->
  Z.of_nat (length data) < MaxScanTokenSize ->
  ScanLines (old ++ data ++ [newline]) = ScanLines old ++ [dropCR data].
Proof.
  intros Hold Hfit Hnl Hlen.
  assert (Hdata : too_long (rev data ++ []) = false).
  { unfold too_long. rewrite app_nil_r, length_rev. apply Z.leb_gt. exact Hlen. }
  destruct Hold as [->|[pre ->]]; unfold ScanLines.
  - cbn [app]. rewrite scan_lines_line by assumption. reflexivity.
  - rewrite scan_lines_terminated by exact Hfit.
    rewrite (scan_lines_line data [] []) by assumption.
    reflexivity.
Qed.

(** No newline in what the encoder writes. *)

Lemma escape_byte_no_newline (c : ascii) :
  byte_val c < 128 -> ~ In newline (json.escape_byte c).
Proof.
  destruct c as [b0 b1 b2 b3 b4 b5 b6 b7].
  destruct b7.
  { intros Hc. exfalso. revert Hc.
    destruct b0, b1, b2, b3, b4, b5, b6; vm_compute; intros Hc; discriminate. }
  intros _.
  destruct b0, b1, b2, b3, b4, b5, b6; vm_compute;
    intuition discriminate.
Qed.

Lemma escape_no_newline (n : nat) : forall s,
  utf8.valid_fuel n s = true -> ~ In newline (json.escape n s).
Proof.
  induction n as [|n IH]; intros s Hvalid; [simpl; tauto|].
  destruct s as [|c s']; [simpl; tauto|].
  cbn [utf8.valid_fuel] in Hvalid. cbn [json.escape]. unfold utf8.RuneSelf.
  destruct (byte_val c <? 128) eqn:Hascii.
  - apply Z.ltb_lt in Hascii.
    assert (Hdec : utf8.DecodeRune (c :: s') = (byte_val c, 1%nat)).
    { unfold utf8.DecodeRune, utf8.RuneSelf.
      replace (byte_val c <? 128) with true by (symmetry; apply Z.ltb_lt; lia).
      reflexivity. }
    rewrite Hdec in Hvalid.
    replace (byte_val c =? utf8.RuneError) with false in Hvalid
      by (symmetry; apply Z.eqb_neq; unfold utf8.RuneError; lia).
    cbn [andb skipn] in Hvalid.
    rewrite in_app_iff. intros [Hin|Hin].
    + exact (escape_byte_no_newline c Hascii Hin).
    + exact (IH s' Hvalid Hin).
  - apply Z.ltb_ge in Hascii.
    destruct (utf8.DecodeRune (c :: s')) as [r size] eqn:Hdec.
    destruct ((r =? utf8.RuneError) && (size =? 1)%nat) eqn:Herr;
      [discriminate|].
    destruct (DecodeRune_prefix c s' r size Hdec Herr Hascii)
      as (p & Hs & Hlen & Henc & Hhigh & Hpre).
    assert (Hfirst : firstn size (c :: s') = c :: p).
    { rewrite Hs at 1. rewrite <- Hlen. rewrite firstn_app, Nat.sub_diag, firstn_all.
      cbn [firstn]. rewrite app_nil_r. reflexivity. }
    specialize (IH _ Hvalid).
    destruct (r =? 8232); [|destruct (r =? 8233)].
    + cbn [In app str list_ascii_of_string]. unfold json.backslash, newline.
      intuition discriminate.
    + cbn [In app str list_ascii_of_string]. unfold json.backslash, newline.
      intuition discriminate.
    + rewrite Hfirst, in_app_iff. intros [Hin|Hin]; [|exact (IH Hin)].
      rewrite List.Forall_forall in Hhigh. apply Hhigh in Hin.
      vm_compute in Hin. apply Hin. reflexivity.
Qed.

Lemma encode_string_no_newline (s : gostring) :
  utf8.ValidString s = true -> ~ In newline (json.encode_string s).
Proof.
  intros Hvalid. unfold json.encode_string.
  cbn [In]. rewrite in_app_iff. cbn [In].
  pose proof (escape_no_newline _ _ Hvalid).
  unfold json.quote, newline in *. intuition discriminate.
Qed.

Lemma take_digits_chars (s : gostring) : forall d r,
  json.take_digits s = (d, r) -> Forall (fun c => number_char c = true) d.
Proof.
  induction s as [|c s IH]; intros d r; cbn [json.take_digits].
  - intros [= <- <-]. constructor.
  - destruct (strconv.is_digit c) eqn:Hd.
    + destruct (json.take_digits s) as [d' r'] eqn:Ht.
      intros [= <- <-]. apply List.Forall_cons.
      * unfold number_char. rewrite Hd. reflexivity.
      * exact (IH _ _ eq_refl).
    + intros [= <- <-]. constructor.
Qed.

Ltac number_chars :=
  repeat match goal with
         | H : Ascii.eqb _ _ = true |- _ => apply Ascii.eqb_eq in H; subst
         | H : _ || _ = true |- _ => apply orb_true_iff in H; destruct H
         | H : json.take_digits _ = (?d, _) |- Forall _ ?d =>
           exact (take_digits_chars _ _ _ H)
         | |- Forall _ (_ ++ _) => apply Forall_app; split
         | |- Forall _ (_ :: _) => apply List.Forall_cons
         | |- Forall _ [] => apply List.Forall_nil
         | |- number_char _ = true => reflexivity
         end.

Lemma scan_int_chars s ip r :
  json.scan_int s = Some (ip, r) -> Forall (fun c => number_char c = true) ip.
Proof.
  unfold json.scan_int. destruct s as [|c s']; [discriminate|].
  destruct (Ascii.eqb c "0"%char) eqn:H0.
  - intros [= <- <-]. number_chars.
  - destruct (strconv.is_digit c) eqn:Hd; [|discriminate].
    destruct (json.take_digits s') as [d r'] eqn:Ht.
    intros [= <- <-]. number_chars.
    unfold number_char. rewrite Hd. reflexivity.
Qed.

Lemma scan_frac_chars s fp r :
  json.scan_frac s = Some (fp, r) -> Forall (fun c => number_char c = true) fp.
Proof.
  unfold json.scan_frac. destruct s as [|c s']; [intros [= <- <-]; number_chars|].
  destruct (Ascii.eqb c "."%char) eqn:H0; [|intros [= <- <-]; number_chars].
  destruct (json.take_digits s') as [d r'] eqn:Ht.
  destruct d as [|d0 d]; [discriminate|].
  intros [= <- <-]. number_chars.
Qed.

Lemma scan_exp_chars s ep r :
  json.scan_exp s = Some (ep, r) -> Forall (fun c => number_char c = true) ep.
Proof.
  unfold json.scan_exp. destruct s as [|c s']; [intros [= <- <-]; number_chars|].
  destruct (Ascii.eqb c "e"%char || Ascii.eqb c "E"%char) eqn:H0;
    [|intros [= <- <-]; number_chars].
  destruct s' as [|g t].
  - cbn [json.take_digits]. discriminate.
  - destruct (Ascii.eqb g "+"%char || Ascii.eqb g "-"%char) eqn:Hg.
    + destruct (json.take_digits t) as [d r'] eqn:Ht.
      destruct d as [|d0 d]; [discriminate|].
      intros [= <- <-]. number_chars.
    + destruct (json.take_digits (g :: t)) as [d r'] eqn:Ht.
      destruct d as [|d0 d]; [discriminate|].
      intros [= <- <-]. number_chars.
Qed.

Lemma scan_number_chars s lit r :
  json.scan_number s = Some (lit, r) -> Forall (fun c => number_char c = true) lit.
Proof.
  unfold json.scan_number.
  set (split := match s with
                | c :: t => if Ascii.eqb c "-"%char then ([c], t) else ([], s)
                | [] => ([], s)
                end).
  assert (Hsign : Forall (fun c => number_char c = true) (fst split)).
  { subst split. destruct s as [|c t]; [constructor|].
    destruct (Ascii.eqb c "-"%char) eqn:Hc; cbn [fst]; number_chars. }
  destruct split as [sign s1]. cbn [fst] in Hsign.
  destruct (json.scan_int s1) as [[ip s2]|] eqn:Hi; [|discriminate].
  destruct (json.scan_frac s2) as [[fp s3]|] eqn:Hf; [|discriminate].
  destruct (json.scan_exp s3) as [[ep s4]|] eqn:He; [|discriminate].
  intros [= <- <-].
  apply scan_int_chars in Hi. apply scan_frac_chars in Hf.
  apply scan_exp_chars in He.
  repeat (apply Forall_app; split); assumption.
Qed.

Lemma FormatFloat_no_newline `{StrconvLaws} (f : float) :
  is_finite f = true -> ~ In newline (FormatFloat f).
Proof.
  intros Hf Hin.
  pose proof (FormatFloat_literal f ","%char [] Hf (or_introl eq_refl)) as Hscan.
  apply scan_number_chars in Hscan.
  rewrite List.Forall_forall in Hscan. apply Hscan in Hin.
  vm_compute in Hin. discriminate.
Qed.

Lemma members_text_no_newline (fs : list (gostring * gostring)) :
  Forall (fun kv => utf8.ValidString (fst kv) = true
                    /\ ~ In newline (snd kv)) fs ->
  ~ In newline (json.members_text fs).
Proof.
  induction fs as [|[k v] fs IH]; intros Hall; [simpl; tauto|].
  inversion Hall as [|kv fs' [Hk Hv] Hall' E]; subst. cbn [fst snd] in Hk, Hv.
  specialize (IH Hall').
  pose proof (encode_string_no_newline k Hk) as Hek.
  cbn [json.members_text]. rewrite in_app_iff. cbn [In]. rewrite in_app_iff.
  destruct fs as [|kv fs'].
  - cbn [In]. unfold newline in *. intuition (try discriminate).
  - cbn [In]. unfold newline in *. intuition (try discriminate).
Qed.

Lemma object_text_no_newline (fs : list (gostring * gostring)) :
  Forall (fun kv => utf8.ValidString (fst kv) = true
                    /\ ~ In newline (snd kv)) fs ->
  ~ In newline (json.object_text fs).
Proof.
  intros Hall. pose proof (members_text_no_newline fs Hall) as Hm.
  unfold json.object_text. cbn [In]. rewrite in_app_iff. cbn [In].
  unfold newline in *. intuition (try discriminate).
Qed.

Section LogRoundTrip.
Context `{StrconvLaws} `{Location}.

Lemma Marshal_text (m : WeatherMessage.t) (data : gostring) :
  WeatherMessage.Marshal m = Some data ->
  utf8.ValidString (WeatherMessage.Topic m) = true ->
  utf8.ValidString (WeatherMessage.Zip m) = true ->
  utf8.ValidString (WeatherMessage.Date m) = true ->
  ~ In newline data /\ dropCR data = data.
Proof.
  intros Hm Ht Hz Hd. unfold WeatherMessage.Marshal in Hm.
  cbn [json.sequence] in Hm.
  destruct (json.encode_float (WeatherMessage.Temperature m)) as [a|] eqn:Ea;
    [|discriminate].
  destruct (json.encode_float (WeatherMessage.FeelsLike m)) as [b|] eqn:Eb;
    [|discriminate].
  destruct (json.encode_float (WeatherMessage.Humidity m)) as [c|] eqn:Ec;
    [|discriminate].
  destruct (json.encode_float (WeatherMessage.WindSpeed m)) as [d|] eqn:Ed;
    [|discriminate].
  destruct (json.encode_float (WeatherMessage.WindDegree m)) as [e|] eqn:Ee;
    [|discriminate].
  destruct (json.encode_float (WeatherMessage.Cloud m)) as [f|] eqn:Ef;
    [|discriminate].
  cbn [option_map] in Hm. injection Hm as <-.
  apply encode_float_finite in Ea as [-> Fa], Eb as [-> Fb], Ec as [-> Fc],
    Ed as [-> Fd], Ee as [-> Fe], Ef as [-> Ff].
  split.
  - apply object_text_no_newline.
    repeat (apply List.Forall_cons;
            [cbn [fst snd]; split;
             [vm_compute; reflexivity
             |first [apply encode_string_no_newline; assumption
                    |apply FormatFloat_no_newline; assumption]]|]).
    apply List.Forall_nil.
  - unfold json.object_text.
    change ("{"%char :: ?x ++ ["}"%char]) with (("{"%char :: x) ++ ["}"%char]).
    apply dropCR_brace.
Qed.


Lemma topics_valid topic : In topic topics -> utf8.ValidString topic = true.
Proof.
  unfold topics. cbn [In].
  intros [<-|[<-|[<-|[<-|[]]]]]; vm_compute; reflexivity.
Qed.

Lemma update_gauges_valid th msg st g :
  In (WeatherMessage.Topic msg) topics ->
  update_gauges th msg st = Some g ->
  utf8.ValidString (WeatherMessage.Zip msg) = true
  /\ utf8.ValidString (WeatherMessage.Date msg) = true.
Proof.
  intros Htopic Hup. unfold update_gauges in Hup.
  unfold WithLabelValues_Set, bind_gauges in Hup.
  destruct (utf8.ValidString (WeatherMessage.Zip msg)
            && utf8.ValidString (WeatherMessage.Date msg)) eqn:Hvalid.
  - apply andb_true_iff in Hvalid. exact Hvalid.
  - exfalso. unfold topics in Htopic. cbn [In] in Htopic.
    destruct Htopic as [Ht|[Ht|[Ht|[Ht|[]]]]]; rewrite <- Ht in Hup;
      cbn in Hup; discriminate.
Qed.


End LogRoundTrip.



(** ** The shutdown sequence *)

Lemma shutdown_invariant_start (numWorkers lines : nat) :
  shutdown_invariant (main.start numWorkers lines).
Proof.
  unfold shutdown_invariant, main.start. cbn.
  repeat split; try reflexivity; intros; lia.
Qed.

Ltac step_cases H :=
  repeat match type of H with
         | context [match ?x with _ => _ end] => destruct x eqn:?
         end;
  first [discriminate H | injection H as <-].

Lemma shutdown_invariant_step (a : main.action) (s s' : main.state) :
  main.step a s = Some s' -> shutdown_invariant s -> shutdown_invariant s'.
Proof.
  unfold main.step. destruct (main.exited s); [discriminate|].
  intros Hstep (Hp & Hpre & Hreq & Hmet & Hcan & Hfile & Hzip & Hkafka).
  rewrite Hp in Hstep.
  destruct s as [at_ w l pre req met can fp fs zr zw zs rr rw kr ks pr pw ex pa].
  unfold main.fileWG, main.zipCodeWG, main.kafkaWG in *.
  cbn [main.at_ main.panicked main.preCoordinateChan_closed
       main.requestsChan_closed main.metricsChan_closed main.cancelled
       main.file_parsing main.file_sending main.zip_receiving
       main.zip_working main.zip_sending main.kafka_reading
       main.kafka_sending] in *.
  subst pa.
  destruct a; cbn in Hstep;
    unfold main.main_step, main.send, main.Wait, main.close, main.closed,
      main.fileWG, main.zipCodeWG, main.resultsWG, main.kafkaWG, main.promWG
      in Hstep;
    cbn in Hstep; step_cases Hstep.
  all: unfold shutdown_invariant, main.fileWG, main.zipCodeWG, main.kafkaWG;
    cbn in *; subst.
  all: try discriminate.
  all: try (repeat split; try reflexivity; intros; lia).
  all: destruct at_; cbn in *; try discriminate;
    repeat split; try reflexivity; intros; lia.
Qed.

Lemma shutdown_invariant_run (schedule : list main.action) :
  forall s s',
    main.run schedule s = Some s' ->
    shutdown_invariant s -> shutdown_invariant s'.
Proof.
  induction schedule as [|a rest IH]; intros s s' Hrun Hinv.
  - injection Hrun as <-. exact Hinv.
  - cbn [main.run] in Hrun.
    destruct (main.step a s) as [s1|] eqn:Hstep; [|discriminate].
    exact (IH _ _ Hrun (shutdown_invariant_step _ _ _ Hstep Hinv)).
Qed.

(** C7. In every state that [main] and its goroutines reach, under every
    schedule: no send on a closed channel and no second close has happened;
    [preCoordinateChan] is closed only when no file goroutine is left,
    [requestsChan] only when no resolver is left, and [metricsChan] only
    when the consumers have been cancelled and none is left. *)
Theorem shutdown_order (numWorkers lines : nat)
  (schedule : list main.action) (s : main.state) :
  main.run schedule (main.start numWorkers lines) = Some s ->
  main.panicked s = None
  /\ (main.preCoordinateChan_closed s = true -> main.fileWG s = 0%nat)
  /\ (main.requestsChan_closed s = true -> main.zipCodeWG s = 0%nat)
  /\ (main.metricsChan_closed s = true ->
      main.cancelled s = true /\ main.kafkaWG s = 0%nat).
Proof.
  intros Hrun.
  destruct (shutdown_invariant_run _ _ _ Hrun
              (shutdown_invariant_start numWorkers lines))
    as (Hp & Hpre & Hreq & Hmet & Hcan & Hfile & Hzip & Hkafka).
  cbv zeta in *.
  split; [exact Hp|].
  split; [|split].
  - rewrite Hpre. intros H%Nat.leb_le. apply Hfile. lia.
  - rewrite Hreq. intros H%Nat.leb_le. apply Hzip. lia.
  - rewrite Hmet, Hcan. intros H%Nat.leb_le. split.
    + apply Nat.leb_le. lia.
    + apply Hkafka. lia.
Qed.

(** A complete run, one worker per pool and one input line. *)
Lemma shutdown_order_witness :
  main.run one_line_schedule (main.start 1 1) = Some one_line_end
  /\ main.at_ one_line_end = main.Finished
  /\ main.metricsChan_closed one_line_end = true
  /\ main.panicked one_line_end = None
  /\ main.kafkaWG one_line_end = 0%nat.
Proof.
  assert (Hrun : main.run one_line_schedule (main.start 1 1)
                 = Some one_line_end).
  { vm_compute. reflexivity. }
  split; [exact Hrun|].
  split; [vm_compute; reflexivity|]. split; [vm_compute; reflexivity|].
  destruct (shutdown_order 1 1 one_line_schedule one_line_end Hrun)
    as (Hp & _ & _ & Hmet).
  split; [exact Hp|]. apply Hmet. vm_compute. reflexivity.
Defined.

(** ** Further properties *)

Section Extras.
Context `{Strconv} `{Location}.
Variable net : Providers.

(** When the forecast provider rejects the API key as the geocoding
    provider does, [processRequest] ends the process with status 1: the
    status of the response is not the string ["200"]. *)
Theorem invalid_key_exits_in_fetch (req : PostLocationRequest.t)
  (key : gostring) (f : float) :
  forecast net (PostLocationRequest.Lat req) (PostLocationRequest.Lon req)
    (forecast_cnt req) key = http_response invalid_key_body ->
  ParseFloat64 (str "401") = Some f ->
  processRequest net req key = Exit 1.
Proof.
  intros Hget Hparse.
  unfold processRequest, json.Decode.
  rewrite Hget, invalid_key_body_parsed.
  cbn [json.decode APIResponse.type json.store_members].
  replace (json.field_index _ (str "cod")) with (Some 0%nat)
    by (vm_compute; reflexivity).
  replace (json.field_index _ (str "message")) with (Some 1%nat)
    by (vm_compute; reflexivity).
  cbn in Hparse |- *. rewrite Hparse. reflexivity.
Qed.

(** A line of [MaxScanTokenSize] bytes or more ends the scan of the log,
    wherever it is: [isInTSDB] answers as it would if the log ended just
    before that line.  The records before the line are seen, the records
    after it are not, whatever they are.  The line is the last one of the
    log, without a newline, or a newline and the rest of the log follow
    it. *)
Theorem overlong_line_ends_scan (before long tail : gostring) (now : Z)
  (req : PreCoordinateRequest.t) :
  newline_terminated before ->
  ~ In newline long ->
  MaxScanTokenSize <= Z.of_nat (length long) ->
  tail = [] \/ (exists rest, tail = newline :: rest) ->
  isInTSDB (FilePresent (before ++ long ++ tail)) now req
  = isInTSDB (FilePresent before) now req.
Proof.
  intros Hbefore Hnl Hlen Htail. unfold isInTSDB. cbn [os_Open].
  assert (Hlong : fits long = false)
    by (unfold fits; apply Z.ltb_ge; exact Hlen).
  rewrite !ScanLines_reached. unfold reached_lines.
  rewrite raw_lines_app by exact Hbefore.
  destruct Htail as [->|[rest ->]].
  - rewrite app_nil_r, (raw_lines_last long []); [|exact Hnl|].
    + cbn [rev app]. rewrite lines_before_overlong_stop by exact Hlong.
      reflexivity.
    + cbn [rev app]. intros ->. unfold MaxScanTokenSize in Hlen.
      cbn [length] in Hlen. lia.
  - rewrite raw_lines_line by exact Hnl. cbn [rev app].
    rewrite lines_before_overlong_stop by exact Hlong. reflexivity.
Qed.

End Extras.

(** [main] starts at least one worker in each pool, whatever [WORKERS]
    holds. *)
Theorem numWorkers_positive (env : Env) : 0 < numWorkers env.
Proof.
  unfold numWorkers, DEFAULT_NUM_WORKERS.
  destruct (strconv.Atoi _) as [n|]; [|lia].
  destruct (Z.leb_spec n 0); lia.
Qed.

(** ** More on input parsing *)





(** ** More on the consumer *)

Lemma SplitN2_no_sep (sep : ascii) (s : gostring) :
  ~ In sep s -> strings.SplitN2 s sep = [s].
Proof.
  induction s as [|c s IH]; intros Hnot; cbn [strings.SplitN2];
    [reflexivity|].
  destruct (Ascii.eqb c sep) eqn:Hc.
  - apply Ascii.eqb_eq in Hc. exfalso. apply Hnot. left. exact Hc.
  - rewrite IH; [reflexivity|]. intros Hin. apply Hnot. right. exact Hin.
Qed.

Section Consumer.
Context `{Strconv} `{Location}.

(** A message whose key holds no dash makes the consumer panic (the
    index 1 of [keyParts] is out of range), once its value has been
    unmarshalled. *)
Theorem consume_key_without_dash (topic key value : gostring)
  (payload : WeatherMessage.t) :
  ~ In "-"%char key ->
  WeatherMessage.Unmarshal value = Some payload ->
  consume_message topic key value = Panic.
Proof.
  intros Hkey Hpayload. unfold consume_message.
  rewrite Hpayload, SplitN2_no_sep by exact Hkey. reflexivity.
Qed.

(** When the ZIP code of a request holds a dash, [a-b], the consumer of a
    message published for it takes [a] for the Zip and [b-date] for the
    Date: the key is cut at its first dash. *)
Theorem consume_dashed_zip (location a b : gostring) (r : DailyResponse.t)
  (m : kafka.Message) (payload : WeatherMessage.t) :
  ~ In "-"%char a ->
  In m (publish_sample location (a ++ "-"%char :: b) r) ->
  WeatherMessage.Unmarshal (kafka.Value m) = Some payload ->
  exists msg,
    consume_message (kafka.Topic m) (kafka.Key m) (kafka.Value m) = Done msg
    /\ WeatherMessage.Zip msg = a
    /\ WeatherMessage.Date msg
       = b ++ "-"%char :: time.Unix_Format_date (DailyResponse.Time r).
Proof.
  intros Ha Hm Hpayload.
  assert (Hkey : kafka.Key m
                 = a ++ "-"%char
                     :: (b ++ "-"%char
                           :: time.Unix_Format_date (DailyResponse.Time r))).
  { unfold publish_sample in Hm. cbn [In] in Hm.
    destruct Hm as [<-|[<-|[<-|[<-|[]]]]]; cbn [kafka.Key];
      rewrite <- app_assoc; reflexivity. }
  unfold consume_message. rewrite Hpayload, Hkey.
  rewrite SplitN2_first_sep by exact Ha.
  eexists. split; [reflexivity|]. split; reflexivity.
Qed.

End Consumer.

(** ** More on [updateMetrics] *)

Lemma Set_frame g zip date v st st' g' (key : gostring * gostring) :
  WithLabelValues_Set g zip date v st = Some st' ->
  key <> (zip, date) ->
  st' g' !! key = st g' !! key.
Proof.
  unfold WithLabelValues_Set. destruct (_ && _); [|discriminate].
  intros [= <-] Hne. destruct (decide (g' = g)); [|reflexivity].
  apply lookup_insert_ne. congruence.
Qed.

Lemma bind_gauges_Some r k st' :
  bind_gauges r k = Some st' -> exists st1, r = Some st1 /\ k st1 = Some st'.
Proof. destruct r as [st1|]; [eauto|discriminate]. Qed.

Ltac gauge_sets :=
  repeat match goal with
         | H : bind_gauges _ _ = Some _ |- _ =>
           let st1 := fresh "st" in
           let H1 := fresh "Hset" in
           apply bind_gauges_Some in H as (st1 & H1 & H)
         end.

Section Readings.
Context `{Strconv}.

(** Once [updateMetrics] has processed a message, the value gauges of its
    family read, at the message's (location, date), the values that the
    message carries. *)
Theorem updateMetrics_readings (th : Thresholds) (msg : WeatherMessage.t)
  (st st' : State) :
  updateMetrics th msg st = Done st' ->
  let reading g :=
    gauges st' g !! (WeatherMessage.Zip msg, WeatherMessage.Date msg) in
  (WeatherMessage.Topic msg = str "temperature" ->
   reading tempGauge = Some (WeatherMessage.Temperature msg)
   /\ reading feelsLikeGauge = Some (WeatherMessage.FeelsLike msg))
  /\ (WeatherMessage.Topic msg = str "humidity" ->
      reading humidityGauge = Some (WeatherMessage.Humidity msg))
  /\ (WeatherMessage.Topic msg = str "wind" ->
      reading windSpeedGauge = Some (WeatherMessage.WindSpeed msg)
      /\ reading windDegreeGauge = Some (WeatherMessage.WindDegree msg))
  /\ (WeatherMessage.Topic msg = str "cloud" ->
      reading cloudGauge = Some (WeatherMessage.Cloud msg)).
Proof.
  unfold updateMetrics.
  destruct (update_gauges th msg (gauges st)) as [g1|] eqn:Hup;
    [|discriminate].
  intros [= <-]. cbn [gauges]. unfold update_gauges in Hup.
  repeat split_and; intros Htopic; rewrite Htopic in Hup; cbn in Hup;
    gauge_sets;
    repeat match goal with
           | |- _ /\ _ => split
           end;
    repeat match goal with
           | Hs : WithLabelValues_Set ?g _ _ _ _ = Some ?s |- ?s ?g !! _ = _ =>
             exact (Set_lookup _ _ _ _ _ _ Hs)
           | Hs : WithLabelValues_Set ?g _ _ _ ?s0 = Some ?s |- ?s ?g' !! _ = _ =>
             rewrite (Set_other _ g' _ _ _ _ _ Hs) by discriminate
           end.
Qed.

(** [updateMetrics] leaves every reading at another (location, date) as it
    was, in all the gauges. *)
Theorem updateMetrics_frame (th : Thresholds) (msg : WeatherMessage.t)
  (st st' : State) (g : Gauge) (zip date : gostring) :
  updateMetrics th msg st = Done st' ->
  (zip, date) <> (WeatherMessage.Zip msg, WeatherMessage.Date msg) ->
  gauges st' g !! (zip, date) = gauges st g !! (zip, date).
Proof.
  unfold updateMetrics.
  destruct (update_gauges th msg (gauges st)) as [g1|] eqn:Hup;
    [|discriminate].
  intros [= <-] Hne. cbn [gauges]. unfold update_gauges in Hup.
  gauge_cases; gauge_sets;
    repeat match goal with
           | Hs : WithLabelValues_Set _ _ _ _ ?s0 = Some ?s |- ?s _ !! _ = _ =>
             rewrite (Set_frame _ _ _ _ _ _ g _ Hs Hne)
           end;
    try reflexivity.
  injection Hup as <-. reflexivity.
Qed.

(** A message of one of the four topics whose Zip or Date is not valid
    UTF-8 makes [updateMetrics] panic ([WithLabelValues] refuses the
    label): no gauge is set and nothing is written to the log. *)
Theorem updateMetrics_invalid_label (th : Thresholds)
  (msg : WeatherMessage.t) (st : State) :
  In (WeatherMessage.Topic msg) topics ->
  utf8.ValidString (WeatherMessage.Zip msg) = false
  \/ utf8.ValidString (WeatherMessage.Date msg) = false ->
  updateMetrics th msg st = Panic.
Proof.
  intros Htopic Hbad. unfold updateMetrics.
  destruct (update_gauges th msg (gauges st)) as [g1|] eqn:Hup;
    [|reflexivity].
  destruct (update_gauges_valid _ _ _ _ Htopic Hup) as [Hz Hd].
  destruct Hbad as [Hbad|Hbad]; congruence.
Qed.

End Readings.

(** ** The log as the dedup gate and the dashboards read it *)

Lemma scan_lines_extends (pre : gostring) : forall cur t,
  exists more,
    scan_lines cur ((pre ++ [newline]) ++ t)
    = scan_lines cur (pre ++ [newline]) ++ more.
Proof.
  induction pre as [|c pre IH]; intros cur t.
  - cbn [app scan_lines]. change (Ascii.eqb newline "010"%char) with true.
    destruct (too_long cur); [exists []; reflexivity|].
    eexists. reflexivity.
  - cbn [app scan_lines]. destruct (Ascii.eqb c "010"%char).
    + destruct (too_long cur); [exists []; reflexivity|].
      destruct (IH [] t) as [more Hmore]. exists more.
      rewrite Hmore. reflexivity.
    + apply IH.
Qed.

Lemma ScanLines_extends (old more : gostring) :
  newline_terminated old ->
  exists lines, ScanLines (old ++ more) = ScanLines old ++ lines.
Proof.
  intros [->|[pre ->]]; unfold ScanLines.
  - eexists. reflexivity.
  - apply scan_lines_extends.
Qed.

Section LogReaders.
Context `{Strconv} `{Location}.

Lemma scan_records_extends zip date l1 l2 :
  scan_records zip date l1 = true -> scan_records zip date (l1 ++ l2) = true.
Proof.
  induction l1 as [|line l1 IH]; [discriminate|].
  cbn [app scan_records].
  destruct (WeatherMessage.Unmarshal line) as [msg|]; [|exact IH].
  destruct (_ && _); [reflexivity|exact IH].
Qed.

(** Once the dedup gate has found a request in the log, it finds it again
    after every [updateMetrics], as long as the log ended with a
    newline. *)
Theorem dedup_survives_append (th : Thresholds) (msg : WeatherMessage.t)
  (st st' : State) (old : gostring) (now : Z)
  (req : PreCoordinateRequest.t) :
  os_Open (metricsFile st) = Some old ->
  newline_terminated old ->
  isInTSDB (metricsFile st) now req = true ->
  updateMetrics th msg st = Done st' ->
  isInTSDB (metricsFile st') now req = true.
Proof.
  intros Hopen Hnl Hfound Hup. unfold updateMetrics in Hup.
  destruct (update_gauges th msg (gauges st)) as [g1|]; [|discriminate].
  injection Hup as <-. cbn [metricsFile].
  destruct (metricsFile st) as [|content|] eqn:Hfile; try discriminate.
  injection Hopen as ->. unfold append_metrics. cbn [os_OpenFile_append].
  destruct (WeatherMessage.Marshal msg) as [data|]; [|exact Hfound].
  unfold isInTSDB in *. cbn [os_Open] in *.
  destruct (ScanLines_extends old (data ++ [newline]) Hnl) as [lines Hl].
  unfold newline in Hl. rewrite Hl.
  apply scan_records_extends. exact Hfound.
Qed.

Lemma collect_zips_spec (lines : list gostring) : forall zipSet zip,
  zip ∈ collect_zips lines zipSet
  <-> zip ∈ zipSet
      \/ exists line msg,
           In line lines /\ WeatherMessage.Unmarshal line = Some msg
           /\ WeatherMessage.Zip msg = zip.
Proof.
  induction lines as [|line lines IH]; intros zipSet zip;
    cbn [collect_zips].
  - split; [auto|]. intros [Hin|(line & msg & [] & _)]. exact Hin.
  - destruct (WeatherMessage.Unmarshal line) as [m|] eqn:Hm; rewrite IH.
    + rewrite elem_of_union, elem_of_singleton. split.
      * intros [[->|Hin]|(l & msg & Hl & Hmsg & Hz)].
        -- right. exists line, m. split; [left; reflexivity|]. auto.
        -- left. exact Hin.
        -- right. exists l, msg. split; [right; exact Hl|]. auto.
      * intros [Hin|(l & msg & [<-|Hl] & Hmsg & Hz)].
        -- left. right. exact Hin.
        -- left. left. rewrite Hm in Hmsg. injection Hmsg as <-.
           symmetry. exact Hz.
        -- right. exists l, msg. auto.
    + split.
      * intros [Hin|(l & msg & Hl & Hmsg & Hz)]; [left; exact Hin|].
        right. exists l, msg. split; [right; exact Hl|]. auto.
      * intros [Hin|(l & msg & [<-|Hl] & Hmsg & Hz)].
        -- left. exact Hin.
        -- rewrite Hm in Hmsg. discriminate.
        -- right. exists l, msg. auto.
Qed.

(** [getAllZipCodes] returns exactly the location codes that have a
    record in the log, under some date, and nothing when the log cannot
    be opened. *)
Theorem getAllZipCodes_spec (file : file_state) (zip : gostring) :
  (zip ∈ getAllZipCodes file <-> exists date, log_has_record file zip date)
  /\ (os_Open file = None -> getAllZipCodes file = ∅).
Proof.
  unfold getAllZipCodes, log_has_record. split.
  - destruct (os_Open file) as [content|].
    + rewrite collect_zips_spec. split.
      * intros [Hin|(line & msg & Hl & Hm & Hz)]; [set_solver|].
        exists (WeatherMessage.Date msg), content, line, msg. auto.
      * intros (date & c & line & msg & [= <-] & Hl & Hm & Hz & _).
        right. exists line, msg. auto.
    + split; [set_solver|].
      intros (date & c & line & msg & Hopen & _). discriminate.
  - intros ->. reflexivity.
Qed.


End LogReaders.
Section Recorded.
Context `{StrconvLaws} `{Location}.

(** The location of a message that [updateMetrics] has appended to the
    log is among the ZIP codes that [setupGrafana] builds dashboards for
    (the log ended with a newline and its lines, the new one too, are
    shorter than the scanner's buffer). *)
Theorem recorded_location_has_dashboard (th : Thresholds)
  (msg : WeatherMessage.t) (st st' : State) (old data : gostring) :
  In (WeatherMessage.Topic msg) topics ->
  os_OpenFile_append (metricsFile st) = Some old ->
  newline_terminated old ->
  scans_to_the_end old = true ->
  WeatherMessage.Marshal msg = Some data ->
  Z.of_nat (length data) < MaxScanTokenSize ->
  updateMetrics th msg st = Done st' ->
  WeatherMessage.Zip msg ∈ getAllZipCodes (metricsFile st').
Proof.
  intros Htopic Hopen Hlog Hfit Hdata Hlen Hup.
  unfold updateMetrics in Hup.
  destruct (update_gauges th msg (gauges st)) as [g|] eqn:Hg; [|discriminate].
  injection Hup as <-. cbn [metricsFile].
  destruct (update_gauges_valid _ _ _ _ Htopic Hg) as [Vz Vd].
  pose proof (topics_valid _ Htopic) as Vt.
  destruct (Marshal_text _ _ Hdata Vt Vz Vd) as [Hnl Hcr].
  unfold append_metrics. rewrite Hopen, Hdata.
  unfold getAllZipCodes. cbn [os_Open].
  change ["010"%char] with [newline].
  rewrite ScanLines_append by assumption. rewrite Hcr.
  destruct (WeatherMessage_roundtrip _ _ Hdata Vt Vz Vd)
    as (m' & Hm' & _ & Hz' & _).
  apply collect_zips_spec. right. exists data, m'.
  split; [apply in_or_app; right; left; reflexivity|]. auto.
Qed.

End Recorded.

(** ** Waiting for Grafana *)

Lemma waitForGrafana_paced (timeout : Z) (turns : list (probe * Z)) :
  forall k0 : Z,
    0 <= k0 ->
    (forall k p elapsed,
        nth_error turns k = Some (p, elapsed) ->
        2 * Second * (k0 + Z.of_nat k) <= elapsed) ->
    (1 <= length turns)%nat ->
    timeout / (2 * Second) + 2 <= k0 + Z.of_nat (length turns) ->
    is_Some (waitForGrafana timeout turns).
Proof.
  unfold Second.
  induction turns as [|[p e] rest IH]; intros k0 Hk0 Hpaced Hlen Hbound;
    cbn [length] in *; [lia|].
  cbn [waitForGrafana].
  destruct (grafana_is_up p); [eauto|].
  unfold waitForGrafana_gives_up.
  destruct (Z.ltb_spec timeout e); [eauto|].
  pose proof (Hpaced 0%nat p e eq_refl) as H0.
  assert (Hk : k0 <= timeout / (2 * 1000000000)).
  { apply Z.div_le_lower_bound; lia. }
  apply (IH (k0 + 1)).
  - lia.
  - intros k q t Hnth. specialize (Hpaced (S k) q t Hnth). lia.
  - lia.
  - lia.
Qed.

(** With a clock that advances two seconds per turn or more,
    [waitForGrafana] returns after at most [timeout / 2s + 2] probes:
    32 probes for the 60 seconds of [main]. *)
Theorem waitForGrafana_returns (timeout : Z) (turns : list (probe * Z)) :
  0 <= timeout ->
  paced turns ->
  timeout / (2 * Second) + 2 <= Z.of_nat (length turns) ->
  is_Some (waitForGrafana timeout turns).
Proof.
  intros Htimeout Hpaced Hlen.
  assert (0 <= timeout / (2 * Second))
    by (apply Z.div_pos; unfold Second; lia).
  apply (waitForGrafana_paced timeout turns 0); try lia.
  intros k p e Hnth. rewrite Z.add_0_l. exact (Hpaced k p e Hnth).
Qed.

(** [waitForGrafana] reports Grafana ready exactly when a probe is
    answered with status 200 or 401 and, at every turn before it, Grafana
    was not up and the deadline had not passed; the deadline is not looked
    at after the probe that succeeds.  It gives up exactly at the first
    turn whose probe fails after the deadline. *)
Theorem waitForGrafana_outcome (timeout : Z) (turns : list (probe * Z)) :
  (waitForGrafana timeout turns = Some ready
   <-> exists before p elapsed after,
         turns = before ++ (p, elapsed) :: after
         /\ Forall (keeps_waiting timeout) before
         /\ grafana_is_up p = true)
  /\ (waitForGrafana timeout turns = Some timed_out
      <-> exists before p elapsed after,
            turns = before ++ (p, elapsed) :: after
            /\ Forall (keeps_waiting timeout) before
            /\ grafana_is_up p = false
            /\ timeout < elapsed).
Proof.
  induction turns as [|[p e] rest [IHready IHout]]; cbn [waitForGrafana].
  - split; (split; [discriminate|]);
      intros (before & q & t & after & Heq & _); destruct before; discriminate.
  - unfold waitForGrafana_gives_up.
    destruct (grafana_is_up p) eqn:Hup; [|destruct (Z.ltb_spec timeout e)].
    + split; split.
      * intros _. exists [], p, e, rest. auto.
      * reflexivity.
      * discriminate.
      * intros ([|[q t] before] & q' & t' & after & Heq & Hall & Hdown & _);
          injection Heq as <- <- _.
        -- congruence.
        -- apply List.Forall_cons_iff in Hall as [[Hq _] _].
           cbn in Hq. congruence.
    + split; split.
      * discriminate.
      * intros ([|[q t] before] & q' & t' & after & Heq & Hall & Hq');
          injection Heq as <- <- _.
        -- congruence.
        -- apply List.Forall_cons_iff in Hall as [[_ Ht] _].
           cbn in Ht. lia.
      * intros _. exists [], p, e, rest. auto.
      * reflexivity.
    + split; split.
      * intros Hr. apply IHready in Hr
          as (before & q & t & after & -> & Hall & Hq).
        exists ((p, e) :: before), q, t, after.
        split; [reflexivity|]. split; [|exact Hq].
        apply List.Forall_cons; [split; assumption|exact Hall].
      * intros ([|[q t] before] & q' & t' & after & Heq & Hall & Hq');
          injection Heq as <- <- Hrest.
        -- congruence.
        -- apply IHready. apply List.Forall_cons_iff in Hall as [_ Hall].
           exists before, q', t', after. auto.
      * intros Hr. apply IHout in Hr
          as (before & q & t & after & -> & Hall & Hq & Ht).
        exists ((p, e) :: before), q, t, after.
        split; [reflexivity|]. split; [|auto].
        apply List.Forall_cons; [split; assumption|exact Hall].
      * intros ([|[q t] before] & q' & t' & after & Heq & Hall & Hq' & Ht');
          injection Heq as <- <- Hrest.
        -- lia.
        -- apply IHout. apply List.Forall_cons_iff in Hall as [_ Hall].
           exists before, q', t', after. auto.
Qed.

(** ** Forecasts shorter than asked for *)

Section ShortForecast.
Context `{Strconv} `{Location}.

Variable net : Providers.

(** Whatever the number of samples in a forecast of status 200,
    [processRequest] does not index past its end: it publishes for the
    days that the forecast reaches, [min d (ceil (n / 8))] of them for [n]
    samples, the four messages of each built from the sample at eight
    times the index of the day. *)
Theorem processRequest_short_forecast (req : PostLocationRequest.t)
  (key body : gostring) (v : json.govalue) :
  let days := PostLocationRequest.Days req in
  let samples := APIResponse.DaysList (APIResponse.of_value v) in
  let covered := Z.min days ((Z.of_nat (length samples) + 7) / 8) in
  0 <= days -> 8 * days <= GoInt.max_int ->
  forecast net (PostLocationRequest.Lat req) (PostLocationRequest.Lon req)
    (forecast_cnt req) key = http_response body ->
  json.Decode APIResponse.type body = Some v ->
  APIResponse.Cod (APIResponse.of_value v) = json.any_string (str "200") ->
  exists chosen,
    processRequest net req key
    = Done (flat_map (publish_sample (PostLocationRequest.Name req)
                        (PostLocationRequest.ZIPCode req)) chosen)
    /\ Z.of_nat (length chosen) = covered
    /\ forall day, Z.of_nat day < covered ->
         nth_error chosen day = nth_error samples (8 * day).
Proof.
  intros days samples covered Hdays Hmax Hget Hdecode Hcod.
  assert (Hcov : 0 <= covered).
  { unfold covered. apply Z.min_glb; [exact Hdays|].
    apply Z.div_pos; lia. }
  exists (chosen_samples (Z.to_nat covered) samples).
  assert (Hin : forall day, (day < Z.to_nat covered)%nat ->
                            (8 * day < length samples)%nat).
  { intros day Hday.
    assert (Z.of_nat day + 1 <= (Z.of_nat (length samples) + 7) / 8)
      by (unfold covered in *; lia).
    clear Hday Hcov. Z.div_mod_to_equations. lia. }
  destruct (chosen_samples_covered _ _ Hin) as [Hl Hn].
  assert (Hle : covered <= Z.of_nat (length samples)).
  { assert ((Z.of_nat (length samples) + 7) / 8
            <= Z.of_nat (length samples))
      by (clear; Z.div_mod_to_equations; lia).
    unfold covered. lia. }
  split; [|split].
  - unfold processRequest. rewrite Hget, Hdecode, Hcod.
    unfold json.any_eq_string. rewrite eqb_str_refl. cbn [negb].
    fold samples. fold days.
    rewrite (publish_loop_short _ _ samples days Hdays Hmax
               (Z.to_nat covered) 0); [reflexivity|lia| |lia].
    fold samples. fold covered. lia.
  - rewrite Hl. lia.
  - intros day Hday. apply Hn. lia.
Qed.

End ShortForecast.

(** ** The pools of [main] *)

Lemma pool_sizes_start (numWorkers lines : nat) :
  pool_sizes (main.start numWorkers lines).
Proof.
  unfold pool_sizes, main.start, main.kafkaWG, main.promWG, main.zipCodeWG,
    main.resultsWG, main.fileWG. cbn. lia.
Qed.

Lemma workers_step (a : main.action) (s s' : main.state) :
  main.step a s = Some s' -> main.workers s' = main.workers s.
Proof.
  unfold main.step. destruct (main.exited s); [discriminate|].
  destruct (main.panicked s); [discriminate|].
  destruct s as [at_ w l pre req met can fp fs zr zw zs rr rw kr ks pr pw ex pa].
  destruct a; cbn;
    unfold main.main_step, main.send, main.Wait, main.close, main.closed,
      main.fileWG, main.zipCodeWG, main.resultsWG, main.kafkaWG, main.promWG;
    cbn; intros Hstep; step_cases Hstep; reflexivity.
Qed.

Lemma pool_sizes_step (a : main.action) (s s' : main.state) :
  main.step a s = Some s' ->
  shutdown_invariant s -> pool_sizes s -> pool_sizes s'.
Proof.
  unfold main.step. destruct (main.exited s); [discriminate|].
  intros Hstep (Hp & Hpre & Hreq & Hmet & Hcan & Hfile & Hzip & Hkafka)
    Hsizes.
  rewrite Hp in Hstep.
  destruct s as [at_ w l pre req met can fp fs zr zw zs rr rw kr ks pr pw ex pa].
  unfold pool_sizes, main.fileWG, main.zipCodeWG, main.kafkaWG, main.promWG,
    main.resultsWG in *.
  cbn [main.at_ main.panicked main.preCoordinateChan_closed
       main.requestsChan_closed main.metricsChan_closed main.cancelled
       main.file_parsing main.file_sending main.zip_receiving
       main.zip_working main.zip_sending main.kafka_reading
       main.kafka_sending main.prom_receiving main.prom_working
       main.results_receiving main.results_working main.workers] in *.
  subst pa.
  destruct a; cbn in Hstep;
    unfold main.main_step, main.send, main.Wait, main.close, main.closed,
      main.fileWG, main.zipCodeWG, main.resultsWG, main.kafkaWG, main.promWG
      in Hstep;
    cbn in Hstep; step_cases Hstep.
  all: cbn in *; subst; try discriminate.
  all: try lia.
  all: destruct at_; cbn in *; try discriminate; lia.
Qed.

Lemma pool_sizes_run (schedule : list main.action) :
  forall s s',
    main.run schedule s = Some s' ->
    shutdown_invariant s -> pool_sizes s ->
    pool_sizes s' /\ main.workers s' = main.workers s.
Proof.
  induction schedule as [|a rest IH]; intros s s' Hrun Hinv Hsizes.
  - injection Hrun as <-. auto.
  - cbn [main.run] in Hrun.
    destruct (main.step a s) as [s1|] eqn:Hstep; [|discriminate].
    destruct (IH _ _ Hrun (shutdown_invariant_step _ _ _ Hstep Hinv)
                (pool_sizes_step _ _ _ Hstep Hinv Hsizes)) as [Hs Hw].
    split; [exact Hs|]. rewrite Hw. exact (workers_step _ _ _ Hstep).
Qed.

(** No worker leaves its pool early.  From the moment [main] has started
    the four pools, in every state it reaches: the [numWorkers] resolvers
    are all there while [preCoordinateChan] is open, the [numWorkers]
    fetchers while [requestsChan] is open, the [numWorkers] aggregators
    while [metricsChan] is open, and the [4 * numWorkers] consumers until
    the context is cancelled. *)
Theorem workers_stay_until_closed (numWorkers lines : nat)
  (schedule : list main.action) (s : main.state) :
  main.run schedule (main.start numWorkers lines) = Some s ->
  pools_started (main.at_ s) = true ->
  (main.preCoordinateChan_closed s = false ->
   main.zipCodeWG s = numWorkers)
  /\ (main.requestsChan_closed s = false -> main.resultsWG s = numWorkers)
  /\ (main.metricsChan_closed s = false -> main.promWG s = numWorkers)
  /\ (main.cancelled s = false -> main.kafkaWG s = (4 * numWorkers)%nat).
Proof.
  intros Hrun Hstarted.
  pose proof (shutdown_invariant_run _ _ _ Hrun
                (shutdown_invariant_start numWorkers lines))
    as (_ & Hpre & Hreq & Hmet & Hcan & _).
  destruct (pool_sizes_run _ _ _ Hrun
              (shutdown_invariant_start numWorkers lines)
              (pool_sizes_start numWorkers lines)) as [Hsizes Hw].
  cbn [main.start main.workers] in Hw.
  unfold pool_sizes in Hsizes. cbv zeta in *. rewrite Hw in Hsizes.
  rewrite Hpre, Hreq, Hmet, Hcan.
  destruct (main.at_ s); cbn in *; try discriminate;
    repeat split; intros; try discriminate; lia.
Qed.

(** When [main] has passed its last [Wait], no goroutine of the five
    pools is left, the three channels are closed and the context is
    cancelled. *)
Theorem main_joins_all_pools (numWorkers lines : nat)
  (schedule : list main.action) (s : main.state) :
  main.run schedule (main.start numWorkers lines) = Some s ->
  main.at_ s = main.Finished ->
  (main.fileWG s = 0 /\ main.zipCodeWG s = 0 /\ main.resultsWG s = 0
   /\ main.kafkaWG s = 0 /\ main.promWG s = 0)%nat
  /\ main.preCoordinateChan_closed s = true
  /\ main.requestsChan_closed s = true
  /\ main.metricsChan_closed s = true
  /\ main.cancelled s = true.
Proof.
  intros Hrun Hat.
  pose proof (shutdown_invariant_run _ _ _ Hrun
                (shutdown_invariant_start numWorkers lines))
    as (_ & Hpre & Hreq & Hmet & Hcan & Hfile & Hzip & Hkafka).
  destruct (pool_sizes_run _ _ _ Hrun
              (shutdown_invariant_start numWorkers lines)
              (pool_sizes_start numWorkers lines)) as [Hsizes _].
  unfold pool_sizes in Hsizes. cbv zeta in *. rewrite Hat in *.
  cbn in *. rewrite Hpre, Hreq, Hmet, Hcan.
  repeat split; try reflexivity; lia.
Qed.

(** ** The number of workers *)








(** ** Decimal texts *)

Lemma digit_byte (k : Z) :
  0 <= k <= 9 ->
  strconv.is_digit (byte_of (48 + k)) = true
  /\ strconv.digit_val (byte_of (48 + k)) = k
  /\ (0 < k -> Ascii.eqb (byte_of (48 + k)) "0"%char = false).
Proof.
  intros Hk.
  assert (Hcases : k = 0 \/ k = 1 \/ k = 2 \/ k = 3 \/ k = 4 \/ k = 5
                   \/ k = 6 \/ k = 7 \/ k = 8 \/ k = 9) by lia.
  repeat (destruct Hcases as [->|Hcases]); try subst k;
    (split; [reflexivity|split; [reflexivity|]]); intros Hpos;
    first [lia|reflexivity].
Qed.

Lemma digits_val_app (x y : gostring) : forall a,
  strconv.digits_val a (x ++ y)
  = match strconv.digits_val a x with
    | Some a' => strconv.digits_val a' y
    | None => None
    end.
Proof.
  induction x as [|c x IH]; intros a; cbn [app strconv.digits_val];
    [reflexivity|].
  destruct (strconv.is_digit c); [apply IH|reflexivity].
Qed.

(** What [dec_digits] puts before [acc]: the decimal digits of [n], the
    first of them not a zero unless [n] is. *)
Lemma dec_digits_spec : forall (fuel : nat) n acc,
  0 <= n < 10 ^ Z.of_nat (S fuel) ->
  exists d ds,
    time.dec_digits (S fuel) n acc = (d :: ds) ++ acc
    /\ Forall (fun c => strconv.is_digit c = true) (d :: ds)
    /\ (0 < n -> Ascii.eqb d "0"%char = false)
    /\ forall a, strconv.digits_val a (d :: ds)
                 = Some (a * 10 ^ Z.of_nat (length (d :: ds)) + n).
Proof.
  assert (Hone : forall n acc fuel, 0 <= n < 10 ->
            exists d ds,
              time.dec_digits (S fuel) n acc = (d :: ds) ++ acc
              /\ Forall (fun c => strconv.is_digit c = true) (d :: ds)
              /\ (0 < n -> Ascii.eqb d "0"%char = false)
              /\ forall a, strconv.digits_val a (d :: ds)
                           = Some (a * 10 ^ Z.of_nat (length (d :: ds)) + n)).
  { intros n acc fuel Hn. cbn [time.dec_digits].
    replace (n <? 10) with true by (symmetry; apply Z.ltb_lt; lia).
    rewrite Z.mod_small by lia.
    destruct (digit_byte n) as (Hd & Hv & Hz); [lia|].
    exists (byte_of (48 + n)), []. split; [reflexivity|].
    split; [repeat constructor; exact Hd|]. split; [exact Hz|].
    intros a. cbn [strconv.digits_val length]. rewrite Hd, Hv.
    f_equal. change (10 ^ Z.of_nat 1) with 10. lia. }
  induction fuel as [|fuel IH]; intros n acc Hn.
  - apply Hone. change (10 ^ Z.of_nat 1) with 10 in Hn. exact Hn.
  - destruct (Z.ltb_spec n 10) as [Hsmall|Hbig]; [apply Hone; lia|].
    cbn [time.dec_digits].
    replace (n <? 10) with false by (symmetry; apply Z.ltb_ge; exact Hbig).
    assert (Hdiv : 0 <= n / 10 < 10 ^ Z.of_nat (S fuel)).
    { split; [apply Z.div_pos; lia|].
      apply Z.div_lt_upper_bound; [lia|].
      replace (Z.of_nat (S (S fuel))) with (Z.succ (Z.of_nat (S fuel)))
        in Hn by lia.
      rewrite Z.pow_succ_r in Hn by lia. lia. }
    destruct (IH (n / 10) (byte_of (48 + n mod 10) :: acc) Hdiv)
      as (d & ds & Heq & Hall & Hnz & Hval).
    assert (Hmod : 0 <= n mod 10 <= 9)
      by (pose proof (Z.mod_pos_bound n 10); lia).
    destruct (digit_byte (n mod 10) Hmod) as (Hd & Hv & _).
    exists d, (ds ++ [byte_of (48 + n mod 10)]).
    split; [|split; [|split]].
    + cbn [time.dec_digits] in Heq. rewrite Heq.
      cbn [app]. rewrite <- app_assoc. reflexivity.
    + change (d :: ds ++ [byte_of (48 + n mod 10)])
        with ((d :: ds) ++ [byte_of (48 + n mod 10)]).
      apply Forall_app. split; [exact Hall|]. repeat constructor. exact Hd.
    + intros _. apply Hnz. apply Z.div_str_pos. lia.
    + intros a.
      change (d :: ds ++ [byte_of (48 + n mod 10)])
        with ((d :: ds) ++ [byte_of (48 + n mod 10)]).
      rewrite digits_val_app, Hval. cbn [strconv.digits_val].
      rewrite Hd, Hv. f_equal.
      rewrite length_app. cbn [length]. rewrite Nat.add_1_r.
      rewrite !Nat2Z.inj_succ. rewrite !Z.pow_succ_r by lia.
      pose proof (Z.div_mod n 10). lia.
Qed.

Lemma itoa_spec (n : Z) :
  0 <= n ->
  exists d ds,
    time.itoa n = d :: ds
    /\ Forall (fun c => strconv.is_digit c = true) (d :: ds)
    /\ (0 < n -> Ascii.eqb d "0"%char = false)
    /\ strconv.digits_val 0 (d :: ds) = Some n.
Proof.
  intros Hn. unfold time.itoa.
  destruct (dec_digits_spec (Z.to_nat (Z.log2 n)) n [])
    as (d & ds & Heq & Hall & Hnz & Hval).
  - split; [exact Hn|].
    replace (Z.of_nat (S (Z.to_nat (Z.log2 n)))) with (Z.succ (Z.log2 n))
      by (pose proof (Z.log2_nonneg n); lia).
    destruct (Z.eq_dec n 0) as [->|Hne]; [reflexivity|].
    apply Z.lt_le_trans with (2 ^ Z.succ (Z.log2 n)).
    + apply Z.log2_spec. lia.
    + apply Z.pow_le_mono_l. lia.
  - exists d, ds. rewrite Heq, app_nil_r. split; [reflexivity|].
    split; [exact Hall|]. split; [exact Hnz|].
    rewrite Hval. f_equal; lia.
Qed.

Lemma take_digits_app (ds : gostring) (c : ascii) (rest : gostring) :
  Forall (fun c => strconv.is_digit c = true) ds ->
  strconv.is_digit c = false ->
  json.take_digits (ds ++ c :: rest) = (ds, c :: rest).
Proof.
  intros Hds Hc. induction Hds as [|d ds Hd _ IH]; cbn [app json.take_digits].
  - rewrite Hc. reflexivity.
  - rewrite Hd, IH. reflexivity.
Qed.

Lemma decimal_text_literal (n : Z) (c : ascii) (rest : gostring) :
  n <> 0 ->
  c = ","%char \/ c = "}"%char ->
  json.scan_number (decimal_text n ++ c :: rest)
  = Some (decimal_text n, c :: rest).
Proof.
  intros Hn Hc.
  assert (Hcd : strconv.is_digit c = false /\ Ascii.eqb c "."%char = false
                /\ Ascii.eqb c "e"%char = false
                /\ Ascii.eqb c "E"%char = false)
    by (destruct Hc as [->| ->]; repeat split; reflexivity).
  destruct Hcd as (Hcd & Hdot & He & HE).
  destruct (itoa_spec (Z.abs n)) as (d & ds & Hitoa & Hall & Hnz & _); [lia|].
  specialize (Hnz ltac:(lia)).
  apply List.Forall_cons_iff in Hall as [Hd Hds].
  assert (Hminus : Ascii.eqb d "-"%char = false).
  { destruct (Ascii.eqb d "-"%char) eqn:Heq; [|reflexivity].
    apply Ascii.eqb_eq in Heq. subst d. discriminate. }
  assert (Hint : forall sign,
            json.scan_int ((d :: ds) ++ c :: rest) = Some (d :: ds, c :: rest)
            /\ json.scan_frac (c :: rest) = Some ([], c :: rest)
            /\ json.scan_exp (c :: rest) = Some ([], c :: rest)
            /\ (sign ++ (d :: ds) ++ [] ++ [] = sign ++ d :: ds)).
  { intros sign. split; [|split; [|split]].
    - cbn [app json.scan_int]. rewrite Hnz, Hd.
      rewrite take_digits_app by assumption. reflexivity.
    - cbn [json.scan_frac]. rewrite Hdot. reflexivity.
    - cbn [json.scan_exp]. rewrite He, HE. reflexivity.
    - rewrite !app_nil_r. reflexivity. }
  unfold decimal_text. rewrite Hitoa.
  destruct (n <? 0).
  - destruct (Hint ["-"%char]) as (Hi & Hf & Hx & Happ).
    cbn [app] in Hi |- *. unfold json.scan_number.
    change (Ascii.eqb "-" "-") with true. cbv beta iota.
    rewrite Hi, Hf, Hx. cbn [app]. rewrite !app_nil_r. reflexivity.
  - destruct (Hint []) as (Hi & Hf & Hx & Happ).
    cbn [app] in Hi |- *. unfold json.scan_number.
    rewrite Hminus. cbv beta iota.
    rewrite Hi, Hf, Hx. cbn [app]. rewrite !app_nil_r. reflexivity.
Qed.

Lemma Atoi_decimal_text (n : Z) :
  n <> 0 -> GoInt.min_int <= n <= GoInt.max_int ->
  strconv.Atoi (decimal_text n) = Some n.
Proof.
  intros Hn Hrange.
  destruct (itoa_spec (Z.abs n)) as (d & ds & Hitoa & Hall & Hnz & Hval);
    [lia|].
  specialize (Hnz ltac:(lia)).
  apply List.Forall_cons_iff in Hall as Hd. destruct Hd as [Hd _].
  assert (Hsign : Ascii.eqb d "-"%char = false /\ Ascii.eqb d "+"%char = false).
  { split.
    - destruct (Ascii.eqb d "-"%char) eqn:Heq; [|reflexivity].
      apply Ascii.eqb_eq in Heq. subst d. discriminate.
    - destruct (Ascii.eqb d "+"%char) eqn:Heq; [|reflexivity].
      apply Ascii.eqb_eq in Heq. subst d. discriminate. }
  unfold decimal_text, strconv.Atoi. rewrite Hitoa.
  destruct (Z.ltb_spec n 0).
  - cbn [app]. rewrite Hval.
    replace ((GoInt.min_int <=? - Z.abs n) && (- Z.abs n <=? GoInt.max_int))
      with true.
    + f_equal. lia.
    + symmetry. apply andb_true_iff. split; apply Z.leb_le; lia.
  - cbn [app].
    assert (Hbody : match d :: ds with
                    | "-"%char :: s' => (true, s')
                    | "+"%char :: s' => (false, s')
                    | _ => (false, d :: ds)
                    end = (false, d :: ds)).
    { destruct Hsign as [Hm Hp].
      destruct d as [[] [] [] [] [] [] [] []];
        try discriminate Hm; try discriminate Hp; reflexivity. }
    rewrite Hbody, Hval.
    replace ((GoInt.min_int <=? Z.abs n) && (Z.abs n <=? GoInt.max_int))
      with true.
    + f_equal. lia.
    + symmetry. apply andb_true_iff. split; apply Z.leb_le; lia.
Qed.

Lemma integer_of_float_range (f : float) (n : Z) :
  integer_of_float f = Some n -> n <> 0 /\ - 2 ^ 53 <= n <= 2 ^ 53.
Proof.
  unfold integer_of_float.
  destruct (Prim2SF f) as [| | |sign m e]; try discriminate.
  set (k := if 0 <=? e then Z.pos m * 2 ^ e else Z.pos m / 2 ^ (- e)).
  destruct (0 <? k) eqn:Hpos; [|discriminate].
  destruct (k <=? 2 ^ 53) eqn:Hle; [|discriminate].
  cbn [andb]. destruct (_ =? f)%float; [|discriminate].
  intros [= <-]. apply Z.ltb_lt in Hpos. apply Z.leb_le in Hle.
  destruct sign; lia.
Qed.

Lemma decimal_strconv_laws : StrconvLaws decimal_strconv.
Proof.
  split.
  - reflexivity.
  - intros f c rest _ Hc. cbn [FormatFloat decimal_strconv].
    destruct (integer_of_float f) as [n|] eqn:Hn.
    + apply decimal_text_literal; [|exact Hc].
      apply (integer_of_float_range f n Hn).
    + destruct Hc as [->| ->]; reflexivity.
  - intros f _. cbn [FormatFloat ParseFloat64 decimal_strconv].
    destruct (integer_of_float f) as [n|] eqn:Hn.
    + destruct (integer_of_float_range f n Hn) as [Hne Hr].
      rewrite Atoi_decimal_text; [eexists; reflexivity|exact Hne|].
      unfold GoInt.min_int, GoInt.max_int. lia.
    + eexists. reflexivity.
Qed.
(** ** From the forecast to the metrics channel *)

Lemma ascii_valid (s : gostring) :
  Forall (fun c => (byte_val c <? 128) = true) s ->
  utf8.ValidString s = true.
Proof.
  unfold utf8.ValidString.
  induction 1 as [|c s Hc _ IH]; [reflexivity|].
  cbn [length utf8.valid_fuel utf8.DecodeRune].
  unfold utf8.RuneSelf. rewrite Hc.
  replace (byte_val c =? utf8.RuneError) with false.
  - cbn [andb skipn]. exact IH.
  - symmetry. apply Z.eqb_neq. apply Z.ltb_lt in Hc.
    unfold utf8.RuneError. lia.
Qed.

Lemma digit_is_ascii (c : ascii) :
  strconv.is_digit c = true -> (byte_val c <? 128) = true.
Proof.
  unfold strconv.is_digit, utf8.in_rng. intros Hd.
  apply andb_true_iff in Hd as [_ Hhi]. apply Z.leb_le in Hhi.
  apply Z.ltb_lt. lia.
Qed.

Lemma appendInt_ascii (x : Z) (width : nat) :
  Forall (fun c => (byte_val c <? 128) = true) (time.appendInt x width).
Proof.
  unfold time.appendInt.
  destruct (itoa_spec (Z.abs x)) as (d & ds & -> & Hall & _); [lia|].
  apply Forall_app. split; [destruct (x <? 0); repeat constructor|].
  apply Forall_app. split.
  - apply List.Forall_forall. intros c Hc. apply repeat_spec in Hc. subst c.
    reflexivity.
  - eapply List.Forall_impl; [|exact Hall]. exact digit_is_ascii.
Qed.

Lemma Format_date_valid (day : Z) :
  utf8.ValidString (time.Format_date day) = true.
Proof.
  apply ascii_valid. unfold time.Format_date.
  destruct (time.civil_from_days day) as [[y m] d].
  apply Forall_app. split; [apply appendInt_ascii|].
  apply List.Forall_cons; [reflexivity|].
  apply Forall_app. split; [apply appendInt_ascii|].
  apply List.Forall_cons; [reflexivity|]. apply appendInt_ascii.
Qed.

Section Arrival.
Context `{StrconvLaws} `{Location}.

Lemma encode_float_reads_back f :
  reads_back f -> json.encode_float f = Some (FormatFloat f).
Proof. intros [Hf _]. unfold json.encode_float. rewrite Hf. reflexivity. Qed.

Ltac payload_members :=
  repeat (apply List.Forall_cons;
          [cbn [fst snd]; split;
           [vm_compute; reflexivity
           |first [apply renders_string; assumption
                  |apply renders_float; assumption]]|]);
  apply List.Forall_nil.

Ltac payload_fields :=
  cbn [member_values map fst snd json.decode WeatherMessage.type
       json.store_members json.zero];
  repeat match goal with
         | |- context [json.field_index ?fs ?k] =>
           let i := eval vm_compute in (json.field_index fs k) in
           change (json.field_index fs k) with i; cbv iota beta
         end;
  cbn [lookup list_lookup insert list_insert json.decode].

Lemma Unmarshal_members (l : list (gostring * gostring * json.value)) :
  l <> [] ->
  Forall (fun m => utf8.ValidString (fst (fst m)) = true
                   /\ renders (snd (fst m)) (snd m)) l ->
  WeatherMessage.Unmarshal (json.object_text (member_texts l))
  = option_map WeatherMessage.of_value
      (json.decode (json.JObject (member_values l)) WeatherMessage.type
         (json.zero WeatherMessage.type)).
Proof.
  intros Hne Hall. unfold WeatherMessage.Unmarshal, json.Unmarshal.
  rewrite (parse_object_text l Hne Hall). reflexivity.
Qed.

Ltac consume_payload l :=
  unfold consume_message;
  rewrite SplitN2_first_sep by assumption;
  unfold TemperaturePayload.Marshal, HumidityPayload.Marshal,
    WindPayload.Marshal, CloudPayload.Marshal;
  cbn [TemperaturePayload.Temp TemperaturePayload.FeelsLike
       TemperaturePayload.Location TemperaturePayload.Date
       HumidityPayload.Humidity HumidityPayload.Location HumidityPayload.Date
       WindPayload.Speed WindPayload.Degree WindPayload.Location
       WindPayload.Date CloudPayload.CloudPercent CloudPayload.Location
       CloudPayload.Date];
  rewrite !encode_float_reads_back by assumption;
  change (default [] (Some ?x)) with x;
  repeat match goal with
         | Hr : reads_back _ |- _ => destruct Hr as [? ?]
         end;
  change (json.object_text _) with (json.object_text (member_texts l));
  rewrite (Unmarshal_members l) by (first [discriminate|payload_members]);
  payload_fields.

(** The consumer of the [temperature] topic on a published payload. *)
Lemma consume_temperature (location zipCode date : gostring) (t f : float) :
  utf8.ValidString location = true ->
  utf8.ValidString date = true ->
  ~ In "-"%char zipCode ->
  reads_back t -> reads_back f ->
  consume_message (str "temperature") (zipCode ++ "-"%char :: date)
    (default [] (TemperaturePayload.Marshal
                   (TemperaturePayload.mk location date t f)))
  = Done (WeatherMessage.mk (str "temperature") zipCode date t f
            0%float 0%float 0%float 0%float).
Proof.
  intros Hloc Hdate Hdash Ht Hf.
  consume_payload
    [(str "Location", json.encode_string location, json.JString location);
     (str "Date", json.encode_string date, json.JString date);
     (str "Temp", FormatFloat t, json.JNumber (FormatFloat t));
     (str "FeelsLike", FormatFloat f, json.JNumber (FormatFloat f))].
  repeat match goal with
         | Hp : ParseFloat64 _ = Some _ |- _ => rewrite Hp; clear Hp
         end.
  reflexivity.
Qed.

(** The consumer of the [humidity] topic on a published payload. *)
Lemma consume_humidity (location zipCode date : gostring) (h : float) :
  utf8.ValidString location = true ->
  utf8.ValidString date = true ->
  ~ In "-"%char zipCode ->
  reads_back h ->
  consume_message (str "humidity") (zipCode ++ "-"%char :: date)
    (default [] (HumidityPayload.Marshal
                   (HumidityPayload.mk location date h)))
  = Done (WeatherMessage.mk (str "humidity") zipCode date 0%float 0%float
            h 0%float 0%float 0%float).
Proof.
  intros Hloc Hdate Hdash Hh.
  consume_payload
    [(str "Location", json.encode_string location, json.JString location);
     (str "Date", json.encode_string date, json.JString date);
     (str "Humidity", FormatFloat h, json.JNumber (FormatFloat h))].
  repeat match goal with
         | Hp : ParseFloat64 _ = Some _ |- _ => rewrite Hp; clear Hp
         end.
  reflexivity.
Qed.

(** The consumer of the [wind] topic on a published payload. *)
Lemma consume_wind (location zipCode date : gostring) (s d : float) :
  utf8.ValidString location = true ->
  utf8.ValidString date = true ->
  ~ In "-"%char zipCode ->
  reads_back s -> reads_back d ->
  consume_message (str "wind") (zipCode ++ "-"%char :: date)
    (default [] (WindPayload.Marshal (WindPayload.mk location date s d)))
  = Done (WeatherMessage.mk (str "wind") zipCode date 0%float 0%float
            0%float s d 0%float).
Proof.
  intros Hloc Hdate Hdash Hs Hd.
  consume_payload
    [(str "Location", json.encode_string location, json.JString location);
     (str "Date", json.encode_string date, json.JString date);
     (str "Speed", FormatFloat s, json.JNumber (FormatFloat s));
     (str "Degree", FormatFloat d, json.JNumber (FormatFloat d))].
  repeat match goal with
         | Hp : ParseFloat64 _ = Some _ |- _ => rewrite Hp; clear Hp
         end.
  reflexivity.
Qed.

(** The consumer of the [cloud] topic on a published payload. *)
Lemma consume_cloud (location zipCode date : gostring) (c : float) :
  utf8.ValidString location = true ->
  utf8.ValidString date = true ->
  ~ In "-"%char zipCode ->
  reads_back c ->
  consume_message (str "cloud") (zipCode ++ "-"%char :: date)
    (default [] (CloudPayload.Marshal (CloudPayload.mk location date c)))
  = Done (WeatherMessage.mk (str "cloud") zipCode date 0%float 0%float
            0%float 0%float 0%float c).
Proof.
  intros Hloc Hdate Hdash Hc.
  consume_payload
    [(str "Location", json.encode_string location, json.JString location);
     (str "Date", json.encode_string date, json.JString date);
     (str "CloudPercent", FormatFloat c, json.JNumber (FormatFloat c))].
  repeat match goal with
         | Hp : ParseFloat64 _ = Some _ |- _ => rewrite Hp; clear Hp
         end.
  reflexivity.
Qed.

(** What the consumers make of the four messages published for a sample:
    each sends on [metricsChan] a message with its topic, the ZIP code
    and the local date of the sample, and the values of its family as
    they were in the sample.  The ZIP code holds no dash, the location
    name is valid UTF-8, and the values are floats whose text is read
    back exactly. *)
Theorem published_values_arrive (location zipCode : gostring)
  (r : DailyResponse.t) :
  utf8.ValidString location = true ->
  ~ In "-"%char zipCode ->
  reads_back (DailyResponse.Main_Temp r) ->
  reads_back (DailyResponse.Main_FeelsLike r) ->
  reads_back (float64_of_int (DailyResponse.Main_Humidity r)) ->
  reads_back (DailyResponse.Wind_Speed r) ->
  reads_back (float64_of_int (DailyResponse.Wind_Deg r)) ->
  reads_back (float64_of_int (DailyResponse.Clouds_All r)) ->
  map (fun m => consume_message (kafka.Topic m) (kafka.Key m)
                  (kafka.Value m))
      (publish_sample location zipCode r)
  = map Done (consumed_sample zipCode r).
Proof.
  intros Hloc Hdash Ht Hf Hh Hs Hd Hc.
  pose proof (Format_date_valid (time.local_day (DailyResponse.Time r)))
    as Hdate.
  fold (time.Unix_Format_date (DailyResponse.Time r)) in Hdate.
  unfold publish_sample, consumed_sample.
  cbn [map kafka.Topic kafka.Key kafka.Value].
  rewrite consume_temperature, consume_humidity, consume_wind, consume_cloud
    by assumption.
  reflexivity.
Qed.

End Arrival.

(** ** Messages processed in either order *)

(** What a message does to one gauge vector does not depend on the store:
    it leaves the vector as it is, or it is a message of the vector's topic
    and sets one value at its (location, date). *)
Lemma update_gauges_effect (th : Thresholds) (msg : WeatherMessage.t)
  (g : Gauge) :
  (forall st st', update_gauges th msg st = Some st' -> st' g = st g)
  \/ (WeatherMessage.Topic msg = gauge_topic g
      /\ exists v, forall st st', update_gauges th msg st = Some st' ->
           st' g = <[(WeatherMessage.Zip msg, WeatherMessage.Date msg) := v]>
                     (st g)).
Proof.
  unfold update_gauges, WithLabelValues_Set, bind_gauges.
  destruct (utf8.ValidString _ && utf8.ValidString _) eqn:Hvalid.
  - gauge_cases;
      try match goal with
          | E : json.eqb_str _ _ = true |- _ => apply eqb_str_eq in E
          end;
      destruct g;
      first [left; intros st st' [= <-]; reflexivity
            |right; split; [assumption|];
             eexists; intros st st' [= <-]; reflexivity].
  - left. intros st st' Hup. gauge_cases; try discriminate.
    injection Hup as <-. reflexivity.
Qed.

(** Whether [update_gauges] panics does not depend on the store. *)
Lemma update_gauges_total (th : Thresholds) (msg : WeatherMessage.t)
  (st st' st0 : Gauges) :
  update_gauges th msg st = Some st' ->
  exists st0', update_gauges th msg st0 = Some st0'.
Proof.
  unfold update_gauges, WithLabelValues_Set, bind_gauges.
  destruct (utf8.ValidString _ && utf8.ValidString _);
    gauge_cases; intros Hup; try discriminate; eauto.
Qed.

(** Stores that agree on every vector still agree after a message. *)
Lemma update_gauges_agree (th : Thresholds) (msg : WeatherMessage.t)
  (a a' b b' : Gauges) :
  (forall g, a g = b g) ->
  update_gauges th msg a = Some a' ->
  update_gauges th msg b = Some b' ->
  forall g, a' g = b' g.
Proof.
  intros Hab Ua Ub g.
  destruct (update_gauges_effect th msg g) as [K|(_ & v & S)].
  - rewrite (K _ _ Ua), (K _ _ Ub). apply Hab.
  - rewrite (S _ _ Ua), (S _ _ Ub), Hab. reflexivity.
Qed.

Lemma update_gauges_commute (th : Thresholds) (m1 m2 : WeatherMessage.t)
  (st g1 g12 g2 g21 : Gauges) :
  independent m1 m2 ->
  update_gauges th m1 st = Some g1 ->
  update_gauges th m2 g1 = Some g12 ->
  update_gauges th m2 st = Some g2 ->
  update_gauges th m1 g2 = Some g21 ->
  forall g, g12 g = g21 g.
Proof.
  intros Hdiff U1 U12 U2 U21 g.
  destruct (update_gauges_effect th m1 g) as [K1|(T1 & v1 & S1)];
    destruct (update_gauges_effect th m2 g) as [K2|(T2 & v2 & S2)].
  - rewrite (K1 _ _ U21), (K2 _ _ U2), (K2 _ _ U12), (K1 _ _ U1).
    reflexivity.
  - rewrite (K1 _ _ U21), (S2 _ _ U2), (S2 _ _ U12), (K1 _ _ U1).
    reflexivity.
  - rewrite (S1 _ _ U21), (K2 _ _ U2), (K2 _ _ U12), (S1 _ _ U1).
    reflexivity.
  - rewrite (S1 _ _ U21), (S2 _ _ U2), (S2 _ _ U12), (S1 _ _ U1).
    symmetry. apply insert_insert_ne. destruct Hdiff as [Ht|Hk]; congruence.
Qed.

Lemma independent_sym (m1 m2 : WeatherMessage.t) :
  independent m1 m2 -> independent m2 m1.
Proof. unfold independent. intros [Ht|Hk]; [left|right]; congruence. Qed.

Lemma independent_perm (l l' : list WeatherMessage.t) :
  Permutation l l' ->
  ForallOrdPairs independent l -> ForallOrdPairs independent l'.
Proof.
  induction 1 as [|x l l' Hp IH|x y l|l l' l'' _ IH1 _ IH2];
    intros Hl; auto.
  - inversion Hl as [|? ? Hx Hrest]; subst. constructor; [|auto].
    eapply Permutation_Forall; eassumption.
  - inversion Hl as [|? ? Hy Hrest]; subst.
    inversion Hrest as [|? ? Hx Hrest']; subst.
    inversion Hy as [|? ? Hyx Hyl]; subst.
    constructor.
    + constructor; [apply independent_sym; exact Hyx|exact Hx].
    + constructor; assumption.
Qed.

Lemma update_all_agree (th : Thresholds) (l : list WeatherMessage.t) :
  forall a b a',
    (forall g, a g = b g) ->
    update_all th l a = Some a' ->
    exists b', update_all th l b = Some b' /\ forall g, a' g = b' g.
Proof.
  induction l as [|m l IH]; intros a b a' Hab Ha; cbn [update_all] in *.
  - injection Ha as <-. exists b. split; [reflexivity|exact Hab].
  - destruct (update_gauges th m a) as [a1|] eqn:Ua; [|discriminate].
    destruct (update_gauges_total th m _ _ b Ua) as [b1 Ub]. rewrite Ub.
    apply (IH a1 b1 a'); [|exact Ha].
    exact (update_gauges_agree th m a a1 b b1 Hab Ua Ub).
Qed.

Lemma update_all_perm (th : Thresholds) (l l' : list WeatherMessage.t) :
  Permutation l l' ->
  ForallOrdPairs independent l ->
  forall a b a',
    (forall g, a g = b g) ->
    update_all th l a = Some a' ->
    exists b', update_all th l' b = Some b' /\ forall g, a' g = b' g.
Proof.
  induction 1 as [|x l l' Hp IH|x y l|l l' l'' Hp1 IH1 Hp2 IH2];
    intros Hl a b a' Hab Ha.
  - injection Ha as <-. exists b. split; [reflexivity|exact Hab].
  - cbn [update_all] in *.
    destruct (update_gauges th x a) as [a1|] eqn:Ua; [|discriminate].
    destruct (update_gauges_total th x _ _ b Ua) as [b1 Ub]. rewrite Ub.
    inversion Hl; subst.
    apply (IH ltac:(assumption) a1 b1 a'); [|exact Ha].
    exact (update_gauges_agree th x a a1 b b1 Hab Ua Ub).
  - cbn [update_all] in *.
    destruct (update_gauges th y a) as [a1|] eqn:Uy; [|discriminate].
    destruct (update_gauges th x a1) as [a2|] eqn:Ux; [|discriminate].
    destruct (update_gauges_total th x _ _ b Ux) as [b1 Vx]. rewrite Vx.
    destruct (update_gauges_total th y _ _ b1 Uy) as [b2 Vy]. rewrite Vy.
    destruct (update_gauges_total th x _ _ a Ux) as [c1 Wx].
    destruct (update_gauges_total th y _ _ c1 Uy) as [c2 Wy].
    assert (Hyx : independent y x).
    { inversion Hl as [|? ? Hy _]; subst. inversion Hy; assumption. }
    assert (H2 : forall g, a2 g = b2 g).
    { intros g.
      rewrite (update_gauges_commute th y x a a1 a2 c1 c2 Hyx Uy Ux Wx Wy g).
      apply (update_gauges_agree th y c1 c2 b1 b2); [|exact Wy|exact Vy].
      exact (update_gauges_agree th x a c1 b b1 Hab Wx Vx). }
    exact (update_all_agree th l a2 b2 a' H2 Ha).
  - destruct (IH1 Hl a b a' Hab Ha) as (b1 & Hb1 & E1).
    destruct (IH2 (independent_perm _ _ Hp1 Hl) b b b1 (fun _ => eq_refl) Hb1)
      as (b2 & Hb2 & E2).
    exists b2. split; [exact Hb2|]. intros g. rewrite E1. apply E2.
Qed.

Section AnyOrder.
Context `{Strconv}.

Lemma aggregate_gauges (th : Thresholds) (msgs : list WeatherMessage.t) :
  forall st,
    match update_all th msgs (gauges st) with
    | Some g => exists st', aggregate th msgs st = Done st' /\ gauges st' = g
    | None => aggregate th msgs st = Panic
    end.
Proof.
  induction msgs as [|m rest IH]; intros st; cbn [update_all aggregate].
  - eauto.
  - unfold updateMetrics.
    destruct (update_gauges th m (gauges st)) as [g1|]; [|reflexivity].
    apply (IH (mkState g1 _)).
Qed.

(** The gauges do not depend on the order in which the messages are
    processed, when no two of them have both the same topic and the same
    (location, date): if the aggregator loop returns on the messages in one
    order, it returns on them in any other order, and every gauge vector
    ends with the same values. *)
Theorem aggregate_any_order (th : Thresholds)
  (msgs msgs' : list WeatherMessage.t) (st st1 : State) :
  Permutation msgs msgs' ->
  ForallOrdPairs independent msgs ->
  aggregate th msgs st = Done st1 ->
  exists st2, aggregate th msgs' st = Done st2
              /\ forall g, gauges st2 g = gauges st1 g.
Proof.
  intros Hp Hind Hrun.
  pose proof (aggregate_gauges th msgs st) as Hg.
  destruct (update_all th msgs (gauges st)) as [g1|] eqn:U1;
    [|rewrite Hrun in Hg; discriminate].
  destruct Hg as (st1' & Hrun' & <-).
  rewrite Hrun in Hrun'. injection Hrun' as <-.
  destruct (update_all_perm th msgs msgs' Hp Hind (gauges st) (gauges st)
              (gauges st1) (fun _ => eq_refl) U1) as (g2 & U2 & E).
  pose proof (aggregate_gauges th msgs' st) as Hg'. rewrite U2 in Hg'.
  destruct Hg' as (st2 & Hrun2 & <-).
  exists st2. split; [exact Hrun2|]. intros g. symmetry. apply E.
Qed.

End AnyOrder.

(** ** From the forecast to the gauges *)

Lemma update_gauges_succeeds (th : Thresholds) (msg : WeatherMessage.t)
  (st : Gauges) :
  utf8.ValidString (WeatherMessage.Zip msg) = true ->
  utf8.ValidString (WeatherMessage.Date msg) = true ->
  exists st', update_gauges th msg st = Some st'.
Proof.
  intros Hzip Hdate.
  unfold update_gauges, WithLabelValues_Set, bind_gauges.
  rewrite Hzip, Hdate. cbn [andb]. gauge_cases; eauto.
Qed.

Lemma update_gauges_off_topic (th : Thresholds) (msg : WeatherMessage.t)
  (g : Gauge) (st st' : Gauges) :
  update_gauges th msg st = Some st' ->
  WeatherMessage.Topic msg <> gauge_topic g ->
  st' g = st g.
Proof.
  intros Hup Hne.
  destruct (update_gauges_effect th msg g) as [K|(Ht & _)];
    [exact (K _ _ Hup)|contradiction].
Qed.

Section SampleToGauges.
Context `{StrconvLaws} `{Location}.

Lemma update_all_sample (th : Thresholds) (zipCode : gostring)
  (r : DailyResponse.t) (st : Gauges) :
  utf8.ValidString zipCode = true ->
  exists g',
    update_all th (consumed_sample zipCode r) st = Some g'
    /\ let reading g :=
         g' g !! (zipCode, time.Unix_Format_date (DailyResponse.Time r)) in
       let alert (b : bool) := Some (if b then 1%float else 0%float) in
       reading tempGauge = Some (DailyResponse.Main_Temp r)
       /\ reading feelsLikeGauge = Some (DailyResponse.Main_FeelsLike r)
       /\ reading humidityGauge
          = Some (float64_of_int (DailyResponse.Main_Humidity r))
       /\ reading windSpeedGauge = Some (DailyResponse.Wind_Speed r)
       /\ reading windDegreeGauge
          = Some (float64_of_int (DailyResponse.Wind_Deg r))
       /\ reading cloudGauge
          = Some (float64_of_int (DailyResponse.Clouds_All r))
       /\ reading alertTempHigh
          = alert (tempHigh th <? DailyResponse.Main_Temp r)%float
       /\ reading alertTempLow
          = alert (DailyResponse.Main_Temp r <? tempLow th)%float
       /\ reading alertHumidityHigh
          = alert (humidityHigh th
                   <? float64_of_int (DailyResponse.Main_Humidity r))%float
       /\ reading alertHumidityLow
          = alert (float64_of_int (DailyResponse.Main_Humidity r)
                   <? humidityLow th)%float
       /\ reading alertWindHigh
          = alert (windHigh th <? DailyResponse.Wind_Speed r)%float.
Proof.
  intros Hzip.
  pose proof (Format_date_valid (time.local_day (DailyResponse.Time r)))
    as Hdate.
  fold (time.Unix_Format_date (DailyResponse.Time r)) in Hdate.
  unfold consumed_sample.
  set (date := time.Unix_Format_date (DailyResponse.Time r)) in *.
  cbn [update_all].
  repeat match goal with
         | |- context [update_gauges th ?m ?s] =>
           let s' := fresh "s" in
           let U := fresh "U" in
           destruct (update_gauges_succeeds th m s Hzip Hdate) as [s' U];
           rewrite U
         end.
  eexists. split; [reflexivity|]. cbv zeta beta.
  repeat split;
    repeat match goal with
           | U : update_gauges _ ?m ?a = Some ?b |- ?b ?g !! _ = _ =>
             rewrite (update_gauges_off_topic th m g a b U)
               by (intros Ht; vm_compute in Ht; discriminate Ht)
           end;
    match goal with
    | U : update_gauges _ ?m ?a = Some ?b |- ?b ?g !! _ = _ =>
      unfold update_gauges in U;
      cbn [WeatherMessage.Topic WeatherMessage.Zip WeatherMessage.Date
           WeatherMessage.Temperature WeatherMessage.FeelsLike
           WeatherMessage.Humidity WeatherMessage.WindSpeed
           WeatherMessage.WindDegree WeatherMessage.Cloud] in U;
      repeat match type of U with
             | context [json.eqb_str ?x ?y] =>
               let v := eval vm_compute in (json.eqb_str x y) in
               change (json.eqb_str x y) with v in U
             end;
      cbv iota in U; gauge_sets
    end;
    repeat match goal with
           | Hs : WithLabelValues_Set ?g _ _ _ _ = Some ?s |- ?s ?g !! _ = _ =>
             exact (Set_lookup _ _ _ _ _ _ Hs)
           | Hs : WithLabelValues_Set ?g _ _ _ ?s0 = Some ?s
             |- ?s ?g' !! _ = _ =>
             rewrite (Set_other _ g' _ _ _ _ _ Hs) by discriminate
           end.
Qed.

(** From a sample of the forecast to the gauges: the four messages that
    [processRequest] publishes for the sample are decoded by the consumers,
    and once the aggregator loop has processed what they send, the six
    value gauges read, at the ZIP code and the local date of the sample,
    the values of the sample, and the five alert gauges read 1 or 0 as the
    value is beyond its threshold or not.  The ZIP code is valid UTF-8
    without a dash, the location name is valid UTF-8, and the values are
    floats whose text is read back exactly. *)
Theorem sample_reaches_gauges (th : Thresholds)
  (location zipCode : gostring) (r : DailyResponse.t) (st : State) :
  utf8.ValidString location = true ->
  utf8.ValidString zipCode = true ->
  ~ In "-"%char zipCode ->
  reads_back (DailyResponse.Main_Temp r) ->
  reads_back (DailyResponse.Main_FeelsLike r) ->
  reads_back (float64_of_int (DailyResponse.Main_Humidity r)) ->
  reads_back (DailyResponse.Wind_Speed r) ->
  reads_back (float64_of_int (DailyResponse.Wind_Deg r)) ->
  reads_back (float64_of_int (DailyResponse.Clouds_All r)) ->
  exists msgs st',
    map (fun m => consume_message (kafka.Topic m) (kafka.Key m)
                    (kafka.Value m))
        (publish_sample location zipCode r)
    = map Done msgs
    /\ aggregate th msgs st = Done st'
    /\ let reading g :=
         gauges st' g
           !! (zipCode, time.Unix_Format_date (DailyResponse.Time r)) in
       let alert (b : bool) := Some (if b then 1%float else 0%float) in
       reading tempGauge = Some (DailyResponse.Main_Temp r)
       /\ reading feelsLikeGauge = Some (DailyResponse.Main_FeelsLike r)
       /\ reading humidityGauge
          = Some (float64_of_int (DailyResponse.Main_Humidity r))
       /\ reading windSpeedGauge = Some (DailyResponse.Wind_Speed r)
       /\ reading windDegreeGauge
          = Some (float64_of_int (DailyResponse.Wind_Deg r))
       /\ reading cloudGauge
          = Some (float64_of_int (DailyResponse.Clouds_All r))
       /\ reading alertTempHigh
          = alert (tempHigh th <? DailyResponse.Main_Temp r)%float
       /\ reading alertTempLow
          = alert (DailyResponse.Main_Temp r <? tempLow th)%float
       /\ reading alertHumidityHigh
          = alert (humidityHigh th
                   <? float64_of_int (DailyResponse.Main_Humidity r))%float
       /\ reading alertHumidityLow
          = alert (float64_of_int (DailyResponse.Main_Humidity r)
                   <? humidityLow th)%float
       /\ reading alertWindHigh
          = alert (windHigh th <? DailyResponse.Wind_Speed r)%float.
Proof.
  intros Hloc Hzip Hdash Ht Hf Hh Hs Hd Hc.
  destruct (update_all_sample th zipCode r (gauges st) Hzip)
    as (g' & Hall & Hread).
  pose proof (aggregate_gauges th (consumed_sample zipCode r) st) as Hagg.
  rewrite Hall in Hagg. destruct Hagg as (st' & Hrun & <-).
  pose proof (Format_date_valid (time.local_day (DailyResponse.Time r)))
    as Hdate.
  fold (time.Unix_Format_date (DailyResponse.Time r)) in Hdate.
  exists (consumed_sample zipCode r), st'.
  split; [|split; [exact Hrun|exact Hread]].
  unfold publish_sample, consumed_sample.
  cbn [map kafka.Topic kafka.Key kafka.Value].
  rewrite consume_temperature, consume_humidity, consume_wind, consume_cloud
    by assumption.
  reflexivity.
Qed.

End SampleToGauges.

(** ** One line through the stages *)

Lemma parseLine_days (text : gostring) (lineNum : Z)
  (req : PreCoordinateRequest.t) :
  parseLine text lineNum = Some req ->
  1 <= PreCoordinateRequest.Days req <= 5.
Proof.
  unfold parseLine. destruct (negb _); [discriminate|].
  destruct (strconv.Atoi _) as [days|]; [|discriminate].
  destruct (Z.leb_spec days 0); [discriminate|].
  destruct (Z.ltb_spec 5 days); intros [= <-]; cbn; lia.
Qed.

Section OneLine.
Context `{Strconv} `{Location}.
Variable net : Providers.

Lemma convertToCoordinates_days (req : PreCoordinateRequest.t)
  (key : gostring) :
  match convertToCoordinates net req key with
  | Done None => True
  | Done (Some post) =>
    PostLocationRequest.Days post = PreCoordinateRequest.Days req
  | Exit code => code = 1
  | Panic => False
  end.
Proof.
  unfold convertToCoordinates.
  destruct (geocoding net _ key) as [|body]; [reflexivity|].
  destruct (json.Decode ZIPResponse.type body) as [v|]; [|reflexivity].
  destruct (json.any_eq_int _ 401); [reflexivity|].
  destruct (json.any_eq_string _ _); [exact I|reflexivity].
Qed.

Lemma processRequest_bounded (req : PostLocationRequest.t) (key : gostring) :
  0 <= PostLocationRequest.Days req ->
  8 * PostLocationRequest.Days req <= GoInt.max_int ->
  match processRequest net req key with
  | Done ms =>
    exists k : nat,
      Z.of_nat k <= PostLocationRequest.Days req
      /\ length ms = (4 * k)%nat
      /\ map kafka.Topic ms = concat (repeat topics k)
  | Exit code => code = 1
  | Panic => False
  end.
Proof.
  intros Hdays Hmax. unfold processRequest.
  destruct (forecast net _ _ _ key) as [|body]; [reflexivity|].
  destruct (json.Decode APIResponse.type body) as [v|]; [|reflexivity].
  destruct (negb _); [reflexivity|].
  set (samples := APIResponse.DaysList (APIResponse.of_value v)).
  set (days := PostLocationRequest.Days req) in *.
  set (covered := Z.min days ((Z.of_nat (length samples) + 7) / 8)).
  assert (Hcov : 0 <= covered <= days).
  { unfold covered. split; [|apply Z.le_min_l].
    apply Z.min_glb; [exact Hdays|]. apply Z.div_pos; lia. }
  assert (Hin : forall day, (day < Z.to_nat covered)%nat ->
                            (8 * day < length samples)%nat).
  { intros day Hday.
    assert (Z.of_nat day + 1 <= (Z.of_nat (length samples) + 7) / 8)
      by (unfold covered in *; lia).
    clear Hday Hcov. Z.div_mod_to_equations. lia. }
  destruct (chosen_samples_covered _ _ Hin) as [Hl _].
  assert (Hle : covered <= Z.of_nat (length samples)).
  { assert ((Z.of_nat (length samples) + 7) / 8
            <= Z.of_nat (length samples))
      by (clear; Z.div_mod_to_equations; lia).
    unfold covered. lia. }
  rewrite (publish_loop_short _ _ samples days Hdays Hmax
             (Z.to_nat covered) 0) by (fold covered; lia).
  change (omap (sample_at samples) (seq (Z.to_nat 0) (Z.to_nat covered)))
    with (chosen_samples (Z.to_nat covered) samples).
  exists (Z.to_nat covered).
  rewrite flat_map_publish_length, flat_map_publish_topics, Hl.
  repeat split. lia.
Qed.

(** Whatever the line, the log and the answers of the two providers, the
    way of a line through the stages ends in one of three ways: nothing
    is published (the line is refused, already in the log, or its ZIP code
    is unknown to the resolver); the process exits with status 1; or
    [4 * k] messages are published with [k] at most 5, the four topics in
    turn for each of the [k] days.  The forecast is never indexed past its
    end. *)
Theorem process_line_outcome (file : file_state) (now : Z)
  (key text : gostring) (lineNum : Z) :
  match process_line net file now key text lineNum with
  | Done ms =>
    exists k : nat,
      (k <= 5)%nat
      /\ length ms = (4 * k)%nat
      /\ map kafka.Topic ms = concat (repeat topics k)
  | Exit code => code = 1
  | Panic => False
  end.
Proof.
  unfold process_line.
  destruct (parseLine text lineNum) as [req|] eqn:Hparse.
  2:{ exists 0%nat. repeat split. lia. }
  apply parseLine_days in Hparse. unfold resolve_request.
  destruct (negb (isInTSDB file now req)).
  2:{ exists 0%nat. repeat split. lia. }
  pose proof (convertToCoordinates_days req key) as Hconv.
  destruct (convertToCoordinates net req key) as [[post|]|code|];
    [|exists 0%nat; repeat split; lia|exact Hconv|exact Hconv].
  pose proof (processRequest_bounded post key) as Hproc.
  rewrite Hconv in Hproc. unfold GoInt.max_int in Hproc.
  specialize (Hproc ltac:(lia) ltac:(lia)).
  destruct (processRequest net post key) as [ms|code|];
    [|exact Hproc|exact Hproc].
  destruct Hproc as (k & Hk & Hlen & Htopics).
  exists k. repeat split; [lia|exact Hlen|exact Htopics].
Qed.

End OneLine.

(** A message sets every gauge vector of its topic, at its
    (location, date). *)
Lemma update_gauges_on_topic (th : Thresholds) (msg : WeatherMessage.t)
  (g : Gauge) (st st' : Gauges) :
  update_gauges th msg st = Some st' ->
  WeatherMessage.Topic msg = gauge_topic g ->
  exists v, forall st0 st0', update_gauges th msg st0 = Some st0' ->
    st0' g = <[(WeatherMessage.Zip msg, WeatherMessage.Date msg) := v]>
               (st0 g).
Proof.
  intros Hup Htopic. unfold update_gauges in *. rewrite Htopic in *.
  unfold WithLabelValues_Set, bind_gauges in *.
  destruct (utf8.ValidString _ && utf8.ValidString _) eqn:Hvalid.
  - destruct g; cbn in Hup |- *;
      eexists; intros st0 st0' [= <-]; reflexivity.
  - destruct g; discriminate.
Qed.



(** ** Two aggregators on messages of one key *)

Lemma run_calls_app (a b : list set_call) (st : Gauges) :
  run_calls (a ++ b) st
  = match run_calls a st with
    | Some st' => run_calls b st'
    | None => None
    end.
Proof.
  revert st. induction a as [|c a IH]; intros st; cbn [app run_calls];
    [reflexivity|].
  destruct (WithLabelValues_Set _ _ _ _ st); [apply IH|reflexivity].
Qed.

(** [update_gauges] makes the calls of [calls_of], in order. *)
Lemma update_gauges_calls (th : Thresholds) (msg : WeatherMessage.t)
  (st : Gauges) :
  update_gauges th msg st = run_calls (calls_of th msg) st.
Proof.
  unfold update_gauges, calls_of, updateMetrics_sets.
  gauge_cases; cbn [map run_calls fst snd set_gauge set_zip set_date
                    set_value];
    unfold bind_gauges; try reflexivity;
    repeat match goal with
           | |- context [WithLabelValues_Set ?g ?z ?d ?v st] =>
             destruct (WithLabelValues_Set g z d v st) as [s|];
             cbv beta iota; [|reflexivity]; clear st; rename s into st
           end;
    reflexivity.
Qed.

Lemma updateMetrics_sets_topic (th : Thresholds) (msg : WeatherMessage.t)
  (g : Gauge) (v : float) :
  In (g, v) (updateMetrics_sets th msg) ->
  WeatherMessage.Topic msg = gauge_topic g.
Proof.
  unfold updateMetrics_sets. gauge_cases;
    repeat match goal with
           | E : json.eqb_str _ _ = true |- _ => apply eqb_str_eq in E
           end;
    cbn [In]; intros Hin;
    repeat match goal with
           | Hd : _ \/ _ |- _ => destruct Hd as [Hd|Hd]
           end;
    try contradiction; injection Hin as <- _; assumption.
Qed.

Lemma updateMetrics_sets_gauge (th : Thresholds) (msg : WeatherMessage.t)
  (g : Gauge) :
  WeatherMessage.Topic msg = gauge_topic g ->
  exists v, In (g, v) (updateMetrics_sets th msg).
Proof.
  intros Ht. unfold updateMetrics_sets. rewrite Ht.
  destruct g; cbn; eauto 8.
Qed.

Lemma interleave_In {A : Type} (schedule : list bool) :
  forall (a b : list A) (x : A),
    In x (interleave schedule a b) <-> In x a \/ In x b.
Proof.
  induction schedule as [|first schedule IH]; intros a b x;
    cbn [interleave].
  - apply in_app_iff.
  - destruct a as [|y a], b as [|z b]; cbn [In]; try tauto.
    destruct first; cbn [In]; rewrite IH; cbn [In]; tauto.
Qed.

(** What a sequence of calls with the same labels leaves in a vector: the
    vector as it was when no call names it, and otherwise the value of
    one of the calls that name it (the last one) at the labels. *)
Lemma run_calls_effect (zip date : gostring) (calls : list set_call) :
  forall st st',
    (forall c, In c calls -> set_zip c = zip /\ set_date c = date) ->
    run_calls calls st = Some st' ->
    forall g,
      (st' g = st g /\ forall c, In c calls -> set_gauge c <> g)
      \/ exists v, st' g = <[(zip, date) := v]> (st g)
                   /\ In (mkSet g zip date v) calls.
Proof.
  induction calls as [|c calls IH]; intros st st' Hkey Hrun g;
    cbn [run_calls] in Hrun.
  - injection Hrun as <-. left. split; [reflexivity|]. intros c [].
  - destruct (WithLabelValues_Set _ _ _ _ st) as [s1|] eqn:Hset;
      [|discriminate].
    destruct (Hkey c (or_introl eq_refl)) as [Hz Hd].
    assert (Hs1 : s1 g = if decide (g = set_gauge c)
                         then <[(zip, date) := set_value c]> (st g)
                         else st g).
    { unfold WithLabelValues_Set in Hset. rewrite Hz, Hd in Hset.
      destruct (_ && _); [|discriminate]. injection Hset as <-.
      reflexivity. }
    destruct (IH s1 st' (fun c' Hc' => Hkey c' (or_intror Hc')) Hrun g)
      as [[Heq Hno]|(v & Heq & Hin)]; rewrite Heq, Hs1.
    + destruct (decide (g = set_gauge c)) as [->|Hne].
      * right. exists (set_value c). split; [reflexivity|].
        left. destruct c; cbn in *. congruence.
      * left. split; [reflexivity|].
        intros c' [<-|Hc']; [congruence|auto].
    + right. exists v. split; [|right; exact Hin].
      destruct (decide (g = set_gauge c)); [|reflexivity].
      apply insert_insert_eq.
Qed.

(** Two aggregators process at once two messages of the same topic, ZIP
    code and date.  However their [Set] calls interleave, a vector of
    another topic is left as it was, and a vector of the topic holds at
    the labels the value that one of the two messages gives it; which of
    the two may differ from one vector to the next.  When the calls of
    the first message all come before those of the second, every vector
    is as the second message alone would leave it. *)
Theorem interleaved_updates_same_key (th : Thresholds)
  (m1 m2 : WeatherMessage.t) (schedule : list bool) (st st' : Gauges) :
  WeatherMessage.Topic m1 = WeatherMessage.Topic m2 ->
  WeatherMessage.Zip m1 = WeatherMessage.Zip m2 ->
  WeatherMessage.Date m1 = WeatherMessage.Date m2 ->
  run_calls (interleave schedule (calls_of th m1) (calls_of th m2)) st
  = Some st' ->
  (forall g,
     (WeatherMessage.Topic m1 <> gauge_topic g -> st' g = st g)
     /\ (WeatherMessage.Topic m1 = gauge_topic g ->
         exists v,
           st' g
           = <[(WeatherMessage.Zip m1, WeatherMessage.Date m1) := v]> (st g)
           /\ (In (g, v) (updateMetrics_sets th m1)
               \/ In (g, v) (updateMetrics_sets th m2))))
  /\ (interleave schedule (calls_of th m1) (calls_of th m2)
      = calls_of th m1 ++ calls_of th m2 ->
      exists st2, update_gauges th m2 st = Some st2
                  /\ forall g, st' g = st2 g).
Proof.
  intros Ht Hz Hd Hrun.
  assert (Hcalls : forall c,
            In c (interleave schedule (calls_of th m1) (calls_of th m2)) ->
            (set_zip c = WeatherMessage.Zip m1
             /\ set_date c = WeatherMessage.Date m1)
            /\ exists v, c = mkSet (set_gauge c) (WeatherMessage.Zip m1)
                               (WeatherMessage.Date m1) v
                         /\ (In (set_gauge c, v) (updateMetrics_sets th m1)
                             \/ In (set_gauge c, v)
                                  (updateMetrics_sets th m2))).
  { intros c Hc. apply interleave_In in Hc. unfold calls_of in Hc.
    rewrite !in_map_iff in Hc.
    destruct Hc as [([g v] & <- & Hin)|([g v] & <- & Hin)];
      cbn [set_zip set_date set_gauge fst snd]; rewrite <- ?Hz, <- ?Hd;
      (split; [split; reflexivity|]); exists v; (split; [reflexivity|]);
      auto. }
  split.
  - intros g.
    destruct (run_calls_effect (WeatherMessage.Zip m1)
                (WeatherMessage.Date m1) _ st st'
                (fun c Hc => proj1 (Hcalls c Hc)) Hrun g)
      as [[Heq Hno]|(v & Heq & Hin)].
    + split; [intros _; exact Heq|]. intros Hon. exfalso.
      destruct (updateMetrics_sets_gauge th m1 g Hon) as [v Hv].
      apply (Hno (mkSet g (WeatherMessage.Zip m1) (WeatherMessage.Date m1) v));
        [|reflexivity].
      apply interleave_In. left. unfold calls_of. apply in_map_iff.
      exists (g, v). split; [reflexivity|exact Hv].
    + destruct (Hcalls _ Hin) as (_ & v' & Hc & Hfrom).
      cbn [set_gauge] in Hc, Hfrom. injection Hc as <-.
      split.
      * intros Hoff. exfalso. apply Hoff.
        destruct Hfrom as [Hf|Hf];
          [|rewrite Ht]; eapply updateMetrics_sets_topic; exact Hf.
      * intros _. exists v. split; [exact Heq|exact Hfrom].
  - intros Hseq. rewrite Hseq, run_calls_app in Hrun.
    rewrite <- !update_gauges_calls in Hrun.
    destruct (update_gauges th m1 st) as [g1|] eqn:U1; [|discriminate].
    rewrite <- update_gauges_calls in Hrun.
    destruct (update_gauges_total th m2 _ _ st Hrun) as [st2 U2].
    exists st2. split; [exact U2|]. intros g.
    destruct (decide (WeatherMessage.Topic m2 = gauge_topic g))
      as [Hon|Hoff].
    + destruct (update_gauges_on_topic th m2 g _ _ U2 Hon) as [v2 S2].
      destruct (update_gauges_on_topic th m1 g _ _ U1 (eq_trans Ht Hon))
        as [v1 S1].
      rewrite (S2 _ _ Hrun), (S2 _ _ U2), (S1 _ _ U1), Hz, Hd.
      apply insert_insert_eq.
    + rewrite (update_gauges_off_topic th m2 g _ _ Hrun Hoff).
      rewrite (update_gauges_off_topic th m2 g _ _ U2 Hoff).
      apply (update_gauges_off_topic th m1 g _ _ U1). congruence.
Qed.

(** ** The statements at concrete inputs *)

(** The humidity message published for ZIP code 10001 and the sample of
    2026-01-01 12:00 UTC: its key splits into the ZIP code and the date. *)
Lemma key_roundtrip_witness :
  strings.SplitN2 (kafka.Key humidity_event) "-"%char
  = [str "10001"; str "2026-01-01"]
  /\ exists msg,
      @consume_message integer_strconv (kafka.Topic humidity_event)
        (kafka.Key humidity_event) (kafka.Value humidity_event) = Done msg
      /\ WeatherMessage.Zip msg = str "10001"
      /\ WeatherMessage.Date msg = str "2026-01-01"
      /\ WeatherMessage.Topic msg = str "humidity".
Proof.
  assert (Hdash : ~ In "-"%char (str "10001")).
  { cbn. intros [H|[H|[H|[H|[H|[]]]]]]; discriminate. }
  assert (Hm : In humidity_event
                 (@publish_sample integer_strconv UTC
                    (str "New York") (str "10001") noon_sample)).
  { right. left. reflexivity. }
  destruct (@key_roundtrip integer_strconv UTC (str "New York") (str "10001")
              noon_sample humidity_event Hdash Hm) as [Hsplit Hconsume].
  split; [exact Hsplit|].
  destruct (@WeatherMessage.Unmarshal integer_strconv
              (kafka.Value humidity_event))
    as [payload|] eqn:Hpayload; [|vm_compute in Hpayload; discriminate].
  exact (Hconsume payload eq_refl).
Defined.

(** A humidity message with the default thresholds, on an empty store:
    both humidity alerts read 0 and the temperature alerts are untouched. *)
Lemma alerts_follow_topic_witness :
  exists st',
    @updateMetrics integer_strconv default_thresholds humidity_message
      empty_state = Done st'
    /\ gauges st' alertHumidityLow !! (str "10001", str "2026-01-01")
       = Some 0%float
    /\ gauges st' alertHumidityHigh !! (str "10001", str "2026-01-01")
       = Some 0%float
    /\ gauges st' alertTempLow = gauges empty_state alertTempLow.
Proof.
  eexists. split; [reflexivity|].
  destruct (@alerts_follow_topic integer_strconv default_thresholds
              humidity_message empty_state _ eq_refl)
    as (_ & Hhumidity & _ & Hothers & _).
  destruct (Hhumidity eq_refl) as [[_ Hhigh] [_ Hlow]].
  split; [apply Hlow; reflexivity|].
  split; [apply Hhigh; reflexivity|].
  apply (Hothers alertTempLow (str "temperature")); [reflexivity|].
  intros Heq. vm_compute in Heq. discriminate.
Defined.

(** In [sample_env] the low temperature threshold and the worker count
    take their defaults, next to a high temperature threshold that is
    set. *)
Lemma configuration_defaults_witness :
  tempLow (@init integer_strconv sample_env) = 32%float
  /\ tempHigh (@init integer_strconv sample_env) = 95%float
  /\ humidityLow (@init integer_strconv sample_env) = 30%float
  /\ numWorkers sample_env = 10.
Proof.
  destruct (@configuration_defaults integer_strconv integer_strconv_laws
              sample_env)
    as (Hlow & _ & Hhum & _ & _ & Hworkers & _).
  split; [apply Hlow; right; reflexivity|].
  split; [vm_compute; reflexivity|].
  split; [apply Hhum; left; reflexivity|].
  apply Hworkers. right. reflexivity.
Defined.

(** A two-day request answered with sixteen samples: eight messages, the
    fifth of them with the date of the ninth sample in its key. *)
Lemma processRequest_publishes_witness :
  exists ms,
    @processRequest integer_strconv UTC afternoon_provider two_day_request
      (str "k") = Done ms
    /\ Z.of_nat (length ms) = 4 * 2
    /\ map kafka.Topic ms = topics ++ topics
    /\ option_map kafka.Key (nth_error ms 4) = Some (str "10001-2026-01-02").
Proof.
  destruct (@processRequest_publishes integer_strconv UTC afternoon_provider
              two_day_request (str "k") (forecast_body 1767279600 16)
              afternoon_forecast)
    as (ms & chosen & Hrun & _ & _ & Hlen & Htopics & Hdays).
  - cbv zeta. vm_compute. discriminate.
  - reflexivity.
  - vm_compute. reflexivity.
  - vm_compute. reflexivity.
  - cbv zeta. split; vm_compute; discriminate.
  - exists ms. split; [exact Hrun|]. split; [exact Hlen|].
    split; [rewrite Htopics; vm_compute; reflexivity|].
    destruct (Hdays 1%nat) as (r & Hr & Htemp & _); [vm_compute; reflexivity|].
    cbv zeta in Htemp. change (4 * 1)%nat with 4%nat in Htemp.
    rewrite Htemp. cbn [option_map kafka.Key].
    vm_compute in Hr. injection Hr as <-. vm_compute. reflexivity.
Defined.

(** A two-day request answered with sixteen samples: the samples at
    positions 0 and 8 are the ones published. *)
Lemma processRequest_every_eighth_witness :
  forecast_cnt two_day_request = 16
  /\ exists chosen,
      @processRequest integer_strconv UTC afternoon_provider two_day_request
        (str "k")
      = Done (flat_map (@publish_sample integer_strconv UTC (str "New York")
                          (str "10001")) chosen)
      /\ nth_error chosen 0 = nth_error (three_hourly 1767279600 16) 0
      /\ nth_error chosen 1 = nth_error (three_hourly 1767279600 16) 8.
Proof.
  destruct (@processRequest_every_eighth integer_strconv UTC afternoon_provider
              two_day_request (str "k") (forecast_body 1767279600 16)
              afternoon_forecast)
    as (Hcnt & chosen & Hrun & _ & _ & Hnth).
  - cbv zeta. vm_compute. discriminate.
  - cbv zeta. vm_compute. discriminate.
  - reflexivity.
  - vm_compute. reflexivity.
  - vm_compute. reflexivity.
  - split; [exact Hcnt|]. exists chosen. split; [exact Hrun|].
    split.
    + destruct (Hnth 0%nat) as (r & -> & <- & _); [vm_compute; reflexivity|].
      vm_compute. reflexivity.
    + destruct (Hnth 1%nat) as (r & -> & <- & _); [vm_compute; reflexivity|].
      vm_compute. reflexivity.
Defined.


(** A one-day request for ZIP code 10001 with a rejected key. *)
Lemma invalid_key_is_forwarded_witness :
  @convertToCoordinates integer_strconv rejecting_provider one_day_request
    (str "expired")
  = Done (Some (PostLocationRequest.mk 1 [] 0%float 0%float (str "10001") 1)).
Proof.
  destruct (@invalid_key_is_forwarded integer_strconv UTC rejecting_provider
              one_day_request (str "expired") (float_of_Z 401) FileAbsent
              1767268800)
    as [Hforwarded _].
  - reflexivity.
  - vm_compute. reflexivity.
  - reflexivity.
  - exact Hforwarded.
Defined.


(** A two-day request with a rejected key, in the fetch stage. *)
Lemma invalid_key_exits_in_fetch_witness :
  @processRequest integer_strconv UTC rejecting_provider two_day_request
    (str "expired") = Exit 1.
Proof.
  apply (@invalid_key_exits_in_fetch integer_strconv UTC rejecting_provider
           two_day_request (str "expired") (float_of_Z 401)).
  - reflexivity.
  - vm_compute. reflexivity.
Defined.

(** A record of ZIP code 12601 behind a line of 64 KiB is not found,
    the record of 10001 before that line is. *)
Lemma overlong_line_ends_scan_witness :
  @isInTSDB integer_strconv UTC
    (FilePresent (overlong_line ++ newline :: one_record_log))
    1767268800 one_day_request = false
  /\ @isInTSDB integer_strconv UTC
       (FilePresent (one_record_log ++ overlong_line
                     ++ newline :: wind_record_log))
       1767268800 two_day_lookup = false
  /\ @isInTSDB integer_strconv UTC
       (FilePresent (one_record_log ++ overlong_line
                     ++ newline :: wind_record_log))
       1767268800 one_day_request = true.
Proof.
  assert (Hnl : ~ In newline overlong_line).
  { intros Hin. apply repeat_spec in Hin. discriminate. }
  assert (Hlen : MaxScanTokenSize <= Z.of_nat (length overlong_line)).
  { unfold overlong_line, MaxScanTokenSize. rewrite repeat_length. lia. }
  assert (Hend : newline_terminated one_record_log).
  { right. eexists. reflexivity. }
  split; [|split].
  - exact (@overlong_line_ends_scan integer_strconv UTC [] overlong_line
             (newline :: one_record_log) 1767268800 one_day_request
             (or_introl eq_refl) Hnl Hlen
             (or_intror (ex_intro _ one_record_log eq_refl))).
  - rewrite (@overlong_line_ends_scan integer_strconv UTC one_record_log
               overlong_line (newline :: wind_record_log)
               1767268800 two_day_lookup Hend Hnl Hlen
               (or_intror (ex_intro _ wind_record_log eq_refl))).
    vm_compute. reflexivity.
  - rewrite (@overlong_line_ends_scan integer_strconv UTC one_record_log
               overlong_line (newline :: wind_record_log)
               1767268800 one_day_request Hend Hnl Hlen
               (or_intror (ex_intro _ wind_record_log eq_refl))).
    vm_compute. reflexivity.
Defined.

(** The rejected key again: [convertToCoordinates] returns. *)
Lemma convertToCoordinates_decoded_returns_witness :
  exists r,
    @convertToCoordinates integer_strconv rejecting_provider one_day_request
      (str "expired") = Done r.
Proof.
  apply (@convertToCoordinates_decoded_returns integer_strconv
           rejecting_provider one_day_request (str "expired")
           invalid_key_body
           (default (json.zero ZIPResponse.type)
              (@json.Decode integer_strconv ZIPResponse.type
                 invalid_key_body))).
  - reflexivity.
  - vm_compute. reflexivity.
Defined.

(** The value of [humidity_event] under a key without a dash. *)
Lemma consume_key_without_dash_witness :
  @consume_message integer_strconv (str "humidity") (str "10001")
    (kafka.Value humidity_event) = Panic.
Proof.
  apply (@consume_key_without_dash integer_strconv (str "humidity")
           (str "10001") (kafka.Value humidity_event)
           (default WeatherMessage.zero
              (@WeatherMessage.Unmarshal integer_strconv
                 (kafka.Value humidity_event)))).
  - cbn. intros [Hc|[Hc|[Hc|[Hc|[Hc|[]]]]]]; discriminate.
  - vm_compute. reflexivity.
Defined.

(** ZIP code 12601-1234: the Zip is 12601 and the Date 1234-2026-01-01. *)
Lemma consume_dashed_zip_witness :
  exists msg,
    @consume_message integer_strconv (kafka.Topic zip4_event)
      (kafka.Key zip4_event) (kafka.Value zip4_event) = Done msg
    /\ WeatherMessage.Zip msg = str "12601"
    /\ WeatherMessage.Date msg = str "1234-2026-01-01".
Proof.
  apply (@consume_dashed_zip integer_strconv UTC (str "Poughkeepsie")
           (str "12601") (str "1234") noon_sample zip4_event
           (default WeatherMessage.zero
              (@WeatherMessage.Unmarshal integer_strconv
                 (kafka.Value zip4_event)))).
  - cbn. intros [Hc|[Hc|[Hc|[Hc|[Hc|[]]]]]]; discriminate.
  - right. left. reflexivity.
  - vm_compute. reflexivity.
Defined.

(** The wind message, after the humidity message. *)
Lemma updateMetrics_readings_witness :
  gauges after_two_messages windSpeedGauge
    !! (str "12601", str "2026-01-02") = Some 12%float
  /\ gauges after_two_messages windDegreeGauge
       !! (str "12601", str "2026-01-02") = Some 270%float.
Proof.
  assert (Hrun : @updateMetrics integer_strconv default_thresholds
                   wind_message after_humidity_message
                 = Done after_two_messages) by reflexivity.
  destruct (@updateMetrics_readings integer_strconv default_thresholds
              wind_message after_humidity_message after_two_messages Hrun)
    as (_ & _ & Hwind & _).
  exact (Hwind eq_refl).
Defined.
(** The humidity reading of 10001 is still there after the wind message
    of 12601. *)
Lemma updateMetrics_frame_witness :
  gauges after_two_messages humidityGauge
    !! (str "10001", str "2026-01-01") = Some 50%float.
Proof.
  assert (Hrun : @updateMetrics integer_strconv default_thresholds
                   wind_message after_humidity_message
                 = Done after_two_messages) by reflexivity.
  assert (Hne : (str "10001", str "2026-01-01")
                <> (WeatherMessage.Zip wind_message,
                    WeatherMessage.Date wind_message))
    by (intros Heq; discriminate Heq).
  rewrite (@updateMetrics_frame integer_strconv default_thresholds
             wind_message after_humidity_message after_two_messages
             humidityGauge (str "10001") (str "2026-01-01") Hrun Hne).
  vm_compute. reflexivity.
Defined.
Lemma updateMetrics_invalid_label_witness :
  @updateMetrics integer_strconv default_thresholds bad_label_message
    empty_state = Panic.
Proof.
  apply (@updateMetrics_invalid_label integer_strconv).
  - right. right. left. reflexivity.
  - left. vm_compute. reflexivity.
Defined.

(** The record of 10001 is still found after the wind message of 12601
    has been appended. *)
Lemma dedup_survives_append_witness :
  @isInTSDB integer_strconv UTC (metricsFile after_wind_message) 1767268800
    one_day_request = true.
Proof.
  apply (@dedup_survives_append integer_strconv UTC default_thresholds
           wind_message (mkState no_gauges (FilePresent one_record_log))
           after_wind_message one_record_log 1767268800 one_day_request).
  - reflexivity.
  - right. eexists. reflexivity.
  - vm_compute. reflexivity.
  - reflexivity.
Defined.


Lemma recorded_location_has_dashboard_witness :
  str "12601" ∈ @getAllZipCodes integer_strconv
                  (metricsFile after_wind_message).
Proof.
  apply (@recorded_location_has_dashboard integer_strconv
           integer_strconv_laws default_thresholds wind_message
           (mkState no_gauges (FilePresent one_record_log))
           after_wind_message one_record_log
           (default [] (@WeatherMessage.Marshal integer_strconv
                          wind_message))).
  - right. right. left. reflexivity.
  - reflexivity.
  - right. eexists. reflexivity.
  - vm_compute. reflexivity.
  - vm_compute. reflexivity.
  - vm_compute. reflexivity.
  - reflexivity.
Defined.

(** Sixty seconds, and a Grafana that never answers: the call returns
    within the thirty-two turns. *)
Lemma waitForGrafana_returns_witness :
  is_Some (waitForGrafana grafanaTimeout silent_grafana).
Proof.
  apply (waitForGrafana_returns grafanaTimeout silent_grafana).
  - vm_compute. discriminate.
  - intros k p e Hnth.
    assert (Hk : (k < 32)%nat).
    { change 32%nat with (length silent_grafana).
      apply nth_error_Some. rewrite Hnth. discriminate. }
    unfold silent_grafana in Hnth.
    rewrite nth_error_map in Hnth.
    rewrite (nth_error_nth' _ 0%nat) in Hnth by (rewrite length_seq; exact Hk).
    rewrite seq_nth in Hnth by exact Hk.
    injection Hnth as _ <-. lia.
  - vm_compute. discriminate.
Defined.

(** Five days asked, ten samples received: two days are published, from
    the samples at positions 0 and 8. *)
Lemma processRequest_short_forecast_witness :
  exists chosen,
    @processRequest integer_strconv UTC short_provider five_day_request
      (str "k")
    = Done (flat_map (@publish_sample integer_strconv UTC (str "New York")
                        (str "10001")) chosen)
    /\ Z.of_nat (length chosen) = 2
    /\ nth_error chosen 1 = nth_error (three_hourly 1767279600 10) 8.
Proof.
  destruct (@processRequest_short_forecast integer_strconv UTC
              short_provider five_day_request (str "k")
              (forecast_body 1767279600 10) short_forecast)
    as (chosen & Hrun & Hlen & Hnth).
  - cbv zeta. vm_compute. discriminate.
  - cbv zeta. vm_compute. discriminate.
  - reflexivity.
  - vm_compute. reflexivity.
  - vm_compute. reflexivity.
  - exists chosen. split; [exact Hrun|]. split; [exact Hlen|].
    rewrite (Hnth 1%nat) by (vm_compute; reflexivity).
    vm_compute. reflexivity.
Defined.

(** The complete run of one line, cut when [main] waits for the file
    goroutines: the four pools are complete. *)
Lemma workers_stay_until_closed_witness :
  exists s,
    main.run (firstn 22 one_line_schedule) (main.start 1 1) = Some s
    /\ main.zipCodeWG s = 1%nat /\ main.resultsWG s = 1%nat
    /\ main.promWG s = 1%nat /\ main.kafkaWG s = 4%nat.
Proof.
  set (s := default (main.start 1 1)
              (main.run (firstn 22 one_line_schedule) (main.start 1 1))).
  assert (Hrun : main.run (firstn 22 one_line_schedule) (main.start 1 1)
                 = Some s) by (vm_compute; reflexivity).
  exists s. split; [exact Hrun|].
  destruct (workers_stay_until_closed 1 1 _ s Hrun)
    as (Hzip & Hres & Hprom & Hkafka).
  - vm_compute. reflexivity.
  - split; [apply Hzip; vm_compute; reflexivity|].
    split; [apply Hres; vm_compute; reflexivity|].
    split; [apply Hprom; vm_compute; reflexivity|].
    apply Hkafka. vm_compute. reflexivity.
Defined.

(** The complete run of one line. *)
Lemma main_joins_all_pools_witness :
  main.promWG one_line_end = 0%nat /\ main.resultsWG one_line_end = 0%nat
  /\ main.requestsChan_closed one_line_end = true.
Proof.
  assert (Hrun : main.run one_line_schedule (main.start 1 1)
                 = Some one_line_end) by (vm_compute; reflexivity).
  destruct (main_joins_all_pools 1 1 one_line_schedule one_line_end Hrun)
    as ((_ & _ & Hres & _ & Hprom) & _ & Hreq & _).
  - vm_compute. reflexivity.
  - auto.
Defined.


(** The sample of 28 degrees for ZIP code 12601, with the instance that
    writes integers in decimal. *)
Lemma published_values_arrive_witness :
  map (fun m => @consume_message decimal_strconv (kafka.Topic m)
                  (kafka.Key m) (kafka.Value m))
      (@publish_sample decimal_strconv UTC (str "Poughkeepsie")
         (str "12601") cold_sample)
  = map Done (@consumed_sample UTC (str "12601") cold_sample).
Proof.
  apply (@published_values_arrive decimal_strconv decimal_strconv_laws UTC).
  - vm_compute. reflexivity.
  - cbn. intros [Hc|[Hc|[Hc|[Hc|[Hc|[]]]]]]; discriminate.
  - split; vm_compute; reflexivity.
  - split; vm_compute; reflexivity.
  - split; vm_compute; reflexivity.
  - split; vm_compute; reflexivity.
  - split; vm_compute; reflexivity.
  - split; vm_compute; reflexivity.
Defined.

Lemma aggregate_any_order_witness :
  exists st2,
    aggregate (H := integer_strconv) default_thresholds
      [wind_message; humidity_message] empty_state = Done st2
    /\ forall g, gauges st2 g = gauges after_two_messages g.
Proof.
  assert (Hrun : aggregate (H := integer_strconv) default_thresholds
                   [humidity_message; wind_message] empty_state
                 = Done after_two_messages) by reflexivity.
  apply (aggregate_any_order (H := integer_strconv) default_thresholds
           [humidity_message; wind_message] [wind_message; humidity_message]
           empty_state after_two_messages); [| |exact Hrun].
  - apply perm_swap.
  - repeat constructor. discriminate.
Defined.

Lemma sample_reaches_gauges_witness :
  exists msgs st',
    map (fun m => @consume_message decimal_strconv (kafka.Topic m)
                    (kafka.Key m) (kafka.Value m))
        (@publish_sample decimal_strconv UTC (str "Poughkeepsie")
           (str "12601") cold_sample)
    = map Done msgs
    /\ @aggregate decimal_strconv default_thresholds msgs empty_state
       = Done st'
    /\ gauges st' tempGauge !! (str "12601", str "2026-01-01")
       = Some 28%float
    /\ gauges st' alertTempLow !! (str "12601", str "2026-01-01")
       = Some 1%float.
Proof.
  destruct (@sample_reaches_gauges decimal_strconv decimal_strconv_laws UTC
              default_thresholds (str "Poughkeepsie") (str "12601")
              cold_sample empty_state)
    as (msgs & st' & Hmsgs & Hrun & Htemp & _ & _ & _ & _ & _ & _ & Hlow & _).
  - vm_compute. reflexivity.
  - vm_compute. reflexivity.
  - cbn. intros [Hc|[Hc|[Hc|[Hc|[Hc|[]]]]]]; discriminate.
  - split; vm_compute; reflexivity.
  - split; vm_compute; reflexivity.
  - split; vm_compute; reflexivity.
  - split; vm_compute; reflexivity.
  - split; vm_compute; reflexivity.
  - split; vm_compute; reflexivity.
  - exists msgs, st'. repeat split; assumption.
Defined.

(** The calls of [humidity_message] (humidity 50) and of
    [later_humidity_message] (humidity 85, beyond the threshold of 70)
    interleave as in [mixed_schedule]: the humidity gauge reads 85 and the
    high-humidity alert reads 0. *)
Lemma interleaved_updates_same_key_witness :
  run_calls
    (interleave mixed_schedule
       (calls_of default_thresholds humidity_message)
       (calls_of default_thresholds later_humidity_message))
    no_gauges = Some mixed_gauges
  /\ mixed_gauges tempGauge = no_gauges tempGauge
  /\ mixed_gauges humidityGauge !! (str "10001", str "2026-01-01")
     = Some 85%float
  /\ mixed_gauges alertHumidityHigh !! (str "10001", str "2026-01-01")
     = Some 0%float.
Proof.
  assert (Hrun : run_calls
                   (interleave mixed_schedule
                      (calls_of default_thresholds humidity_message)
                      (calls_of default_thresholds later_humidity_message))
                   no_gauges = Some mixed_gauges) by reflexivity.
  split; [exact Hrun|].
  destruct (interleaved_updates_same_key default_thresholds humidity_message
              later_humidity_message mixed_schedule no_gauges mixed_gauges
              eq_refl eq_refl eq_refl Hrun) as [Hmix _].
  split; [apply (Hmix tempGauge); discriminate|].
  split; vm_compute; reflexivity.
Defined.
